(** * BrowserFreak: the workflow engine, the rule-based decision provider,
      the security gate and the tool executor

    A shallow embedding of [browserfreak/security.py],
    [browserfreak/decision_engine.py], [browserfreak/tools.py] and
    [browserfreak/browser_agent.py], followed by the properties of the
    specification that concern them.

    Conventions of the embedding.
    - Python [str] is [string], the text in UTF-8: a character of ASCII is
      one [ascii], a character beyond ASCII takes two to four.  [strip] is
      Python's on every text: it takes the white space of [str.isspace]
      inside and outside ASCII.  [lower], [upper], [repr], the classes of
      [re] ([\b], [\d], [\s], [.]) and the folding of [re.IGNORECASE] go
      [ascii] by [ascii] with the tables of ASCII, and lengths and slices
      count [ascii]s: they are Python's on a text of ASCII
      ([PyStr.is_ascii]).  A property that would not hold of the code on
      other texts is stated for texts of ASCII.
    - [int] on a run of digits raises [ValueError] beyond the number of
      digits the interpreter converts ([Py.int_max_str_digits], 4300 unless
      reconfigured).
    - A Python [dict] used as a keyword-argument mapping is an association
      list in insertion order; a value of type [Any] is a [PyVal]: a string,
      an integer, a boolean or [None] (floating-point numbers and nested
      containers are left out).
    - An [async] function that logs or touches the browser is a computation
      in the monad [M]: it reads the history of events so far, appends its own
      events, and returns a value or raises.  What the browser, the AI backend
      and the clock answer is given by an [Env], an oracle over the history. *)

From Stdlib Require Import String Ascii List ZArith Lia Bool Arith DecimalString.
Import ListNotations.
Open Scope string_scope.

(** ** Python strings *)

Module PyStr.

Definition code (c : ascii) : nat := nat_of_ascii c.

Definition in_range (lo hi : nat) (c : ascii) : bool :=
  ((lo <=? code c) && (code c <=? hi))%nat.

(** [str.isspace] on one character of ASCII: TAB..CR, FS..US and the
    blank. *)
Definition is_space (c : ascii) : bool :=
  in_range 9 13 c || in_range 28 32 c.

(** The white space of [str.isspace] outside ASCII, by its bytes: U+0085 and
    U+00A0 take two, *)
Definition wide2 (a b : ascii) : bool :=
  (code a =? 194)%nat && ((code b =? 133) || (code b =? 160))%nat.

(** and U+1680, U+2000..U+200A, U+2028, U+2029, U+202F, U+205F and U+3000
    take three. *)
Definition wide3 (a b c : ascii) : bool :=
  ((code a =? 225) && (code b =? 154) && (code c =? 128))%nat
  || ((code a =? 226) && (code b =? 128))%nat
     && (in_range 128 138 c || (code c =? 168) || (code c =? 169) || (code c =? 175))%nat
  || ((code a =? 226) && (code b =? 129) && (code c =? 159))%nat
  || ((code a =? 227) && (code b =? 128) && (code c =? 128))%nat.

(** [s] is one white-space character outside ASCII. *)
Definition is_wide (s : string) : bool :=
  match s with
  | String a (String b EmptyString) => wide2 a b
  | String a (String b (String c EmptyString)) => wide3 a b c
  | _ => false
  end.

(** [s] starts with a white-space character. *)
Definition starts_blank (s : string) : bool :=
  match s with
  | String a s1 =>
      is_space a
      || match s1 with
         | String b s2 =>
             wide2 a b
             || match s2 with
                | String c _ => wide3 a b c
                | EmptyString => false
                end
         | EmptyString => false
         end
  | EmptyString => false
  end.

(** Every character of [s] is in ASCII. *)
Fixpoint is_ascii (s : string) : bool :=
  match s with
  | EmptyString => true
  | String c s' => (code c <? 128)%nat && is_ascii s'
  end.

Definition is_digit (c : ascii) : bool := in_range 48 57 c.
Definition is_upper (c : ascii) : bool := in_range 65 90 c.
Definition is_lower (c : ascii) : bool := in_range 97 122 c.

(** The class [\w] on ASCII: letters, digits and the underscore.  Outside
    ASCII Python has further word characters; none is taken here. *)
Definition is_word (c : ascii) : bool :=
  is_digit c || is_upper c || is_lower c || (code c =? 95)%nat.

(** [str.lower] and [str.upper] on one character of ASCII; whatever is not
    a letter of ASCII is left as it is. *)
Definition lower_char (c : ascii) : ascii :=
  if is_upper c then ascii_of_nat (code c + 32) else c.

Definition upper_char (c : ascii) : ascii :=
  if is_lower c then ascii_of_nat (code c - 32) else c.

Fixpoint map_chars (f : ascii -> ascii) (s : string) : string :=
  match s with
  | EmptyString => EmptyString
  | String c s' => String (f c) (map_chars f s')
  end.

(** [s.lower()] and [s.upper()] *)
Definition lower (s : string) : string := map_chars lower_char s.
Definition upper (s : string) : string := map_chars upper_char s.

(** [s.lstrip()]: the white-space characters at the start go, those of
    ASCII and the wider ones. *)
Fixpoint lstrip (s : string) : string :=
  match s with
  | String a s1 =>
      if is_space a then lstrip s1
      else
        match s1 with
        | String b s2 =>
            if wide2 a b then lstrip s2
            else
              match s2 with
              | String c s3 => if wide3 a b c then lstrip s3 else s
              | EmptyString => s
              end
        | EmptyString => s
        end
  | EmptyString => EmptyString
  end.

(** [s.rstrip()]: what is left of [s] once the white space after it is
    gone ends in no white-space character. *)
Fixpoint rstrip (s : string) : string :=
  match s with
  | EmptyString => EmptyString
  | String c s' =>
      match rstrip s' with
      | EmptyString => if is_space c then EmptyString else String c EmptyString
      | String d t =>
          if is_wide (String c (String d t)) then EmptyString
          else String c (String d t)
      end
  end.

(** [s.strip()] *)
Definition strip (s : string) : string := rstrip (lstrip s).

(** [sub in s] *)
Fixpoint contains (sub s : string) : bool :=
  String.prefix sub s ||
  match s with
  | EmptyString => false
  | String _ s' => contains sub s'
  end.

(** [s[:n]] for [n >= 0] *)
Fixpoint take (n : nat) (s : string) : string :=
  match n, s with
  | S n', String c s' => String c (take n' s')
  | _, _ => EmptyString
  end.

(** [sep.join(l)] *)
Definition join (sep : string) (l : list string) : string := String.concat sep l.

(** Truth value of a string: [bool(s)] *)
Definition truthy (s : string) : bool := negb (s =? EmptyString).

Definition hex_digit (n : nat) : ascii :=
  if (n <? 10)%nat then ascii_of_nat (48 + n) else ascii_of_nat (87 + n).

Definition quote1 : ascii := "'"%char.
Definition quote2 : ascii := ascii_of_nat 34.
Definition backslash : ascii := "\"%char.

Definition has_char (c : ascii) (s : string) : bool :=
  contains (String c EmptyString) s.

(** The quote [repr] puts around a string: a double quote when the string
    holds a single quote and no double quote, a single quote otherwise. *)
Definition repr_quote (s : string) : ascii :=
  if has_char quote1 s && negb (has_char quote2 s) then quote2 else quote1.

Definition repr_char (q c : ascii) : string :=
  if Ascii.eqb c q || Ascii.eqb c backslash then String backslash (String c EmptyString)
  else if (code c =? 9)%nat then String backslash "t"
  else if (code c =? 10)%nat then String backslash "n"
  else if (code c =? 13)%nat then String backslash "r"
  else if ((code c <? 32) || (code c =? 127))%nat then
    String backslash
      (String "x"%char
         (String (hex_digit (code c / 16)) (String (hex_digit (code c mod 16)) EmptyString)))
  else String c EmptyString.

Fixpoint repr_body (q : ascii) (s : string) : string :=
  match s with
  | EmptyString => EmptyString
  | String c s' => repr_char q c ++ repr_body q s'
  end.

(** [repr(s)] *)
Definition repr (s : string) : string :=
  let q := repr_quote s in
  String q (repr_body q s ++ String q EmptyString).

(** [str(n)] for an [int] *)
Definition of_Z (z : Z) : string := NilZero.string_of_int (Z.to_int z).
Definition of_nat (n : nat) : string := of_Z (Z.of_nat n).

(** The number a run of decimal digits writes *)
Fixpoint digits_value (acc : Z) (s : string) : Z :=
  match s with
  | EmptyString => acc
  | String c s' => digits_value (10 * acc + Z.of_nat (code c - 48)) s'
  end.

End PyStr.

(** ** Python values, exceptions and keyword-argument mappings *)

Inductive PyVal : Type :=
| VStr (s : string)
| VInt (z : Z)
| VBool (b : bool)
| VNone.

Definition Dict : Type := list (string * PyVal).

Record Exn : Type := mkExn { exn_type : string; exn_msg : string }.

Inductive Res (A : Type) : Type :=
| Ok (a : A)
| Raise (e : Exn).
Arguments Ok {A} a.
Arguments Raise {A} e.

Module Py.

Definition type_name (v : PyVal) : string :=
  match v with
  | VStr _ => "str"
  | VInt _ => "int"
  | VBool _ => "bool"
  | VNone => "NoneType"
  end.

(** [str(v)], as an f-string renders a value *)
Definition str (v : PyVal) : string :=
  match v with
  | VStr s => s
  | VInt z => PyStr.of_Z z
  | VBool true => "True"
  | VBool false => "False"
  | VNone => "None"
  end.

Definition repr (v : PyVal) : string :=
  match v with
  | VStr s => PyStr.repr s
  | _ => str v
  end.

Definition str_bool (b : bool) : string := str (VBool b).

(** [d.get(k)] *)
Fixpoint get (d : Dict) (k : string) : option PyVal :=
  match d with
  | [] => None
  | (k', v) :: d' => if k' =? k then Some v else get d' k
  end.

(** [d.get(k, default)] *)
Definition get_default (d : Dict) (k : string) (default : PyVal) : PyVal :=
  match get d k with
  | Some v => v
  | None => default
  end.

Definition has_key (d : Dict) (k : string) : bool :=
  match get d k with Some _ => true | None => false end.

(** [str(d)] of a dict *)
Definition repr_dict (d : Dict) : string :=
  "{" ++ PyStr.join ", "
           (map (fun kv => PyStr.repr (fst kv) ++ ": " ++ repr (snd kv)) d)
      ++ "}".

Definition AttributeError (v : PyVal) (attr : string) : Exn :=
  mkExn "AttributeError"
        ("'" ++ type_name v ++ "' object has no attribute '" ++ attr ++ "'").

Definition NotSubscriptable (v : PyVal) : Exn :=
  mkExn "TypeError" ("'" ++ type_name v ++ "' object is not subscriptable").

Definition KeyError (k : string) : Exn := mkExn "KeyError" (PyStr.repr k).

Definition ValidationError (msg : string) : Exn := mkExn "ValidationError" msg.

(** [sys.get_int_max_str_digits()], as the interpreter starts with it *)
Definition int_max_str_digits : nat := 4300.

Definition int_limit_error (digits : nat) : Exn :=
  mkExn "ValueError"
        ("Exceeds the limit (" ++ PyStr.of_nat int_max_str_digits
           ++ " digits) for integer string conversion: value has "
           ++ PyStr.of_nat digits
           ++ " digits; use sys.set_int_max_str_digits() to increase the limit").

(** [int(s)] on a run of decimal digits: the interpreter refuses to convert
    a run of more digits than its limit and raises [ValueError]. *)
Definition int (s : string) : Res Z :=
  if (int_max_str_digits <? String.length s)%nat
  then Raise (int_limit_error (String.length s))
  else Ok (PyStr.digits_value 0 s).

(** [str(r)] of what a coroutine raised or returned is only ever needed for
    exceptions: [str(e)] *)
Definition exn_str (e : Exn) : string := exn_msg e.

End Py.

(** ** Regular expressions

    The patterns of the decision engine use literals, alternation, groups,
    [\b], and [*], [*?], [+], [?] applied to a single character class; all
    are compiled with [re.IGNORECASE].  [Re.search] is a backtracking matcher
    with the priorities of Python's: the leftmost start, the alternatives in
    order, a greedy quantifier taking as much as it can and a lazy one as
    little. *)

Module Re.

Inductive cclass : Type :=
| CLit (c : ascii)          (* a literal character, case-insensitive *)
| CDot                      (* [.]: anything but a newline *)
| CDigit                    (* [\d] *)
| CSpace                    (* [\s] *)
| CSet (l : list ascii).    (* [[...]] *)

Inductive regex : Type :=
| Eps
| Chr (cc : cclass)
| WordB                     (* [\b] *)
| Seq (r1 r2 : regex)
| Alt (r1 r2 : regex)
| Star (cc : cclass)        (* [cc*] *)
| StarLazy (cc : cclass)    (* [cc*?] *)
| Opt (cc : cclass)         (* [cc?] *)
| Group (n : nat) (r : regex).

(** Whether a class takes a character.  The folding of [re.IGNORECASE] is
    the one of ASCII, and so are the digits and the white space: on a text
    of ASCII this is what Python matches. *)
Definition cc_match (cc : cclass) (c : ascii) : bool :=
  match cc with
  | CLit x => Ascii.eqb (PyStr.lower_char c) (PyStr.lower_char x)
  | CDot => negb (PyStr.code c =? 10)%nat
  | CDigit => PyStr.is_digit c
  | CSpace => PyStr.is_space c
  | CSet l => existsb (fun x => Ascii.eqb (PyStr.lower_char c) (PyStr.lower_char x)) l
  end.

(** The literal word [s], character by character. *)
Fixpoint lit (s : string) : regex :=
  match s with
  | EmptyString => Eps
  | String c EmptyString => Chr (CLit c)
  | String c s' => Seq (Chr (CLit c)) (lit s')
  end.

(** [(a|b|...)] without the group *)
Fixpoint alts (l : list regex) : regex :=
  match l with
  | [] => Eps
  | [r] => r
  | r :: l' => Alt r (alts l')
  end.

Fixpoint seqs (l : list regex) : regex :=
  match l with
  | [] => Eps
  | [r] => r
  | r :: l' => Seq r (seqs l')
  end.

Definition words (l : list string) : regex := alts (map lit l).

(** [cc+] *)
Definition Plus (cc : cclass) : regex := Seq (Chr cc) (Star cc).

(** [.*] *)
Definition DotStar : regex := Star CDot.

Definition captures : Type := list (nat * string).

Definition is_word_opt (o : option ascii) : bool :=
  match o with Some c => PyStr.is_word c | None => false end.

Definition head (s : string) : option ascii :=
  match s with String c _ => Some c | EmptyString => None end.

(** [\b] holds between [prev] and the rest [s] when exactly one side is a
    word character, of those of ASCII. *)
Definition at_boundary (prev : option ascii) (s : string) : bool :=
  xorb (is_word_opt prev) (is_word_opt (head s)).

(** The text consumed between the rest [s] and the later rest [s']. *)
Definition consumed (s s' : string) : string :=
  PyStr.take (String.length s - String.length s') s.

Section Matcher.
Variable R : Type.

Definition cont : Type := option ascii -> string -> captures -> option R.

Definition orelse (a : option R) (b : unit -> option R) : option R :=
  match a with Some x => Some x | None => b tt end.

Fixpoint star_greedy (cc : cclass) (k : cont) (prev : option ascii)
         (s : string) (caps : captures) : option R :=
  match s with
  | String c s' =>
      if cc_match cc c
      then orelse (star_greedy cc k (Some c) s' caps) (fun _ => k prev s caps)
      else k prev s caps
  | EmptyString => k prev s caps
  end.

Fixpoint star_lazy (cc : cclass) (k : cont) (prev : option ascii)
         (s : string) (caps : captures) : option R :=
  orelse (k prev s caps)
         (fun _ =>
            match s with
            | String c s' =>
                if cc_match cc c then star_lazy cc k (Some c) s' caps else None
            | EmptyString => None
            end).

Fixpoint run (r : regex) (prev : option ascii) (s : string)
         (caps : captures) (k : cont) : option R :=
  match r with
  | Eps => k prev s caps
  | Chr cc =>
      match s with
      | String c s' => if cc_match cc c then k (Some c) s' caps else None
      | EmptyString => None
      end
  | WordB => if at_boundary prev s then k prev s caps else None
  | Seq r1 r2 =>
      run r1 prev s caps (fun p1 s1 c1 => run r2 p1 s1 c1 k)
  | Alt r1 r2 =>
      orelse (run r1 prev s caps k) (fun _ => run r2 prev s caps k)
  | Star cc => star_greedy cc k prev s caps
  | StarLazy cc => star_lazy cc k prev s caps
  | Opt cc =>
      match s with
      | String c s' =>
          if cc_match cc c
          then orelse (k (Some c) s' caps) (fun _ => k prev s caps)
          else k prev s caps
      | EmptyString => k prev s caps
      end
  | Group n r1 =>
      run r1 prev s caps (fun p1 s1 c1 => k p1 s1 ((n, consumed s s1) :: c1))
  end.
End Matcher.

(** A match object: [group(0)] and the numbered groups. *)
Record mobj : Type := mkMatch { whole : string; groups : captures }.

Fixpoint lookup (n : nat) (caps : captures) : option string :=
  match caps with
  | [] => None
  | (m, s) :: caps' => if (n =? m)%nat then Some s else lookup n caps'
  end.

(** [m.group(n)] for a group that took part in the match *)
Definition group (m : mobj) (n : nat) : string :=
  match n with
  | 0 => whole m
  | _ => match lookup n (groups m) with Some s => s | None => EmptyString end
  end.

(** A match starting exactly where [s] starts, [prev] being the character
    before. *)
Definition match_here (r : regex) (prev : option ascii) (s : string) : option mobj :=
  run mobj r prev s [] (fun _ s' caps => Some (mkMatch (consumed s s') caps)).

Fixpoint search_from (r : regex) (prev : option ascii) (s : string) : option mobj :=
  match match_here r prev s with
  | Some m => Some m
  | None =>
      match s with
      | String c s' => search_from r (Some c) s'
      | EmptyString => None
      end
  end.

(** [pattern.search(s)] *)
Definition search (r : regex) (s : string) : option mobj := search_from r None s.

Definition matches (r : regex) (s : string) : bool :=
  match search r s with Some _ => true | None => false end.

End Re.


(** ** Messages, tool calls, decisions and the run state *)

(** [{"name": ..., "args": {...}}] *)
Record ToolCall : Type := mkToolCall { tc_name : string; tc_args : Dict }.

(** A conversation entry: a dict with a ["role"] and, each optional, a
    ["content"] string, a ["tool_calls"] list and a ["tool_call_id"]. *)
Record Message : Type := mkMessage {
  role : string;
  content : option string;
  tool_calls : option (list ToolCall);
  tool_call_id : option string
}.

Definition user_message (c : string) : Message :=
  mkMessage "user" (Some c) None None.
Definition assistant_text (c : string) : Message :=
  mkMessage "assistant" (Some c) None None.
Definition assistant_tool_calls (l : list ToolCall) : Message :=
  mkMessage "assistant" None (Some l) None.
Definition tool_message (id c : string) : Message :=
  mkMessage "tool" (Some c) None (Some id).

(** What a decision provider returns: [{"tool_calls": [...]}] or
    [{"content": ...}]. *)
Inductive Decision : Type :=
| ToolCalls (l : list ToolCall)
| Content (c : string).

(** [class AgentState(TypedDict)] *)
Record AgentState : Type := mkState {
  messages : list Message;
  page_map : string;
  browser_action : string;
  task_complete : bool
}.

Definition set_messages (st : AgentState) (ms : list Message) : AgentState :=
  mkState ms (page_map st) (browser_action st) (task_complete st).
Definition set_page_map (st : AgentState) (p : string) : AgentState :=
  mkState (messages st) p (browser_action st) (task_complete st).
Definition set_browser_action (st : AgentState) (a : string) : AgentState :=
  mkState (messages st) (page_map st) a (task_complete st).
Definition set_task_complete (st : AgentState) (b : bool) : AgentState :=
  mkState (messages st) (page_map st) (browser_action st) b.

(** [state["messages"].append(m)] *)
Definition append_message (st : AgentState) (m : Message) : AgentState :=
  set_messages st (messages st ++ [m])%list.

(** ** The world: events, the environment oracle and the monad *)

Inductive Level : Type := DEBUG | INFO | WARNING | ERROR.

(** A browser context, the tuple [create_browser_context] returns, is known
    by the number of the session. *)
Definition BrowserContext : Type := nat.

(** What the model answers when the AI backend is called: the tool calls of
    the response and [str(response.content)]. *)
Record AIResponse : Type := mkAIResponse {
  resp_tool_calls : list ToolCall;
  resp_content : string
}.

Inductive Event : Type :=
| EvLog (lvl : Level) (msg : string)
| EvSleep (ms : nat)
| EvCreate (r : Res BrowserContext)
| EvNavigate (ctx : BrowserContext) (url : string) (r : Res unit)
| EvClose (ctx : BrowserContext) (r : Res unit)
| EvClick (ctx : BrowserContext) (selector : PyVal) (r : Res bool)
| EvType (ctx : BrowserContext) (selector text : PyVal) (r : Res bool)
| EvScroll (ctx : BrowserContext) (direction amount element_selector smooth : PyVal)
           (r : Res bool)
| EvElements (ctx : BrowserContext) (r : Res string)
| EvAI (r : Res AIResponse)
| EvNode (name : string).

Definition World : Type := list Event.

(** The collaborators outside the core: each answer may depend on everything
    that happened before. *)
Record Env : Type := mkEnv {
  create_browser_context_env : World -> Res BrowserContext;
  navigate_to_url_env : World -> BrowserContext -> string -> Res unit;
  close_browser_context_env : World -> BrowserContext -> Res unit;
  click_element_env : World -> BrowserContext -> PyVal -> Res bool;
  type_text_env : World -> BrowserContext -> PyVal -> PyVal -> Res bool;
  scroll_page_env : World -> BrowserContext -> PyVal -> PyVal -> PyVal -> PyVal -> Res bool;
  (** the ["cleaned_html"] entry of what [get_interactive_elements] returns *)
  get_interactive_elements_env : World -> BrowserContext -> Res string;
  (** [anthropic_client.is_available] *)
  ai_available : bool;
  ai_invoke : World -> list Message -> string -> Res AIResponse
}.

(** [settings.agent], as far as the core reads it *)
Record Settings : Type := mkSettings { enable_security_checks : bool }.

Definition M (A : Type) : Type := World -> Res A * World.

Definition ret {A} (a : A) : M A := fun w => (Ok a, w).

Definition raise {A} (e : Exn) : M A := fun w => (Raise e, w).

Definition bind {A B} (c : M A) (f : A -> M B) : M B :=
  fun w =>
    match c w with
    | (Ok a, w') => f a w'
    | (Raise e, w') => (Raise e, w')
    end.

(** [try: c  except Exception as e: h e] *)
Definition try_except {A} (c : M A) (h : Exn -> M A) : M A :=
  fun w =>
    match c w with
    | (Ok a, w') => (Ok a, w')
    | (Raise e, w') => h e w'
    end.

(** [try: c  finally: f]; [f] never raises where the code uses it. *)
Definition try_finally {A} (c : M A) (f : M unit) : M A :=
  fun w =>
    match c w with
    | (r, w') =>
        match f w' with
        | (Ok _, w'') => (r, w'')
        | (Raise e, w'') => (Raise e, w'')
        end
    end.

(** A pure step that may raise *)
Definition lift {A} (r : Res A) : M A := fun w => (r, w).

Definition emit (e : Event) : M unit := fun w => (Ok tt, (w ++ [e])%list).

Definition log (lvl : Level) (msg : string) : M unit := emit (EvLog lvl msg).

Definition sleep (ms : nat) : M unit := emit (EvSleep ms).

(** A call to a collaborator: ask the oracle, record the call and its
    outcome. *)
Definition call {A} (ask : World -> Res A) (ev : Res A -> Event) : M A :=
  fun w => let r := ask w in (r, (w ++ [ev r])%list).

Declare Scope monad_scope.
Delimit Scope monad_scope with monad.
Notation "x <- c ;; k" := (bind c (fun x => k))
  (at level 61, c at next level, right associativity) : monad_scope.
Notation "c ;; k" := (bind c (fun _ => k))
  (at level 61, right associativity) : monad_scope.
Open Scope monad_scope.

(** ** security.py *)

Module Security.

(** [SecurityManager._destructive_keywords] *)
Definition destructive_keywords : list string :=
  [ "pay"; "delete"; "checkout"; "purchase"; "buy"; "submit payment";
    "confirm order"; "transfer"; "send money"; "authorize payment";
    "complete transaction"; "finalize purchase" ].

(** [any(keyword in s for keyword in kws)] *)
Definition any_in (kws : list string) (s : string) : bool :=
  existsb (fun keyword => PyStr.contains keyword s) kws.

Definition is_destructive_action (settings : Settings) (action_description : string)
  : bool :=
  if negb (enable_security_checks settings) then false
  else
    let action_lower := PyStr.lower action_description in
    any_in destructive_keywords action_lower.

(** [f"{tool_name} {str(tool_args)}"] *)
Definition action_description (tool_name : string) (tool_args : Dict) : string :=
  tool_name ++ " " ++ Py.repr_dict tool_args.

(** [v.lower()] on a value of type [Any] *)
Definition lower_of (v : PyVal) : Res string :=
  match v with
  | VStr s => Ok (PyStr.lower s)
  | _ => Raise (Py.AttributeError v "lower")
  end.

Definition should_require_approval (settings : Settings) (tool_name : string)
           (tool_args : Dict) : Res bool :=
  if negb (enable_security_checks settings) then Ok false
  else
    let by_description :=
      Ok (is_destructive_action settings (action_description tool_name tool_args)) in
    if tool_name =? "click_element" then
      match lower_of (Py.get_default tool_args "selector" (VStr EmptyString)) with
      | Raise e => Raise e
      | Ok selector =>
          if any_in ["pay"; "checkout"; "purchase"; "submit"] selector
          then Ok true else by_description
      end
    else if tool_name =? "type_text" then
      match lower_of (Py.get_default tool_args "text" (VStr EmptyString)) with
      | Raise e => Raise e
      | Ok text =>
          if any_in ["password"; "credit"; "card"; "ssn"; "social"] text
          then Ok true else by_description
      end
    else by_description.

(** [v[:50]] on a value of type [Any] *)
Definition preview_of (v : PyVal) : Res string :=
  match v with
  | VStr s => Ok (PyStr.take 50 s)
  | _ => Raise (Py.NotSubscriptable v)
  end.

Definition get_approval_message (tool_name : string) (tool_args : Dict) : Res string :=
  if tool_name =? "click_element" then
    let selector := Py.get_default tool_args "selector" (VStr "unknown element") in
    Ok ("Click on element: " ++ Py.str selector)
  else if tool_name =? "type_text" then
    let selector := Py.get_default tool_args "selector" (VStr "unknown field") in
    match preview_of (Py.get_default tool_args "text" (VStr EmptyString)) with
    | Raise e => Raise e
    | Ok text_preview =>
        Ok ("Type text into " ++ Py.str selector ++ ": '" ++ text_preview ++ "...'")
    end
  else if tool_name =? "navigate_to_website" then
    let website := Py.get_default tool_args "website_name" (VStr "unknown website") in
    Ok ("Navigate to website: " ++ Py.str website)
  else
    Ok ("Execute " ++ tool_name ++ " with args: " ++ Py.repr_dict tool_args).

End Security.


(** ** anthropic_client.py, as far as the decision engine calls it *)

Module AnthropicClient.

Definition AnthropicAPIError (msg : string) : Exn := mkExn "AnthropicAPIError" msg.

Section WithEnv.
Variable env : Env.

Definition is_available : bool := ai_available env.

(** The part of [make_decision] after the call: the tool calls of the
    response when there are any, its text otherwise, with any text that
    holds FINISH replaced by FINISH. *)
Definition process_response (response : AIResponse) : Decision :=
  match resp_tool_calls response with
  | _ :: _ =>
      ToolCalls (map (fun tool_call => mkToolCall (tc_name tool_call) (tc_args tool_call))
                     (resp_tool_calls response))
  | [] =>
      let content := resp_content response in
      if PyStr.contains "FINISH" (PyStr.upper content) then Content "FINISH"
      else Content content
  end.

Definition make_decision (messages : list Message) (page_context : string)
  : M Decision :=
  if negb is_available then raise (AnthropicAPIError "Anthropic client not available")
  else
    try_except
      (log DEBUG "Making Anthropic API call" ;;
       response <- call (fun w => ai_invoke env w messages page_context) EvAI ;;
       ret (process_response response))
      (fun e =>
         log ERROR ("Anthropic API call failed: " ++ Py.exn_str e) ;;
         raise (AnthropicAPIError ("API call failed: " ++ Py.exn_str e))).
End WithEnv.

End AnthropicClient.

(** ** decision_engine.py *)

Module DecisionEngine.

Import Re.

(** [r"\b(click|press|tap).*\b(submit|send|confirm)\b"] *)
Definition submit_click : regex :=
  seqs [ WordB; Group 1 (words ["click"; "press"; "tap"]); DotStar;
         WordB; Group 2 (words ["submit"; "send"; "confirm"]); WordB ].

(** [r"\b(pay|purchase|buy|checkout|complete.*order)\b"] *)
Definition payment_action : regex :=
  seqs [ WordB;
         Group 1 (alts [ lit "pay"; lit "purchase"; lit "buy"; lit "checkout";
                         seqs [lit "complete"; DotStar; lit "order"] ]);
         WordB ].

(** [r"\b(type|enter|fill.*in|input|write)\b.*\b(text|information|data)\b"] *)
Definition text_input : regex :=
  seqs [ WordB;
         Group 1 (alts [ lit "type"; lit "enter"; seqs [lit "fill"; DotStar; lit "in"];
                         lit "input"; lit "write" ]);
         WordB; DotStar; WordB;
         Group 2 (words ["text"; "information"; "data"]); WordB ].

(** [r"\b(finish|complete|done|end|stop)\b"] *)
Definition finish_task : regex :=
  seqs [ WordB; Group 1 (words ["finish"; "complete"; "done"; "end"; "stop"]); WordB ].

(** [r"\b(navigate|go.*to|open|visit)\b.*\b(page|url|link|website)\b"] *)
Definition navigate_action : regex :=
  seqs [ WordB;
         Group 1 (alts [ lit "navigate"; seqs [lit "go"; DotStar; lit "to"];
                         lit "open"; lit "visit" ]);
         WordB; DotStar; WordB;
         Group 2 (words ["page"; "url"; "link"; "website"]); WordB ].

(** [r"\b(search|find|look.*for)\b"] *)
Definition search_action : regex :=
  seqs [ WordB;
         Group 1 (alts [ lit "search"; lit "find"; seqs [lit "look"; DotStar; lit "for"] ]);
         WordB ].

(** [r"\b(scroll|move.*down|move.*up|go.*down|go.*up|page.*down|page.*up)\b"] *)
Definition scroll_action : regex :=
  seqs [ WordB;
         Group 1 (alts [ lit "scroll";
                         seqs [lit "move"; DotStar; lit "down"];
                         seqs [lit "move"; DotStar; lit "up"];
                         seqs [lit "go"; DotStar; lit "down"];
                         seqs [lit "go"; DotStar; lit "up"];
                         seqs [lit "page"; DotStar; lit "down"];
                         seqs [lit "page"; DotStar; lit "up"] ]);
         WordB ].

Definition website_names : list string :=
  [ "amazon"; "google"; "youtube"; "facebook"; "twitter"; "netflix"; "ebay";
    "reddit"; "linkedin"; "instagram"; "wikipedia"; "github"; "stackoverflow";
    "microsoft"; "apple" ].

(** [r"\b(amazon|google|...|apple)\b"] *)
Definition website_mention : regex :=
  seqs [ WordB; Group 1 (words website_names); WordB ].

Definition quotes : cclass := CSet [PyStr.quote2; PyStr.quote1].

(** The pattern of the text extraction:
    [(type|enter|fill).*[QUOTES]?(.*?)[QUOTES]?.*(into|in)], where [QUOTES]
    stands for the single and the double quote. *)
Definition text_extract : regex :=
  seqs [ Group 1 (words ["type"; "enter"; "fill"]); DotStar; Opt quotes;
         Group 2 (StarLazy CDot); Opt quotes; DotStar;
         Group 3 (words ["into"; "in"]) ].

(** [r"\b(\d+)\s*(pixels?|px)\b"] *)
Definition amount_pattern : regex :=
  seqs [ WordB; Group 1 (Plus CDigit); Star CSpace;
         Group 2 (alts [ Seq (lit "pixel") (Opt (CLit "s"%char)); lit "px" ]);
         WordB ].

(** [self._patterns], the dict [_initialize_patterns] builds *)
Record Patterns : Type := mkPatterns {
  p_submit_click : regex;
  p_payment_action : regex;
  p_text_input : regex;
  p_finish_task : regex;
  p_navigate_action : regex;
  p_search_action : regex;
  p_scroll_action : regex;
  p_website_mention : regex
}.

Definition _initialize_patterns : Patterns :=
  mkPatterns submit_click payment_action text_input finish_task
             navigate_action search_action scroll_action website_mention.

Definition ValidationError := Py.ValidationError.

(** [messages[-1]] *)
Definition last_message (messages : list Message) : Res Message :=
  match rev messages with
  | m :: _ => Ok m
  | [] => Raise (mkExn "IndexError" "list index out of range")
  end.

(** [message["content"]] *)
Definition content_of (m : Message) : Res string :=
  match content m with
  | Some c => Ok c
  | None => Raise (Py.KeyError "content")
  end.

Definition _validate_messages (messages : list Message) : Res unit :=
  match rev messages with
  | [] => Raise (ValidationError "Messages list cannot be empty")
  | last_message :: _ =>
      match content last_message with
      | None => Raise (ValidationError "Last message must be a dict with 'content' key")
      | Some c =>
          if PyStr.truthy (PyStr.strip c) then Ok tt
          else Raise (ValidationError
                        "Empty message received. Please provide a valid instruction.")
      end
  end.

(** The loop that looks for the first message of the user. *)
Fixpoint original_user_message (messages : list Message) : Res (option string) :=
  match messages with
  | [] => Ok None
  | message :: rest =>
      if role message =? "user" then
        match content_of message with
        | Ok c => Ok (Some (PyStr.strip c))
        | Raise e => Raise e
        end
      else original_user_message rest
  end.

(** ["word" in page_context.lower() if page_context else False] *)
Definition page_has (word page_context : string) : bool :=
  if PyStr.truthy page_context then PyStr.contains word (PyStr.lower page_context)
  else false.

Definition tool_call_decision (name : string) (args : Dict) : Decision :=
  ToolCalls [mkToolCall name args].

Definition navigate_to_website_call (website_name : string) : Decision :=
  tool_call_decision "navigate_to_website" [("website_name", VStr website_name)].

Definition scroll_direction (content : string) : string :=
  if PyStr.contains "up" content then "up"
  else if PyStr.contains "down" content then "down"
  else if PyStr.contains "left" content then "left"
  else if PyStr.contains "right" content then "right"
  else "down".

(** [amount = 500], and [int(amount_match.group(1))] when the pattern of
    the amount matches; the conversion may raise. *)
Definition scroll_amount (content : string) : Res Z :=
  match search amount_pattern content with
  | Some amount_match => Py.int (group amount_match 1)
  | None => Ok 500%Z
  end.

(** [text_match.group(2) or "test data"], ["test data"] without a match *)
Definition text_to_input (content : string) : string :=
  match search text_extract content with
  | Some text_match =>
      if PyStr.truthy (group text_match 2) then group text_match 2 else "test data"
  | None => "test data"
  end.

(** The answer to a task no rule recognises. *)
Definition default_response (page_has_forms page_has_inputs page_has_buttons : bool)
  : string :=
  let response :=
    "I understand your request, but I need more specific instructions to complete this task." in
  let suggestions :=
    ((if page_has_forms then ["I see forms on this page"] else []) ++
     (if page_has_inputs then ["there are input fields available"] else []) ++
     (if page_has_buttons then ["clickable buttons are present"] else []))%list in
  let response :=
    match suggestions with
    | [] => response
    | _ => response ++ " " ++ PyStr.join ", " suggestions ++ "."
    end in
  response ++ " Please provide more specific instructions or say 'finish' to complete the task.".

Section Engine.
(** [self], with its table of patterns *)
Variable patterns : Patterns.

(** What follows the chain of rules: the website check on the last
    message as written, then the default answer. *)
Definition after_rules (last : string)
           (page_has_forms page_has_inputs page_has_buttons : bool) : M Decision :=
  let original_content := PyStr.strip last in
  match search (p_website_mention patterns) original_content with
  | Some website_match =>
      let website_name := group website_match 0 in
      log DEBUG ("Detected website mention in original content: " ++ website_name) ;;
      ret (navigate_to_website_call website_name)
  | None =>
      let response := default_response page_has_forms page_has_inputs page_has_buttons in
      log DEBUG ("Default response: " ++ response) ;;
      ret (Content response)
  end.

(** The chain [if ... elif ...] over the lowered last message. *)
Definition pattern_rules (last content : string)
           (page_has_forms page_has_inputs page_has_buttons : bool) : M Decision :=
  if matches (p_finish_task patterns) content then
    log DEBUG "Detected completion request" ;;
    ret (Content "FINISH")
  else if matches (p_submit_click patterns) content then
    log DEBUG "Detected submit click request" ;;
    let selector := if page_has_forms then "button[type='submit']" else "button" in
    ret (tool_call_decision "click_element" [("selector", VStr selector)])
  else if matches (p_payment_action patterns) content then
    log DEBUG "Detected payment action request" ;;
    let selector := "button.pay-now, button.checkout, button#purchase" in
    ret (tool_call_decision "click_element" [("selector", VStr selector)])
  else if matches (p_text_input patterns) content then
    log DEBUG "Detected text input request" ;;
    let selector :=
      if page_has_inputs then "input[type='text'], input:not([type]), textarea"
      else "input" in
    ret (tool_call_decision "type_text"
           [("selector", VStr selector); ("text", VStr (text_to_input content))])
  else if matches (p_scroll_action patterns) content then
    log DEBUG "Detected scroll action request" ;;
    let direction := scroll_direction content in
    amount <- lift (scroll_amount content) ;;
    ret (tool_call_decision "scroll_page"
           [("direction", VStr direction); ("amount", VInt amount)])
  else if matches (p_navigate_action patterns) content
          || matches (p_search_action patterns) content then
    log DEBUG "Detected navigation/search request - suggesting page analysis first" ;;
    ret (tool_call_decision "get_page_state" [])
  else if matches (p_website_mention patterns) content then
    match search (p_website_mention patterns) content with
    | Some website_match =>
        let website_name := group website_match 0 in
        log DEBUG ("Detected website mention: " ++ website_name) ;;
        ret (navigate_to_website_call website_name)
    | None => after_rules last page_has_forms page_has_inputs page_has_buttons
    end
  else after_rules last page_has_forms page_has_inputs page_has_buttons.

Definition _make_fallback_decision (messages : list Message) (page_context : string)
  : M Decision :=
  last <- lift (match last_message messages with
                | Ok m => content_of m
                | Raise e => Raise e
                end) ;;
  let content := PyStr.lower (PyStr.strip last) in
  original <- lift (original_user_message messages) ;;
  let page_has_forms := page_has "form" page_context in
  let page_has_inputs := page_has "input" page_context in
  let page_has_buttons := page_has "button" page_context in
  log DEBUG ("Page analysis - Forms: " ++ Py.str_bool page_has_forms
             ++ ", Inputs: " ++ Py.str_bool page_has_inputs
             ++ ", Buttons: " ++ Py.str_bool page_has_buttons) ;;
  let rules := pattern_rules last content page_has_forms page_has_inputs page_has_buttons in
  match original with
  | Some original_user_message =>
      if PyStr.truthy original_user_message then
        match search (p_website_mention patterns) original_user_message with
        | Some website_match =>
            let website_name := group website_match 0 in
            log DEBUG ("Detected website mention: " ++ website_name) ;;
            ret (navigate_to_website_call website_name)
        | None => rules
        end
      else rules
  | None => rules
  end.

Section WithEnv.
Variable env : Env.

Definition make_decision (messages : list Message) (page_context : string)
  : M Decision :=
  lift (_validate_messages messages) ;;
  ai <- (if AnthropicClient.is_available env then
           try_except
             (log DEBUG "Using Anthropic API for decision making" ;;
              d <- AnthropicClient.make_decision env messages page_context ;;
              ret (Some d))
             (fun e =>
                log WARNING
                    ("Anthropic API failed, falling back to functional decision making: "
                       ++ Py.exn_str e) ;;
                ret None)
         else ret None) ;;
  match ai with
  | Some d => ret d
  | None =>
      log DEBUG "Using fallback functional decision making" ;;
      _make_fallback_decision messages page_context
  end.
End WithEnv.
End Engine.

(** The global instance [decision_engine = DecisionEngine()] *)
Definition decision_engine : Patterns := _initialize_patterns.

End DecisionEngine.


(** ** tools.py *)

Module Tools.

(** The page [get_page_state_wrapper] reports without a browser, and when the
    browser fails. *)
Definition placeholder_page : string :=
  "<html><body><button>Submit</button></body></html>".

(** What [execute_tool] returns: a success flag, or the page for
    [get_page_state]. *)
Inductive ToolResult : Type :=
| RBool (b : bool)
| RStr (s : string).

(** [str(result)] and [bool(result)] *)
Definition result_str (r : ToolResult) : string :=
  match r with RBool b => Py.str_bool b | RStr s => s end.
Definition result_truthy (r : ToolResult) : bool :=
  match r with RBool b => b | RStr s => PyStr.truthy s end.

Definition TypeError (msg : string) : Exn := mkExn "TypeError" msg.

Definition mem (k : string) (l : list string) : bool :=
  existsb (fun x => x =? k) l.

(** The first keyword of the call that the function does not accept. *)
Fixpoint first_unexpected (fname : string) (accepted : list string) (kwargs : Dict)
  : option Exn :=
  match kwargs with
  | [] => None
  | (k, _) :: rest =>
      if k =? "context" then
        Some (TypeError (fname ++ "() got multiple values for argument 'context'"))
      else if mem k accepted then first_unexpected fname accepted rest
      else Some (TypeError (fname ++ "() got an unexpected keyword argument '" ++ k ++ "'"))
  end.

(** The call [fname(context, **kwargs)]: every keyword must be a parameter
    of the function other than [context], and every parameter without a
    default must be given.  The wording of the [TypeError] follows
    CPython's and is not relied upon. *)
Definition bind_kwargs (fname : string) (required optional : list string)
           (kwargs : Dict) : Res unit :=
  match first_unexpected fname (required ++ optional)%list kwargs with
  | Some e => Raise e
  | None =>
      match filter (fun k => negb (Py.has_key kwargs k)) required with
      | [] => Ok tt
      | missing =>
          Raise (TypeError (fname ++ "() missing required positional arguments: "
                              ++ PyStr.join ", " (map PyStr.repr missing)))
      end
  end.

(** [s.replace(' ', '')] *)
Fixpoint remove_blanks (s : string) : string :=
  match s with
  | EmptyString => EmptyString
  | String c s' =>
      if Ascii.eqb c " "%char then remove_blanks s' else String c (remove_blanks s')
  end.

Section WithEnv.
Variable env : Env.

Definition click_element_wrapper (context : option BrowserContext) (selector : PyVal)
  : M bool :=
  match context with
  | None =>
      log DEBUG ("Mock clicking element: " ++ Py.str selector) ;;
      ret true
  | Some ctx =>
      try_except
        (call (fun w => click_element_env env w ctx selector) (EvClick ctx selector))
        (fun e =>
           log ERROR ("Failed to click element '" ++ Py.str selector ++ "': "
                        ++ Py.exn_str e) ;;
           ret false)
  end.

Definition type_text_wrapper (context : option BrowserContext) (selector text : PyVal)
  : M bool :=
  match context with
  | None =>
      preview <- lift (Security.preview_of text) ;;
      log DEBUG ("Mock typing '" ++ preview ++ "' into element: " ++ Py.str selector) ;;
      ret true
  | Some ctx =>
      try_except
        (call (fun w => type_text_env env w ctx selector text) (EvType ctx selector text))
        (fun e =>
           log ERROR ("Failed to type text into element '" ++ Py.str selector ++ "': "
                        ++ Py.exn_str e) ;;
           ret false)
  end.

Definition get_page_state_wrapper (context : option BrowserContext) : M string :=
  match context with
  | None => ret placeholder_page
  | Some ctx =>
      try_except
        (call (fun w => get_interactive_elements_env env w ctx) (EvElements ctx))
        (fun e =>
           log ERROR ("Failed to get page state: " ++ Py.exn_str e) ;;
           ret placeholder_page)
  end.

Definition scroll_page_wrapper (context : option BrowserContext)
           (direction amount element_selector smooth : PyVal) : M bool :=
  match context with
  | None =>
      log DEBUG ("Mock scrolling " ++ Py.str direction ++ " by " ++ Py.str amount
                   ++ " pixels") ;;
      ret true
  | Some ctx =>
      try_except
        (call (fun w => scroll_page_env env w ctx direction amount element_selector smooth)
              (EvScroll ctx direction amount element_selector smooth))
        (fun e =>
           log ERROR ("Failed to scroll " ++ Py.str direction ++ ": " ++ Py.exn_str e) ;;
           ret false)
  end.

Definition navigate_to_website_wrapper (context : option BrowserContext)
           (website_name : PyVal) : M bool :=
  match context with
  | None =>
      log DEBUG ("Mock navigating to website: " ++ Py.str website_name) ;;
      ret true
  | Some ctx =>
      try_except
        (lowered <- lift (Security.lower_of website_name) ;;
         let base_url := "https://www." ++ remove_blanks lowered ++ ".com" in
         call (fun w => navigate_to_url_env env w ctx base_url) (EvNavigate ctx base_url) ;;
         ret true)
        (fun e =>
           log ERROR ("Failed to navigate to website '" ++ Py.str website_name ++ "': "
                        ++ Py.exn_str e) ;;
           ret false)
  end.

(** [tool_args[k]] once the call is known to bind *)
Definition arg (tool_args : Dict) (k : string) (default : PyVal) : PyVal :=
  Py.get_default tool_args k default.

Definition execute_tool (tool_name : string) (tool_args : Dict)
           (context : option BrowserContext) : M ToolResult :=
  log DEBUG ("Executing tool: " ++ tool_name ++ " with args: " ++ Py.repr_dict tool_args) ;;
  try_except
    (if tool_name =? "click_element" then
       lift (bind_kwargs "click_element_wrapper" ["selector"] [] tool_args) ;;
       b <- click_element_wrapper context (arg tool_args "selector" VNone) ;;
       ret (RBool b)
     else if tool_name =? "type_text" then
       lift (bind_kwargs "type_text_wrapper" ["selector"; "text"] [] tool_args) ;;
       b <- type_text_wrapper context (arg tool_args "selector" VNone)
                              (arg tool_args "text" VNone) ;;
       ret (RBool b)
     else if tool_name =? "get_page_state" then
       page <- get_page_state_wrapper context ;;
       ret (RStr page)
     else if tool_name =? "scroll_page" then
       lift (bind_kwargs "scroll_page_wrapper" []
                         ["direction"; "amount"; "element_selector"; "smooth"]
                         tool_args) ;;
       b <- scroll_page_wrapper context
              (arg tool_args "direction" (VStr "down"))
              (arg tool_args "amount" (VInt 500))
              (arg tool_args "element_selector" VNone)
              (arg tool_args "smooth" (VBool false)) ;;
       ret (RBool b)
     else if tool_name =? "navigate_to_website" then
       lift (bind_kwargs "navigate_to_website_wrapper" ["website_name"] [] tool_args) ;;
       b <- navigate_to_website_wrapper context (arg tool_args "website_name" VNone) ;;
       ret (RBool b)
     else
       log WARNING ("Unknown tool: " ++ tool_name) ;;
       ret (RBool false))
    (fun e =>
       log ERROR ("Tool execution failed for " ++ tool_name ++ ": " ++ Py.exn_str e) ;;
       ret (RBool false)).
End WithEnv.

(** The names [execute_tool] dispatches on *)
Definition known_tools : list string :=
  ["click_element"; "type_text"; "get_page_state"; "scroll_page"; "navigate_to_website"].

End Tools.

(** ** browser_agent.py: the nodes *)

Module BrowserAgent.

(** [l[0]] *)
Definition first_of {A} (l : list A) : Res A :=
  match l with
  | x :: _ => Ok x
  | [] => Raise (mkExn "IndexError" "list index out of range")
  end.

Section Nodes.
Variable env : Env.
Variable settings : Settings.

Definition security_check_node (state : AgentState)
           (context : option BrowserContext) : M AgentState :=
  log DEBUG "Running security check..." ;;
  page <- match context with
          | Some ctx => Tools.get_page_state_wrapper env (Some ctx)
          | None => ret "<html><body><button>Submit</button></body></html>"
          end ;;
  let state := set_page_map state page in
  state <- (if PyStr.truthy (browser_action state) then
              log INFO ("Waiting for human approval on action: " ++ browser_action state) ;;
              ret (set_browser_action state EmptyString)
            else ret state) ;;
  log DEBUG "Security check completed" ;;
  ret state.

Definition agent_node (state : AgentState) : M AgentState :=
  log DEBUG "Agent node: Deciding next action..." ;;
  result <- DecisionEngine.make_decision DecisionEngine.decision_engine env
              (messages state) (page_map state) ;;
  match result with
  | ToolCalls l =>
      tool_call <- lift (first_of l) ;;
      let action_name := tc_name tool_call in
      let action_args := tc_args tool_call in
      flagged <- lift (Security.should_require_approval settings action_name action_args) ;;
      if flagged then
        approval_message <- lift (Security.get_approval_message action_name action_args) ;;
        log WARNING ("Destructive action detected: " ++ approval_message) ;;
        let state := set_browser_action state approval_message in
        ret (append_message state (assistant_tool_calls [tool_call]))
      else
        ret (append_message state (assistant_tool_calls [tool_call]))
  | Content c =>
      if PyStr.contains "FINISH" (PyStr.upper c) then
        let state := set_task_complete state true in
        ret (append_message state (assistant_text "Task completed successfully"))
      else
        let state := append_message state (assistant_text c) in
        ret (set_task_complete state true)
  end.

Definition tool_node (state : AgentState) (context : option BrowserContext)
  : M AgentState :=
  log DEBUG "Tool node: Executing requested action..." ;;
  last_message <- lift (DecisionEngine.last_message (messages state)) ;;
  match tool_calls last_message with
  | Some l =>
      tool_call <- lift (first_of l) ;;
      let tool_name := tc_name tool_call in
      let tool_args := tc_args tool_call in
      log INFO ("Executing tool: " ++ tool_name) ;;
      result <- Tools.execute_tool env tool_name tool_args context ;;
      state <- (match context with
                | Some ctx =>
                    if tool_name =? "get_page_state" then
                      page <- Tools.get_page_state_wrapper env (Some ctx) ;;
                      ret (set_page_map state page)
                    else ret state
                | None => ret state
                end) ;;
      (* [tool_call.get("id", "1")]: the tool calls of this program carry no id *)
      let tool_result :=
        tool_message "1" ("Tool " ++ tool_name ++ " executed with result: "
                            ++ Tools.result_str result) in
      let state := append_message state tool_result in
      let state := set_task_complete state true in
      (if Tools.result_truthy result
       then log INFO ("Tool " ++ tool_name ++ " executed successfully")
       else log WARNING ("Tool " ++ tool_name ++ " failed")) ;;
      ret state
  | None => ret state
  end.

(** *** create_workflow: the graph *)

(** LangGraph's [END] *)
Definition END : string := "__end__".

Definition security_check_wrapper (state : AgentState) : M AgentState :=
  security_check_node state None.

Definition tool_wrapper (state : AgentState) : M AgentState :=
  tool_node state None.

Definition should_request_approval (state : AgentState) : string :=
  if PyStr.truthy (browser_action state) then "human_approval" else "agent".

Definition should_continue_to_tool (state : AgentState) : Res string :=
  match DecisionEngine.last_message (messages state) with
  | Raise e => Raise e
  | Ok last_message =>
      let has_tool_calls :=
        match tool_calls last_message with Some _ => true | None => false end in
      Ok (if has_tool_calls then "tool" else END)
  end.

Definition should_end_workflow (state : AgentState) : string :=
  if task_complete state then END else "security_check".

Definition human_approval_node (state : AgentState) : M AgentState :=
  let action := browser_action state in
  log INFO ("Human approval required for: " ++ action) ;;
  ret (set_browser_action state EmptyString).

(** A compiled [StateGraph]: the nodes by name, the edge leaving each
    node, the entry point and the nodes before which a run is
    interrupted. *)
Record Graph : Type := mkGraph {
  nodes : list (string * (AgentState -> M AgentState));
  edge : string -> AgentState -> Res string;
  entry_point : string;
  interrupt_before : list string
}.

Definition workflow_edges (name : string) (state : AgentState) : Res string :=
  if name =? "security_check" then Ok (should_request_approval state)
  else if name =? "agent" then should_continue_to_tool state
  else if name =? "tool" then Ok (should_end_workflow state)
  else if name =? "human_approval" then Ok "agent"
  else Ok END.

(** The graph [create_workflow] compiles: four nodes, the edges above, the
    entry point and the interrupt before the approval. *)
Definition workflow_graph : Graph :=
  mkGraph [ ("security_check", security_check_wrapper);
            ("agent", agent_node);
            ("tool", tool_wrapper);
            ("human_approval", human_approval_node) ]
          workflow_edges
          "security_check"
          ["human_approval"].

Definition create_workflow : M Graph :=
  log DEBUG "Building LangGraph workflow..." ;;
  let app := workflow_graph in
  log INFO "LangGraph workflow built successfully" ;;
  ret app.
End Nodes.

(** *** The executor of a compiled graph

    LangGraph is not part of the repository; [ainvoke] follows the way it
    runs a graph.  A run starts at the entry point and goes step by step.
    On each step the executor first checks the budget: when the steps are
    used up it raises [GraphRecursionError].  Then it looks where the run
    stands: at [END] the run is over and the state is returned; at a node
    listed in [interrupt_before] it stops there and returns the state
    reached; at any other node it executes the node and follows the edge
    that leaves it.  So finding the run at its end takes a step of its own:
    a run that executes [n] nodes returns only when [recursion_limit] is at
    least [n + 1]; with a smaller limit the executor runs [recursion_limit]
    nodes and raises.  An exception raised by a node leaves [ainvoke].  The
    execution of a node is recorded as an [EvNode] event.

    [create_workflow] compiles the graph with a checkpointer and the
    interrupt; its fallback to a plain compilation, for a failure inside the
    library, is not modelled.

    The caller's message list is the very list the nodes append to, so the
    caller sees the appended messages also when the run raises: an [Outcome]
    carries them next to the result. *)

Record Outcome : Type := mkOutcome {
  final : Res AgentState;
  seen_messages : list Message
}.

Definition GraphRecursionError (limit : Z) : Exn :=
  mkExn "GraphRecursionError"
        ("Recursion limit of " ++ PyStr.of_Z limit
           ++ " reached without hitting a stop condition.").

Fixpoint find_node (name : string) (l : list (string * (AgentState -> M AgentState)))
  : option (AgentState -> M AgentState) :=
  match l with
  | [] => None
  | (n, f) :: l' => if n =? name then Some f else find_node name l'
  end.

Fixpoint run_from (app : Graph) (limit : Z) (steps_left : nat) (name : string)
         (state : AgentState) (w : World) : Outcome * World :=
  match steps_left with
  | O => (mkOutcome (Raise (GraphRecursionError limit)) (messages state), w)
  | S steps_left' =>
      if name =? END then (mkOutcome (Ok state) (messages state), w)
      else if Tools.mem name (interrupt_before app) then
        (mkOutcome (Ok state) (messages state), w)
      else
        match find_node name (nodes app) with
        | None =>
            (mkOutcome (Raise (mkExn "KeyError" (PyStr.repr name))) (messages state), w)
        | Some node =>
            match (emit (EvNode name) ;; node state) w with
            | (Raise e, w') => (mkOutcome (Raise e) (messages state), w')
            | (Ok state', w') =>
                match edge app name state' with
                | Raise e => (mkOutcome (Raise e) (messages state'), w')
                | Ok next => run_from app limit steps_left' next state' w'
                end
            end
        end
  end.

(** [app.ainvoke(state, config={..., "recursion_limit": limit})] *)
Definition ainvoke (app : Graph) (state : AgentState) (recursion_limit : Z)
  : World -> Outcome * World :=
  run_from app recursion_limit (Z.to_nat recursion_limit) (entry_point app) state.

(** *** run_agent_workflow *)

(** The dict [run_agent_workflow] returns: the final state, with the error
    details when the workflow failed. *)
Record RunResult : Type := mkResult {
  r_messages : list Message;
  r_page_map : string;
  r_browser_action : string;
  r_task_complete : bool;
  r_error : option Dict
}.

(** [dict(final_state)] *)
Definition result_of_state (st : AgentState) : RunResult :=
  mkResult (messages st) (page_map st) (browser_action st) (task_complete st) None.

Definition max_browser_attempts : nat := 3.
Definition max_workflow_attempts : nat := 2.
Definition max_cleanup_attempts : nat := 3.

(** The test of the arguments at the head of [run_agent_workflow] *)
Definition validate_run (initial_task : string) (max_iterations : Z) : Res unit :=
  if negb (PyStr.truthy initial_task) || negb (PyStr.truthy (PyStr.strip initial_task))
  then Raise (Py.ValidationError "Task description cannot be empty")
  else if ((max_iterations <? 1) || (max_iterations >? 20))%Z
  then Raise (Py.ValidationError "max_iterations must be between 1 and 20")
  else Ok tt.

Definition initial_state (initial_task : string) : AgentState :=
  mkState [user_message (PyStr.strip initial_task)] EmptyString EmptyString false.

Section Run.
Variable env : Env.
Variable settings : Settings.

(** [app.ainvoke]: the executor of the graph library *)
Variable invoke : Graph -> AgentState -> Z -> World -> Outcome * World.

(** One pass of the [try] of the creation loop: create a context and probe
    it with a navigation to [about:blank]. *)
Definition create_and_test (browser_creation_attempts : nat) : M BrowserContext :=
  log INFO ("Creating browser context (attempt "
              ++ PyStr.of_nat (browser_creation_attempts + 1) ++ "/"
              ++ PyStr.of_nat max_browser_attempts ++ ")...") ;;
  browser_context <- call (create_browser_context_env env) EvCreate ;;
  call (fun w => navigate_to_url_env env w browser_context "about:blank")
       (EvNavigate browser_context "about:blank") ;;
  log INFO "Browser context created and tested successfully" ;;
  ret browser_context.

(** The loop [while browser_creation_attempts < max_browser_attempts];
    it yields [browser_context] and [use_real_browser] as the loop leaves
    them.  [fuel] bounds the number of passes. *)
Fixpoint create_loop (fuel browser_creation_attempts : nat)
  : M (option BrowserContext * bool) :=
  match fuel with
  | O => ret (None, false)
  | S fuel' =>
      if (browser_creation_attempts <? max_browser_attempts)%nat then
        r <- try_except (ctx <- create_and_test browser_creation_attempts ;;
                         ret (inl ctx))
                        (fun e => ret (inr e)) ;;
        match r with
        | inl ctx => ret (Some ctx, true)
        | inr e =>
            let browser_creation_attempts := (browser_creation_attempts + 1)%nat in
            log WARNING ("Browser context creation attempt "
                           ++ PyStr.of_nat browser_creation_attempts ++ " failed: "
                           ++ Py.exn_str e) ;;
            if (max_browser_attempts <=? browser_creation_attempts)%nat then
              log ERROR ("Failed to create browser context after "
                           ++ PyStr.of_nat max_browser_attempts
                           ++ " attempts, falling back to mock mode") ;;
              ret (None, false)
            else
              sleep (1000 * browser_creation_attempts) ;;
              create_loop fuel' browser_creation_attempts
        end
      else ret (None, false)
  end.

(** The acquisition of the browser at the head of a run *)
Definition acquire (use_real_browser : bool) : M (option BrowserContext * bool) :=
  if use_real_browser then create_loop max_browser_attempts 0
  else ret (None, false).

(** One pass of the [try] of the workflow loop; next to the result, the
    caller's [state] as the pass leaves it. *)
Definition workflow_attempt (max_iterations : Z) (workflow_attempts : nat)
           (state : AgentState) (w : World) : (Res AgentState * AgentState) * World :=
  match (app <- create_workflow env settings ;;
         log DEBUG ("Executing workflow (attempt "
                      ++ PyStr.of_nat (workflow_attempts + 1) ++ "/"
                      ++ PyStr.of_nat max_workflow_attempts ++ ")...") ;;
         ret app) w with
  | (Raise e, w1) => ((Raise e, state), w1)
  | (Ok app, w1) =>
      match invoke app state max_iterations w1 with
      | (out, w2) =>
          let state := set_messages state (seen_messages out) in
          match final out with
          | Raise e => ((Raise e, state), w2)
          | Ok final_state =>
              ((Ok final_state, state), (w2 ++ [EvLog INFO "Workflow completed successfully"])%list)
          end
      end
  end.

(** The loop [while workflow_attempts < max_workflow_attempts] and the
    [raise RuntimeError] after it *)
Fixpoint workflow_loop (fuel : nat) (max_iterations : Z) (workflow_attempts : nat)
         (state : AgentState) (w : World) : (Res AgentState * AgentState) * World :=
  match fuel with
  | O => ((Raise (mkExn "RuntimeError" "Workflow execution failed unexpectedly"), state), w)
  | S fuel' =>
      if (workflow_attempts <? max_workflow_attempts)%nat then
        match workflow_attempt max_iterations workflow_attempts state w with
        | ((Ok final_state, state), w1) => ((Ok final_state, state), w1)
        | ((Raise workflow_error, state), w1) =>
            let workflow_attempts := (workflow_attempts + 1)%nat in
            let w2 := (w1 ++ [EvLog WARNING
                                ("Workflow execution attempt "
                                   ++ PyStr.of_nat workflow_attempts ++ " failed: "
                                   ++ Py.exn_str workflow_error)])%list in
            if (max_workflow_attempts <=? workflow_attempts)%nat then
              ((Raise workflow_error, state),
               (w2 ++ [EvLog ERROR ("Workflow failed after "
                                      ++ PyStr.of_nat max_workflow_attempts
                                      ++ " attempts")])%list)
            else
              let state := set_browser_action state EmptyString in
              workflow_loop fuel' max_iterations workflow_attempts state
                            (w2 ++ [EvSleep 500])%list
        end
      else
        ((Raise (mkExn "RuntimeError" "Workflow execution failed unexpectedly"), state), w)
  end.

Definition error_details (e : Exn) (initial_task : string) (use_real_browser : bool)
           (max_iterations : Z) (browser_context : option BrowserContext) : Dict :=
  [ ("error_type", VStr (exn_type e));
    ("error_message", VStr (Py.exn_str e));
    ("task", VStr (PyStr.take 100 initial_task));
    ("use_real_browser", VBool use_real_browser);
    ("max_iterations", VInt max_iterations);
    ("browser_context_created",
     VBool (match browser_context with Some _ => true | None => false end)) ].

(** The outer [try] with its [except Exception]: the workflow loop, and
    the error state in place of whatever it raises. *)
Definition workflow_body (initial_task : string) (max_iterations : Z)
           (use_real_browser : bool) (browser_context : option BrowserContext)
           (state : AgentState) : M RunResult :=
  fun w =>
    match workflow_loop max_workflow_attempts max_iterations 0 state w with
    | ((Ok final_state, _), w1) => (Ok (result_of_state final_state), w1)
    | ((Raise e, state), w1) =>
        let details :=
          error_details e initial_task use_real_browser max_iterations browser_context in
        (Ok (mkResult (messages state) (page_map state) (browser_action state)
                      false (Some details)),
         (w1 ++ [EvLog ERROR ("Agent workflow failed: " ++ Py.repr_dict details)])%list)
    end.

(** The loop [while cleanup_attempts < max_cleanup_attempts] of the
    [finally] block *)
Fixpoint cleanup_loop (fuel cleanup_attempts : nat) (browser_context : BrowserContext)
  : M unit :=
  match fuel with
  | O => ret tt
  | S fuel' =>
      if (cleanup_attempts <? max_cleanup_attempts)%nat then
        r <- try_except
               (call (fun w => close_browser_context_env env w browser_context)
                     (EvClose browser_context) ;;
                log INFO "Browser context closed successfully" ;;
                ret None)
               (fun cleanup_error => ret (Some cleanup_error)) ;;
        match r with
        | None => ret tt
        | Some cleanup_error =>
            let cleanup_attempts := (cleanup_attempts + 1)%nat in
            log WARNING ("Browser cleanup attempt " ++ PyStr.of_nat cleanup_attempts
                           ++ " failed: " ++ Py.exn_str cleanup_error) ;;
            if (max_cleanup_attempts <=? cleanup_attempts)%nat then
              log ERROR ("Failed to cleanup browser context after "
                           ++ PyStr.of_nat max_cleanup_attempts ++ " attempts")
            else
              sleep 500 ;;
              cleanup_loop fuel' cleanup_attempts browser_context
        end
      else ret tt
  end.

(** The [finally] block *)
Definition cleanup (browser_context : option BrowserContext) : M unit :=
  match browser_context with
  | Some ctx => cleanup_loop max_cleanup_attempts 0 ctx
  | None => ret tt
  end.

Definition run_agent_workflow_on (initial_task : string) (max_iterations : Z)
           (use_real_browser : bool) : M RunResult :=
  log INFO ("Starting browser agent with task: " ++ initial_task) ;;
  lift (validate_run initial_task max_iterations) ;;
  let state := initial_state initial_task in
  acquired <- acquire use_real_browser ;;
  let browser_context := fst acquired in
  let use_real_browser := snd acquired in
  try_finally
    (workflow_body initial_task max_iterations use_real_browser browser_context state)
    (cleanup browser_context).
End Run.

(** [run_agent_workflow], on the executor of the graph library *)
Definition run_agent_workflow (env : Env) (settings : Settings)
           (initial_task : string) (max_iterations : Z) (use_real_browser : bool)
  : M RunResult :=
  run_agent_workflow_on env settings ainvoke initial_task max_iterations use_real_browser.

End BrowserAgent.

(** An environment without AI backend whose browser never fails. *)
Definition quiet_env : Env :=
  mkEnv (fun w => Ok (List.length w))
        (fun _ _ _ => Ok tt)
        (fun _ _ => Ok tt)
        (fun _ _ _ => Ok true)
        (fun _ _ _ _ => Ok true)
        (fun _ _ _ _ _ _ => Ok true)
        (fun _ _ => Ok Tools.placeholder_page)
        false
        (fun _ _ _ => Raise (AnthropicClient.AnthropicAPIError "Anthropic client not available")).

Definition checks_on : Settings := mkSettings true.
Definition checks_off : Settings := mkSettings false.


(** ** Vocabulary of the statements *)

Module Terms.

(** The argument the gate lowers, [selector] of a click and [text] of a
    typing, is a string when it is there. *)
Definition lowered_arg_is_str (tool_name : string) (tool_args : Dict) : bool :=
  let is_str k :=
    match Py.get tool_args k with
    | Some (VStr _) | None => true
    | Some _ => false
    end in
  if tool_name =? "click_element" then is_str "selector"
  else if tool_name =? "type_text" then is_str "text"
  else true.

(** The steps of the graph executor recorded in a history *)
Fixpoint node_trace (w : World) : list string :=
  match w with
  | [] => []
  | EvNode name :: w' => name :: node_trace w'
  | _ :: w' => node_trace w'
  end.

(** An event that records a call to the browser that raised *)
Definition env_raised (ev : Event) : bool :=
  match ev with
  | EvCreate (Raise _) | EvNavigate _ _ (Raise _) | EvClose _ (Raise _)
  | EvClick _ _ (Raise _) | EvType _ _ _ (Raise _)
  | EvScroll _ _ _ _ _ (Raise _) | EvElements _ (Raise _) => true
  | _ => false
  end.

(** The sessions a history created and the teardown attempts it holds *)
Definition is_created (ev : Event) : bool :=
  match ev with EvCreate (Ok _) => true | _ => false end.
Definition is_close (ev : Event) : bool :=
  match ev with EvClose _ _ => true | _ => false end.
Definition sessions_created (w : World) : nat := List.length (filter is_created w).
Definition close_attempts (w : World) : nat := List.length (filter is_close w).

(** The website check that precedes the rules: the first message of the
    user, stripped, when it is not empty and the pattern finds a site in it. *)
Definition original_mention (patterns : DecisionEngine.Patterns)
           (original : option string) : option Re.mobj :=
  match original with
  | Some original_user_message =>
      if PyStr.truthy original_user_message
      then Re.search (DecisionEngine.p_website_mention patterns) original_user_message
      else None
  | None => None
  end.

(** One of the rules of the chain recognises the lowered last message, or
    the site pattern finds a site in the last message as written. *)
Definition rule_matches (patterns : DecisionEngine.Patterns) (last : string) : bool :=
  let content := PyStr.lower (PyStr.strip last) in
  Re.matches (DecisionEngine.p_finish_task patterns) content
  || Re.matches (DecisionEngine.p_submit_click patterns) content
  || Re.matches (DecisionEngine.p_payment_action patterns) content
  || Re.matches (DecisionEngine.p_text_input patterns) content
  || Re.matches (DecisionEngine.p_scroll_action patterns) content
  || Re.matches (DecisionEngine.p_navigate_action patterns) content
  || Re.matches (DecisionEngine.p_search_action patterns) content
  || Re.matches (DecisionEngine.p_website_mention patterns) content
  || Re.matches (DecisionEngine.p_website_mention patterns) (PyStr.strip last).

(** The text of the last message, empty when the conversation does not end
    in a text *)
Definition last_text (messages : list Message) : string :=
  match rev messages with
  | m :: _ => match content m with Some c => c | None => EmptyString end
  | [] => EmptyString
  end.

(** A text of at most as many bytes as [int] takes digits: whatever run of
    digits it holds is converted. *)
Definition convertible (s : string) : bool :=
  (String.length s <=? Py.int_max_str_digits)%nat.

(** A conversation of ASCII texts: on these the [str] methods and the [re]
    classes of the embedding are those of Python. *)
Definition plain (messages : list Message) : bool :=
  forallb (fun m => match content m with
                    | Some c => PyStr.is_ascii c
                    | None => true
                    end) messages.

(** The no-break space U+00A0 followed by the ideographic space U+3000 *)
Definition wide_blank : string :=
  String (ascii_of_nat 194) (String (ascii_of_nat 160)
    (String (ascii_of_nat 227) (String (ascii_of_nat 128)
       (String (ascii_of_nat 128) EmptyString)))).

(** A run of [n] digits, and a request to scroll by an amount of one digit
    more than [int] converts *)
Fixpoint digit_run (n : nat) : string :=
  match n with
  | O => EmptyString
  | S n' => String "7"%char (digit_run n')
  end.

Definition long_scroll : string :=
  "scroll down " ++ digit_run (S Py.int_max_str_digits) ++ " px".

(** The click on the fixed payment-like selectors *)
Definition payment_click : Decision :=
  DecisionEngine.tool_call_decision "click_element"
    [("selector", VStr "button.pay-now, button.checkout, button#purchase")].

(** The character before the end of [s], [prev] when [s] is empty *)
Fixpoint last_char (prev : option ascii) (s : string) : option ascii :=
  match s with
  | EmptyString => prev
  | String c s' => last_char (Some c) s'
  end.

(** [name], in any case, is one of the known website names. *)
Definition is_site (name : string) : bool :=
  Tools.mem (PyStr.lower name) DecisionEngine.website_names.

(** [s] reads [pre ++ name ++ post] with [name] standing as a whole word:
    no word character right before it and none right after it. *)
Definition whole_word (s pre name post : string) : Prop :=
  s = pre ++ name ++ post
  /\ Re.is_word_opt (last_char None pre) = false
  /\ Re.is_word_opt (Re.head post) = false.

(** [n] is a prefix of [s] up to case. *)
Fixpoint ci_prefix (n s : string) : bool :=
  match n, s with
  | EmptyString, _ => true
  | String a n', String d s' =>
      Ascii.eqb (PyStr.lower_char d) (PyStr.lower_char a) && ci_prefix n' s'
  | String _ _, EmptyString => false
  end.

Fixpoint drop (n : nat) (s : string) : string :=
  match n, s with
  | S n', String _ s' => drop n' s'
  | _, _ => s
  end.

(** The alternatives of [words l], tried in order *)
Fixpoint first_word (R : Type) (l : list string) (prev : option ascii) (s : string)
         (caps : Re.captures) (k : Re.cont R) : option R :=
  match l with
  | [] => None
  | n :: l' =>
      Re.orelse R (Re.run R (Re.lit n) prev s caps k) (fun _ => first_word R l' prev s caps k)
  end.

(** The site the pattern of the website names finds right at the start of
    [s], [prev] being the character before: the first name of the list that
    starts [s] up to case and ends at a word boundary, as it is written in
    [s]; nothing unless [s] starts at a word boundary. *)
Fixpoint first_site (l : list string) (prev : option ascii) (s : string)
  : option string :=
  match l with
  | [] => None
  | n :: l' =>
      if ci_prefix n s
         && Re.at_boundary (last_char prev (PyStr.take (String.length n) s))
                           (drop (String.length n) s)
      then Some (PyStr.take (String.length n) s)
      else first_site l' prev s
  end.

Definition site_at (prev : option ascii) (s : string) : option string :=
  if Re.at_boundary prev s then first_site DecisionEngine.website_names prev s
  else None.

(** The first site from the start of [s] on *)
Fixpoint site_from (prev : option ascii) (s : string) : option string :=
  match site_at prev s with
  | Some x => Some x
  | None =>
      match s with
      | String c s' => site_from (Some c) s'
      | EmptyString => None
      end
  end.

(** Lower-case letters only, and at least one *)
Fixpoint lower_letters (s : string) : bool :=
  match s with
  | EmptyString => true
  | String c s' => PyStr.is_lower c && lower_letters s'
  end.

(** The match object of the website pattern on the text [x] *)
Definition site_match (x : string) : Re.mobj := Re.mkMatch x [(1, x)].

(** [c] appends events to the history, none of them a step of the graph,
    and what it returns satisfies [P]; it may raise. *)
Definition behaves {A} (P : A -> Prop) (c : M A) : Prop :=
  forall w : World,
  exists d, snd (c w) = (w ++ d)%list /\ node_trace d = []
            /\ forall a, fst (c w) = Ok a -> P a.

(** The same, and [c] does not raise. *)
Definition returns {A} (P : A -> Prop) (c : M A) : Prop :=
  forall w : World,
  exists a d, c w = (Ok a, (w ++ d)%list) /\ node_trace d = [] /\ P a.

Definition anything {A} (a : A) : Prop := True.

(** What [agent_node] leaves: the conversation with the tool call appended,
    or with a text appended and the task marked complete. *)
Definition agent_shape (st st' : AgentState) : Prop :=
  (exists tc, messages st' = (messages st ++ [assistant_tool_calls [tc]])%list)
  \/ (exists c, messages st' = (messages st ++ [assistant_text c])%list
                /\ task_complete st' = true).

(** What [agent_node] leaves on a decision that is a text *)
Definition text_shape (st st' : AgentState) : Prop :=
  exists c, messages st' = (messages st ++ [assistant_text c])%list
            /\ task_complete st' = true.

(** A tool call the security gate can classify and describe. *)
Definition good_call (settings : Settings) (tc : ToolCall) : Prop :=
  (exists b, Security.should_require_approval settings (tc_name tc) (tc_args tc) = Ok b)
  /\ (exists msg, Security.get_approval_message (tc_name tc) (tc_args tc) = Ok msg).

Definition good_decision (settings : Settings) (d : Decision) : Prop :=
  match d with
  | Content _ => True
  | ToolCalls l => exists tc, l = [tc] /\ good_call settings tc
  end.

(** A walk of the graph from history [w]: it appended the events [d], its
    steps are the first ones of [path], at most [n] of them, and a final
    state, if the walk has one, is marked complete. *)
Definition walk_along (path : list string) (n : nat) (w : World)
           (r : BrowserAgent.Outcome * World) : Prop :=
  exists d,
    snd r = (w ++ d)%list
    /\ (exists rest, path = (node_trace d ++ rest)%list)
    /\ (List.length (node_trace d) <= n)%nat
    /\ (forall fs, BrowserAgent.final (fst r) = Ok fs -> task_complete fs = true).

(** The walk reached [END] with the task marked complete. *)
Definition walk_done (r : BrowserAgent.Outcome * World) : Prop :=
  exists fs, BrowserAgent.final (fst r) = Ok fs /\ task_complete fs = true.

(** Readings of what a run returned *)
Definition completed (r : Res BrowserAgent.RunResult) : bool :=
  match r with Ok res => BrowserAgent.r_task_complete res | Raise _ => false end.
Definition pending_action (r : Res BrowserAgent.RunResult) : string :=
  match r with Ok res => BrowserAgent.r_browser_action res | Raise _ => EmptyString end.
Definition error_type (r : Res BrowserAgent.RunResult) : option PyVal :=
  match r with
  | Ok res =>
      match BrowserAgent.r_error res with
      | Some details => Py.get details "error_type"
      | None => None
      end
  | Raise _ => None
  end.

(** Every teardown attempt of a history is on the context [ctx]. *)
Definition closes_only (ctx : BrowserContext) (w : World) : Prop :=
  Forall (fun ev => match ev with EvClose c _ => c = ctx | _ => True end) w.

(** An environment without AI backend whose browser starts and then fails
    the probe navigation, every time. *)
Definition probe_failing_env : Env :=
  mkEnv (fun w => Ok (List.length w))
        (fun _ _ _ => Raise (mkExn "BrowserError" "Navigation failed: net::ERR_ABORTED"))
        (fun _ _ => Ok tt)
        (fun _ _ _ => Ok true)
        (fun _ _ _ _ => Ok true)
        (fun _ _ _ _ _ _ => Ok true)
        (fun _ _ => Ok Tools.placeholder_page)
        false
        (fun _ _ _ => Raise (AnthropicClient.AnthropicAPIError "Anthropic client not available")).

(** An environment whose browser starts and never closes. *)
Definition stuck_close_env : Env :=
  mkEnv (fun w => Ok (List.length w))
        (fun _ _ _ => Ok tt)
        (fun _ _ => Raise (mkExn "BrowserError" "Browser cleanup failed: closed"))
        (fun _ _ _ => Ok true)
        (fun _ _ _ _ => Ok true)
        (fun _ _ _ _ _ _ => Ok true)
        (fun _ _ => Ok Tools.placeholder_page)
        false
        (fun _ _ _ => Raise (AnthropicClient.AnthropicAPIError "Anthropic client not available")).

(** The decision does not depend on the history it is taken in. *)
Definition history_independent {A} (c : M A) : Prop :=
  forall w1 w2 : World, fst (c w1) = fst (c w2).

End Terms.

(** ** Further vocabulary: what a computation does to the browser *)

Module Effects.

(** An event that leaves the browser alone: a log line, a pause, a step of
    the graph or a call to the AI backend *)
Definition is_quiet (ev : Event) : bool :=
  match ev with
  | EvLog _ _ | EvSleep _ | EvNode _ | EvAI _ => true
  | _ => false
  end.

(** An event of the life cycle of a session: quiet, or the creation of a
    context, its probe with a navigation to about:blank, or its closing *)
Definition is_lifecycle (ev : Event) : bool :=
  match ev with
  | EvCreate _ | EvClose _ _ => true
  | EvNavigate _ url _ => url =? "about:blank"
  | _ => is_quiet ev
  end.

(** A call to the AI backend *)
Definition is_ai_call (ev : Event) : bool :=
  match ev with EvAI _ => true | _ => false end.

Definition is_create (ev : Event) : bool :=
  match ev with EvCreate _ => true | _ => false end.

Definition count (P : Event -> bool) (w : World) : nat := List.length (filter P w).

(** [c] appends events to the history, all of them of the kind [P]. *)
Definition only (P : Event -> bool) {A} (c : M A) : Prop :=
  forall w : World, exists d, snd (c w) = (w ++ d)%list /\ forallb P d = true.

Definition is_node (ev : Event) : bool := match ev with EvNode _ => true | _ => false end.

(** What a computation writes for itself: log records and pauses; and
    what a step of the agent may add to them, a call to the AI backend. *)
Definition is_log (ev : Event) : bool :=
  match ev with EvLog _ _ | EvSleep _ => true | _ => false end.
Definition is_thought (ev : Event) : bool := is_log ev || is_ai_call ev.

(** What the acquisition does to the browser, a creation or the probe of
    the context created, and what the teardown does, a closing *)
Definition is_probe (ev : Event) : bool :=
  match ev with
  | EvCreate _ => true
  | EvNavigate _ url _ => url =? "about:blank"
  | _ => false
  end.
Definition is_setup (ev : Event) : bool := is_log ev || is_probe ev.
Definition is_teardown (ev : Event) : bool := is_log ev || Terms.is_close ev.

(** A computation that appends no event of the kind [P], and one that
    appends at most [n] of them *)
Definition free (P : Event -> bool) {A} (c : M A) : Prop :=
  only (fun ev => negb (P ev)) c.
(** The calls to the AI backend a step of a node can make: the agent node
    decides once, the other nodes never. *)
Definition ai_weight (name : string) : nat := if name =? "agent" then 1 else 0.

Definition at_most (P : Event -> bool) (n : nat) {A} (c : M A) : Prop :=
  forall w : World, exists d, snd (c w) = (w ++ d)%list /\ (count P d <= n)%nat.

End Effects.

(** ** server.py: the REST interface

    The handlers work on [task_store], a dict from task ids to task records
    that keeps the order of insertion.  A handler takes the store and the
    history and yields its reply with the store and the history it leaves.
    Task ids and times come from outside ([uuid.uuid4], [datetime.now]):
    they are readings of the history, the n-th reading since the last
    event for a handler that reads more than once. *)

Module Server.

Definition Time : Type := nat.

(** An entry of [task["logs"]] *)
Record LogEntry : Type := mkLogEntry {
  le_timestamp : Time;
  le_type : string;
  le_message : string
}.

(** A record of [task_store]; [completed_at] is a key the record gets
    when the task ends. *)
Record Task : Type := mkTask {
  task_id : string;
  status : string;
  created_at : Time;
  completed_at : option Time;
  task_description : string;
  logs : list LogEntry;
  result : option BrowserAgent.RunResult;
  error : option string
}.

Definition set_status (t : Task) (v : string) : Task :=
  mkTask (task_id t) v (created_at t) (completed_at t) (task_description t)
         (logs t) (result t) (error t).
Definition set_completed_at (t : Task) (v : Time) : Task :=
  mkTask (task_id t) (status t) (created_at t) (Some v) (task_description t)
         (logs t) (result t) (error t).
Definition set_result (t : Task) (v : BrowserAgent.RunResult) : Task :=
  mkTask (task_id t) (status t) (created_at t) (completed_at t) (task_description t)
         (logs t) (Some v) (error t).
Definition set_error (t : Task) (v : string) : Task :=
  mkTask (task_id t) (status t) (created_at t) (completed_at t) (task_description t)
         (logs t) (result t) (Some v).
Definition append_log (t : Task) (e : LogEntry) : Task :=
  mkTask (task_id t) (status t) (created_at t) (completed_at t) (task_description t)
         (logs t ++ [e])%list (result t) (error t).

Definition Store : Type := list (string * Task).

(** [task_store[k]], where [None] stands for a key that is not in the
    store, and [task_store[k] = v]: a new key goes to the end, a key of the
    dict keeps its place. *)
Fixpoint store_get (s : Store) (k : string) : option Task :=
  match s with
  | [] => None
  | (k', t) :: s' => if k' =? k then Some t else store_get s' k
  end.

Fixpoint store_set (s : Store) (k : string) (v : Task) : Store :=
  match s with
  | [] => [(k, v)]
  | (k', t) :: s' => if k' =? k then (k, v) :: s' else (k', t) :: store_set s' k v
  end.

(** [list(task_store.values())] *)
Definition store_values (s : Store) : list Task := map snd s.

(** [l[start:stop]] *)
Definition clamp (n i : Z) : Z :=
  (if i <? 0 then Z.max (i + n) 0 else Z.min i n)%Z.

Definition py_slice {A} (l : list A) (start stop : Z) : list A :=
  let n := Z.of_nat (List.length l) in
  let a := clamp n start in
  let b := clamp n stop in
  firstn (Z.to_nat (b - a)) (skipn (Z.to_nat a) l).

(** [settings.agent], as far as the server reads it *)
Record AgentConfig : Type := mkAgentConfig {
  cfg_max_iterations : Z;
  cfg_use_real_browser : bool;
  cfg_enable_security_checks : bool
}.

Definition core_settings (cfg : AgentConfig) : Settings :=
  mkSettings (cfg_enable_security_checks cfg).

Record TaskRequest : Type := mkTaskRequest {
  task : string;
  use_real_browser : option bool;
  max_iterations : option Z;
  enable_security : option bool
}.

(** The validator of the field [max_iterations] *)
Definition validate_max_iterations (v : option Z) : Res (option Z) :=
  match v with
  | Some n =>
      if ((n <? 1) || (n >? 20))%Z
      then Raise (mkExn "ValueError" "max_iterations must be between 1 and 20")
      else Ok v
  | None => Ok v
  end.

Record TaskResponse : Type := mkTaskResponse {
  resp_task_id : string;
  resp_status : string;
  resp_message : string
}.

(** The [TaskStatus] built from a record: the record without its
    description *)
Record TaskStatus : Type := mkTaskStatus {
  ts_task_id : string;
  ts_status : string;
  ts_created_at : Time;
  ts_completed_at : option Time;
  ts_result : option BrowserAgent.RunResult;
  ts_logs : list LogEntry;
  ts_error : option string
}.

Definition status_of_task (t : Task) : TaskStatus :=
  mkTaskStatus (task_id t) (status t) (created_at t) (completed_at t) (result t)
               (logs t) (error t).

Record HTTPException : Type := mkHTTPException {
  status_code : nat;
  detail : string
}.

(** What a handler answers: its return value, or the [HTTPException] it
    raises. *)
Inductive Reply (A : Type) : Type :=
| Served (a : A)
| Refused (e : HTTPException).
Arguments Served {A} a.
Arguments Refused {A} e.

(** A call queued with [background_tasks.add_task] *)
Record Job : Type := mkJob {
  job_task_id : string;
  job_task_description : string;
  job_use_real_browser : bool;
  job_max_iterations : Z;
  job_enable_security : bool
}.

(** The subclasses of [BrowserFreakError] (exceptions.py) *)
Definition browserfreak_errors : list string :=
  [ "BrowserFreakError"; "ConfigurationError"; "BrowserError"; "BrowserTimeoutError";
    "ElementNotFoundError"; "AgentError"; "SecurityError"; "APIError";
    "AnthropicAPIError"; "ValidationError" ].

Definition is_browserfreak_error (e : Exn) : bool :=
  Tools.mem (exn_type e) browserfreak_errors.

Section Handlers.
Variable env : Env.
Variable cfg : AgentConfig.
(** [str(uuid.uuid4())] and [datetime.now()] *)
Variable new_id : World -> string.
Variable now : World -> nat -> Time.

Definition create_task (task_request : TaskRequest) (task_store : Store) (w : World)
  : Reply TaskResponse * option Job * Store * World :=
  if negb (PyStr.truthy (PyStr.strip (task task_request))) then
    (Refused (mkHTTPException 400 "Task description cannot be empty"),
     None, task_store, w)
  else
    let task_id := new_id w in
    let task_store :=
      store_set task_store task_id
                (mkTask task_id "running" (now w 0) None (task task_request) [] None None) in
    let use_real_browser :=
      match use_real_browser task_request with
      | Some b => b
      | None => cfg_use_real_browser cfg
      end in
    let max_iterations :=
      match max_iterations task_request with
      | Some n => n
      | None => cfg_max_iterations cfg
      end in
    let enable_security :=
      match enable_security task_request with
      | Some b => b
      | None => cfg_enable_security_checks cfg
      end in
    let task_store :=
      match store_get task_store task_id with
      | Some t =>
          store_set task_store task_id
            (append_log t (mkLogEntry (now w 1) "info"
                             ("Task created: " ++ PyStr.take 100 (task task_request)
                                ++ "...")))
      | None => task_store
      end in
    (Served (mkTaskResponse task_id "running" "Task created and execution started"),
     Some (mkJob task_id (task task_request) use_real_browser max_iterations
                 enable_security),
     task_store,
     (w ++ [EvLog INFO ("Task " ++ task_id ++ " created and queued for execution")])%list).

Definition get_task_status (task_id : string) (task_store : Store) : Reply TaskStatus :=
  match store_get task_store task_id with
  | None => Refused (mkHTTPException 404 "Task not found")
  | Some task => Served (status_of_task task)
  end.

(** The dict [list_tasks] returns *)
Record TaskList : Type := mkTaskList {
  tl_tasks : list Task;
  tl_total : nat;
  tl_limit : Z;
  tl_offset : Z
}.

Definition list_tasks (status_filter : option string) (limit offset : Z)
           (task_store : Store) : TaskList :=
  let tasks := store_values task_store in
  let tasks :=
    match status_filter with
    | Some wanted =>
        if PyStr.truthy wanted then filter (fun t => status t =? wanted) tasks else tasks
    | None => tasks
    end in
  let total := List.length tasks in
  let tasks := py_slice tasks offset (offset + limit) in
  mkTaskList tasks total limit offset.

Definition cancel_task (task_id : string) (task_store : Store) (w : World)
  : Reply string * Store * World :=
  match store_get task_store task_id with
  | None => (Refused (mkHTTPException 404 "Task not found"), task_store, w)
  | Some task =>
      if status task =? "completed" then
        (Refused (mkHTTPException 400 "Cannot cancel completed task"), task_store, w)
      else
        let task := set_status task "cancelled" in
        let task := set_completed_at task (now w 0) in
        let task := set_error task "Task cancelled by user" in
        (Served "Task cancelled successfully",
         store_set task_store task_id task,
         (w ++ [EvLog INFO ("Task " ++ task_id ++ " cancelled")])%list)
  end.

(** The handlers of [execute_task_background] write the failure into the
    record; without the record they raise the [KeyError] of the lookup. *)
Definition record_failure (task_id error_msg : string) (task_store : Store) (w : World)
  : Res unit * Store :=
  match store_get task_store task_id with
  | None => (Raise (Py.KeyError task_id), task_store)
  | Some t =>
      let t := set_status t "failed" in
      let t := set_completed_at t (now w 0) in
      let t := set_error t error_msg in
      let t := append_log t (mkLogEntry (now w 1) "error" error_msg) in
      (Ok tt, store_set task_store task_id t)
  end.

Definition execute_task_background (job : Job) (task_store : Store) (w : World)
  : Res unit * Store * World :=
  let task_id := job_task_id job in
  let w := (w ++ [EvLog INFO ("Starting background execution for task " ++ task_id)])%list in
  let attempt : Res unit * Store * World :=
    match BrowserAgent.run_agent_workflow env (core_settings cfg)
            (job_task_description job) (job_max_iterations job)
            (job_use_real_browser job) w with
    | (Raise e, w) => (Raise e, task_store, w)
    | (Ok result, w) =>
        match store_get task_store task_id with
        | None => (Raise (Py.KeyError task_id), task_store, w)
        | Some t =>
            let t := set_status t "completed" in
            let t := set_completed_at t (now w 0) in
            let t := set_result t result in
            let t := append_log t (mkLogEntry (now w 1) "success"
                                              "Task completed successfully") in
            (Ok tt, store_set task_store task_id t,
             (w ++ [EvLog INFO ("Task " ++ task_id ++ " completed successfully")])%list)
        end
    end in
  match attempt with
  | (Ok tt, task_store, w) => (Ok tt, task_store, w)
  | (Raise e, task_store, w) =>
      if is_browserfreak_error e then
        let error_msg := "BrowserFreak error: " ++ Py.exn_str e in
        let w := (w ++ [EvLog ERROR ("Task " ++ task_id ++ " failed: " ++ error_msg)])%list in
        match record_failure task_id error_msg task_store w with
        | (r, task_store) => (r, task_store, w)
        end
      else
        let error_msg := "Unexpected error: " ++ Py.exn_str e in
        let w := (w ++ [EvLog ERROR ("Task " ++ task_id
                                       ++ " failed with unexpected error: " ++ error_msg)])%list in
        match record_failure task_id error_msg task_store w with
        | (r, task_store) => (r, task_store, w)
        end
  end.
End Handlers.

End Server.

(** ** browser_manager.py: the operations on a page

    The operations of the module work on the page of a browser context.
    Playwright's page is an oracle of its own: what a call on it answers
    depends on what happened to the page before, the trail.  The timeouts
    of the calls are configuration and not part of the model. *)

Module BrowserManager.

Definition BrowserError (msg : string) : Exn := mkExn "BrowserError" msg.
Definition BrowserTimeoutError (msg : string) : Exn := mkExn "BrowserTimeoutError" msg.
Definition ElementNotFoundError (msg : string) : Exn := mkExn "ElementNotFoundError" msg.
Definition ValueError (msg : string) : Exn := mkExn "ValueError" msg.

Inductive PageEvent : Type :=
| PgLog (lvl : Level) (msg : string)
| PgSleep (ms : nat)
| PgWaitForSelector (selector : string) (r : Res unit)
| PgWaitForFunction (script : string) (r : Res unit)
| PgClick (selector : string) (r : Res unit)
| PgFill (selector text : string) (r : Res unit)
| PgEvaluate (script : string) (r : Res bool).

Definition Trail : Type := list PageEvent.

(** [page]; [evaluate] yields the truth value of what the script
    returns, all the module reads of it. *)
Record Page : Type := mkPage {
  wait_for_selector : Trail -> string -> Res unit;
  wait_for_function : Trail -> string -> Res unit;
  click : Trail -> string -> Res unit;
  fill : Trail -> string -> string -> Res unit;
  evaluate : Trail -> string -> Res bool
}.

Definition P (A : Type) : Type := Trail -> Res A * Trail.

Definition pret {A} (a : A) : P A := fun t => (Ok a, t).
Definition praise {A} (e : Exn) : P A := fun t => (Raise e, t).
Definition pbind {A B} (c : P A) (f : A -> P B) : P B :=
  fun t =>
    match c t with
    | (Ok a, t') => f a t'
    | (Raise e, t') => (Raise e, t')
    end.
Definition ptry {A} (c : P A) (h : Exn -> P A) : P A :=
  fun t =>
    match c t with
    | (Ok a, t') => (Ok a, t')
    | (Raise e, t') => h e t'
    end.
Definition pemit (e : PageEvent) : P unit := fun t => (Ok tt, (t ++ [e])%list).
Definition plog (lvl : Level) (msg : string) : P unit := pemit (PgLog lvl msg).
Definition psleep (ms : nat) : P unit := pemit (PgSleep ms).
Definition pcall {A} (ask : Trail -> Res A) (ev : Res A -> PageEvent) : P A :=
  fun t => let r := ask t in (r, (t ++ [ev r])%list).

Declare Scope page_scope.
Delimit Scope page_scope with page.
Notation "x <~ c ;; k" := (pbind c (fun x => k))
  (at level 61, c at next level, right associativity) : page_scope.
Notation "c ;;; k" := (pbind c (fun _ => k))
  (at level 61, right associativity) : page_scope.

Definition nl : string := String (ascii_of_nat 10) EmptyString.

Fixpoint spaces (n : nat) : string :=
  match n with
  | O => EmptyString
  | S n' => String " "%char (spaces n')
  end.

(** A line of a script, indented *)
Definition line (indent : nat) (text : string) : string := spaces indent ++ text ++ nl.

(** The script of the second wait of [click_element] *)
Definition stable_script (selector : string) : string :=
  nl
  ++ line 16 "() => {"
  ++ line 20 ("const el = document.querySelector('" ++ selector ++ "');")
  ++ line 20 "if (!el) return false;"
  ++ line 20 "const rect = el.getBoundingClientRect();"
  ++ line 20 "return rect.width > 0 && rect.height > 0;"
  ++ line 16 "}"
  ++ spaces 16.

(** The exception of the last failed attempt, by the text of the failure *)
Definition click_failure (selector : string) (max_retries : Z) (e : Exn) : Exn :=
  if PyStr.contains "Timeout" (Py.exn_str e) then
    BrowserTimeoutError ("Element '" ++ selector ++ "' not clickable within timeout after "
                           ++ PyStr.of_Z max_retries ++ " attempts")
  else if PyStr.contains "not found" (PyStr.lower (Py.exn_str e)) then
    ElementNotFoundError ("Element '" ++ selector ++ "' not found after "
                            ++ PyStr.of_Z max_retries ++ " attempts")
  else
    BrowserError ("Click failed for element '" ++ selector ++ "' after "
                    ++ PyStr.of_Z max_retries ++ " attempts: " ++ Py.exn_str e).

(** [text[:50]] with the dots for a longer text *)
Definition preview (text : string) : string :=
  PyStr.take 50 text ++ (if (50 <? String.length text)%nat then "..." else EmptyString).

Definition type_failure (selector : string) (e : Exn) : Exn :=
  if PyStr.contains "Timeout" (Py.exn_str e) then
    BrowserTimeoutError ("Element '" ++ selector
                           ++ "' not available for typing within timeout")
  else if PyStr.contains "not found" (PyStr.lower (Py.exn_str e)) then
    ElementNotFoundError ("Element '" ++ selector ++ "' not found")
  else
    BrowserError ("Typing failed for element '" ++ selector ++ "': " ++ Py.exn_str e).

(** [_get_scroll_property] *)
Definition _get_scroll_property (direction : string) : string :=
  let direction := PyStr.lower direction in
  if Tools.mem direction ["up"; "down"] then "top"
  else if Tools.mem direction ["left"; "right"] then "left"
  else "top".

Definition valid_directions : list string := ["up"; "down"; "left"; "right"].

(** [str(element_selector)] and its truth value *)
Definition selector_str (element_selector : option string) : string :=
  match element_selector with Some s => s | None => "None" end.
Definition selector_given (element_selector : option string) : bool :=
  match element_selector with Some s => PyStr.truthy s | None => false end.

Definition scroll_options (direction : string) (amount : Z) (smooth : bool) : string :=
  line 16 "const scrollOptions = {"
  ++ line 20 ("behavior: '" ++ (if smooth then "smooth" else "auto") ++ "',")
  ++ line 20 (_get_scroll_property direction ++ ": " ++ PyStr.of_Z amount)
  ++ line 16 "};".

(** [scroll_js], for an element and for the page *)
Definition scroll_js (direction : string) (amount : Z)
           (element_selector : option string) (smooth : bool) : string :=
  if selector_given element_selector then
    nl
    ++ line 12 "(function() {"
    ++ line 16 ("const element = document.querySelector('"
                  ++ selector_str element_selector ++ "');")
    ++ line 16 "if (!element) return false;"
    ++ nl
    ++ scroll_options direction amount smooth
    ++ nl
    ++ line 16 "element.scrollBy(scrollOptions);"
    ++ line 16 "return true;"
    ++ line 12 "})();"
    ++ spaces 12
  else
    nl
    ++ line 12 "(function() {"
    ++ scroll_options direction amount smooth
    ++ nl
    ++ line 16 "window.scrollBy(scrollOptions);"
    ++ line 16 "return true;"
    ++ line 12 "})();"
    ++ spaces 12.

Definition scroll_failure (element_selector : option string) (e : Exn) : Exn :=
  if PyStr.contains "not found" (PyStr.lower (Py.exn_str e)) then
    ElementNotFoundError ("Element '" ++ selector_str element_selector
                            ++ "' not found for scrolling")
  else BrowserError ("Scroll failed: " ++ Py.exn_str e).

Section OnPage.
Variable page : Page.

Open Scope page_scope.

(** One pass of the [try] of [click_element] *)
Definition click_attempt (selector : string) (max_retries : Z) (attempt : nat) : P bool :=
  plog DEBUG ("Attempting to click element: " ++ selector ++ " (attempt "
                ++ PyStr.of_nat (attempt + 1) ++ "/" ++ PyStr.of_Z max_retries ++ ")") ;;;
  pcall (fun t => wait_for_selector page t selector) (PgWaitForSelector selector) ;;;
  pcall (fun t => wait_for_function page t (stable_script selector))
        (PgWaitForFunction (stable_script selector)) ;;;
  pcall (fun t => click page t selector) (PgClick selector) ;;;
  plog INFO ("Successfully clicked element: " ++ selector) ;;;
  pret true.

(** The loop [for attempt in range(max_retries)], over the attempts that
    are left, and the [return False] after it; the pause before a retry is
    in milliseconds. *)
Fixpoint click_loop (selector : string) (max_retries : Z) (attempts : list nat)
  : P bool :=
  match attempts with
  | [] => pret false
  | attempt :: rest =>
      r <~ ptry (b <~ click_attempt selector max_retries attempt ;; pret (inl b))
                (fun e => pret (inr e)) ;;
      match r with
      | inl b => pret b
      | inr e =>
          plog WARNING ("Click attempt " ++ PyStr.of_nat (attempt + 1) ++ " failed for '"
                          ++ selector ++ "': " ++ Py.exn_str e) ;;;
          if (Z.of_nat attempt =? max_retries - 1)%Z then
            plog ERROR ("Failed to click element '" ++ selector ++ "' after "
                          ++ PyStr.of_Z max_retries ++ " attempts: " ++ Py.exn_str e) ;;;
            praise (click_failure selector max_retries e)
          else
            psleep (500 * 2 ^ attempt) ;;;
            click_loop selector max_retries rest
      end
  end.

Definition click_element (selector : string) (max_retries : Z) : P bool :=
  click_loop selector max_retries (seq 0 (Z.to_nat max_retries)).

Definition type_text (selector text : string) : P bool :=
  ptry (plog DEBUG ("Typing text into element '" ++ selector ++ "': '"
                      ++ preview text ++ "'") ;;;
        pcall (fun t => wait_for_selector page t selector) (PgWaitForSelector selector) ;;;
        pcall (fun t => fill page t selector text) (PgFill selector text) ;;;
        plog INFO ("Successfully typed text into element: " ++ selector) ;;;
        pret true)
       (fun e =>
          plog ERROR ("Failed to type text into element '" ++ selector ++ "': "
                        ++ Py.exn_str e) ;;;
          praise (type_failure selector e)).

Definition scroll_page (direction : string) (amount : Z)
           (element_selector : option string) (smooth : bool) : P bool :=
  ptry (plog DEBUG ("Scrolling " ++ direction ++ " by " ++ PyStr.of_Z amount ++ " pixels"
                      ++ (if selector_given element_selector
                          then " on element " ++ selector_str element_selector
                          else EmptyString)) ;;;
        (if negb (Tools.mem (PyStr.lower direction) valid_directions) then
           praise (ValueError ("Invalid direction '" ++ direction
                                 ++ "'. Must be one of: ['up', 'down', 'left', 'right']"))
         else pret tt) ;;;
        (if selector_given element_selector then
           pcall (fun t => wait_for_selector page t (selector_str element_selector))
                 (PgWaitForSelector (selector_str element_selector))
         else pret tt) ;;;
        let script := scroll_js direction amount element_selector smooth in
        result <~ pcall (fun t => evaluate page t script) (PgEvaluate script) ;;
        (if result
         then plog INFO ("Successfully scrolled " ++ direction ++ " by "
                           ++ PyStr.of_Z amount ++ " pixels")
         else plog WARNING ("Scroll operation returned false for direction '"
                              ++ direction ++ "'")) ;;;
        pret result)
       (fun e =>
          plog ERROR ("Failed to scroll " ++ direction ++ ": " ++ Py.exn_str e) ;;;
          praise (scroll_failure element_selector e)).
End OnPage.

(** *** health_check

    The health check works on the browser as the workflow does, through
    [create_browser_context], [navigate_to_url] and [close_browser_context].
    The clock of the event loop and the rounded difference of two of its
    readings are left open. *)

Record HealthStatus (Clock : Type) : Type := mkHealthStatus {
  h_service : string;
  h_status : string;
  h_timestamp : option Clock;
  h_checks : list (string * string);
  h_response_time : option Clock;
  h_error : option string
}.
Arguments mkHealthStatus {Clock}.
Arguments h_service {Clock}.
Arguments h_status {Clock}.
Arguments h_timestamp {Clock}.
Arguments h_checks {Clock}.
Arguments h_response_time {Clock}.
Arguments h_error {Clock}.

(** The test at the end of [health_check]: every check that does not start
    with [fail] is [pass]. *)
Definition all_checks_pass (checks : list (string * string)) : bool :=
  forallb (fun status => status =? "pass")
          (filter (fun status => negb (String.prefix "fail" status)) (map snd checks)).

Section Health.
Variable env : Env.
Variable Clock : Type.
Variable loop_time : World -> Clock.
Variable rounded_span : Clock -> Clock -> Clock.

(** The [try] of [health_check]: the checks made and the response time, or
    the checks made so far with the exception. *)
Definition health_probe (w : World)
  : (list (string * string) * (Clock + Exn)) * World :=
  let w := (w ++ [EvLog DEBUG "Performing browser manager health check"])%list in
  let start_time := loop_time w in
  match call (create_browser_context_env env) EvCreate w with
  | (Raise e, w) => (([], inr e), w)
  | (Ok context, w) =>
      let checks := [("browser_creation", "pass")] in
      let '(checks, w) :=
        match call (fun w => navigate_to_url_env env w context "about:blank")
                   (EvNavigate context "about:blank") w with
        | (Ok _, w) => ((checks ++ [("navigation", "pass")])%list, w)
        | (Raise e, w) =>
            let failure := "fail: " ++ Py.exn_str e in
            ((checks ++ [("navigation", failure)])%list, w)
        end in
      match call (fun w => close_browser_context_env env w context) (EvClose context) w
      with
      | (Raise e, w) => ((checks, inr e), w)
      | (Ok _, w) =>
          let checks := (checks ++ [("browser_cleanup", "pass")])%list in
          let end_time := loop_time w in
          ((checks, inl (rounded_span end_time start_time)), w)
      end
  end.

Definition health_check (w : World) : HealthStatus Clock * World :=
  let '((checks, outcome), w) := health_probe w in
  let '(status, response_time, error, w) :=
    match outcome with
    | inl span => ("healthy", Some span, None, w)
    | inr e =>
        ("unhealthy", None, Some (Py.exn_str e),
         (w ++ [EvLog ERROR ("Health check failed: " ++ Py.exn_str e)])%list)
    end in
  let status := if negb (all_checks_pass checks) then "degraded" else status in
  (mkHealthStatus "BrowserFreak Browser Manager" status (Some (loop_time w)) checks
                  response_time error,
   w).
End Health.

End BrowserManager.

(** ** cli.py: the commands [run] and [health] *)

Module Cli.

Section Commands.
Variable env : Env.

(** [run]: the exit code, with the settings as the command leaves them. *)
Definition run (task : string) (real_browser : bool) (max_iterations : option Z)
           (cfg : Server.AgentConfig) (w : World)
  : (nat * Server.AgentConfig) * World :=
  let cfg :=
    match max_iterations with
    | Some n =>
        if (n =? 0)%Z then cfg
        else Server.mkAgentConfig n (Server.cfg_use_real_browser cfg)
                                  (Server.cfg_enable_security_checks cfg)
    | None => cfg
    end in
  let cfg :=
    if real_browser
    then Server.mkAgentConfig (Server.cfg_max_iterations cfg) true
                              (Server.cfg_enable_security_checks cfg)
    else cfg in
  let w := (w ++ [EvLog INFO ("Starting BrowserFreak with task: " ++ task);
                  EvLog INFO ("Configuration: real_browser="
                                ++ Py.str_bool (Server.cfg_use_real_browser cfg)
                                ++ ", max_iterations="
                                ++ PyStr.of_Z (Server.cfg_max_iterations cfg))])%list in
  match BrowserAgent.run_agent_workflow env (Server.core_settings cfg) task
          (Server.cfg_max_iterations cfg) (Server.cfg_use_real_browser cfg) w with
  | (Ok result, w) =>
      if BrowserAgent.r_task_complete result
      then ((0, cfg), (w ++ [EvLog INFO "Task completed successfully!"])%list)
      else ((1, cfg), (w ++ [EvLog WARNING "Task did not complete successfully"])%list)
  | (Raise e, w) =>
      ((1, cfg), (w ++ [EvLog ERROR ("Task execution failed: " ++ Py.exn_str e)])%list)
  end.

Variable Clock : Type.
Variable loop_time : World -> Clock.
Variable rounded_span : Clock -> Clock -> Clock.

(** [health]: the exit code; what the command prints is left out. *)
Definition health (w : World) : nat * World :=
  let w := (w ++ [EvLog INFO "Running health check..."])%list in
  let '(health_status, w) :=
    BrowserManager.health_check env Clock loop_time rounded_span w in
  if BrowserManager.h_status health_status =? "healthy" then (0, w) else (1, w).
End Commands.

End Cli.

(** ** Further vocabulary: the server at work *)

Module Service.
Import Server.

(** The defaults of [AgentConfig] (config.py) *)
Definition default_agent_config : AgentConfig := mkAgentConfig 5 false true.

(** The status a record ends with once its job has run *)
Definition final_status (budget : Z) : string :=
  if ((budget <? 1) || (budget >? 20))%Z then "failed" else "completed".

(** An id generator and a clock for the examples: the number of events so
    far *)
Definition sample_id (w : World) : string := "task-" ++ PyStr.of_nat (List.length w).
Definition sample_clock (w : World) (n : nat) : Time := (List.length w + n)%nat.

(** A store for the examples *)
Definition sample_store : Store :=
  [ ("a", mkTask "a" "running" 0 None "one" [] None None);
    ("b", mkTask "b" "failed" 1 None "two" [] None None);
    ("c", mkTask "c" "running" 2 None "three" [] None None) ].

(** The record of a task that was just created *)
Definition fresh_record (task_id : string) (t0 t1 : Time) (description : string) : Task :=
  mkTask task_id "running" t0 None description
         [mkLogEntry t1 "info" ("Task created: " ++ PyStr.take 100 description ++ "...")]
         None None.

(** A page of the listing, by position *)
Definition page_of {A} (l : list A) (offset limit : Z) : list A :=
  firstn (Z.to_nat limit) (skipn (Z.to_nat offset) l).

(** The tasks [list_tasks] selects before it cuts the page *)
Definition selected (status_filter : option string) (task_store : Store) : list Task :=
  match status_filter with
  | Some wanted =>
      if PyStr.truthy wanted
      then filter (fun t => status t =? wanted) (store_values task_store)
      else store_values task_store
  | None => store_values task_store
  end.

End Service.

(** ** Further vocabulary: the conversation *)

Module Conversation.

(** A message of the agent or of a tool *)
Definition is_reply (m : Message) : bool :=
  (role m =? "assistant") || (role m =? "tool").

(** The conversation [l'] is [l] with replies appended. *)
Definition grows (l l' : list Message) : Prop :=
  exists d, l' = (l ++ d)%list /\ forallb is_reply d = true.

(** A tool call that the executor knows and that succeeds without a
    browser *)
Definition runs_in_mock (env : Env) (tc : ToolCall) : Prop :=
  Tools.mem (tc_name tc) Tools.known_tools = true
  /\ forall w, exists r,
       fst (Tools.execute_tool env (tc_name tc) (tc_args tc) None w) = Ok r
       /\ Tools.result_truthy r = true.

Definition runnable (env : Env) (d : Decision) : Prop :=
  match d with
  | Content _ => True
  | ToolCalls l => exists tc, l = [tc] /\ runs_in_mock env tc
  end.

(** A decision that, if it is a navigation, names a known website *)
Definition to_known_site (d : Decision) : Prop :=
  forall x, d = DecisionEngine.navigate_to_website_call x -> Terms.is_site x = true.

(** The wrapper a tool name stands for, with the parameters it requires
    and those it has a default for; [get_page_state] is called without the
    arguments. *)
Definition signature (tool_name : string)
  : option (string * list string * list string) :=
  if tool_name =? "click_element" then Some ("click_element_wrapper", ["selector"], [])
  else if tool_name =? "type_text"
       then Some ("type_text_wrapper", ["selector"; "text"], [])
  else if tool_name =? "get_page_state" then None
  else if tool_name =? "scroll_page"
       then Some ("scroll_page_wrapper", [],
                  ["direction"; "amount"; "element_selector"; "smooth"])
  else if tool_name =? "navigate_to_website"
       then Some ("navigate_to_website_wrapper", ["website_name"], [])
  else None.

(** The arguments of a call do not fit the wrapper of the tool. *)
Definition misfit (tool_name : string) (tool_args : Dict) : Prop :=
  exists fname required optional e,
    signature tool_name = Some (fname, required, optional)
    /\ Tools.bind_kwargs fname required optional tool_args = Raise e.

End Conversation.

(** ** tools.py: the tools as they are advertised *)

Module ToolSchemas.

(** An entry of ["properties"] *)
Record Property : Type := mkProperty {
  prop_name : string;
  prop_type : string;
  prop_description : string;
  prop_enum : option (list string);
  prop_default : option PyVal
}.

(** An entry of the list [get_browser_tools] returns *)
Record ToolSchema : Type := mkToolSchema {
  schema_name : string;
  schema_description : string;
  schema_properties : list Property;
  schema_required : list string
}.

Definition get_browser_tools : list ToolSchema :=
  [ mkToolSchema "click_element"
      "Click on an element using CSS selector. Use this when you need to interact with buttons, links, or other clickable elements on a webpage."
      [ mkProperty "selector" "string" "CSS selector for the element to click"
                   None None ]
      ["selector"];
    mkToolSchema "type_text"
      "Type text into an input field using CSS selector. Use this when you need to fill out forms or input text into text fields."
      [ mkProperty "selector" "string" "CSS selector for the input element" None None;
        mkProperty "text" "string" "Text to type into the element" None None ]
      ["selector"; "text"];
    mkToolSchema "get_page_state"
      "Get current page state and DOM representation. Use this to analyze the current webpage structure and content before deciding on actions."
      []
      [];
    mkToolSchema "scroll_page"
      "Scroll the page or a specific element in the specified direction. Use this when you need to access content that's not currently visible on the page."
      [ mkProperty "direction" "string"
                   "Direction to scroll: 'up', 'down', 'left', or 'right'"
                   (Some ["up"; "down"; "left"; "right"]) None;
        mkProperty "amount" "number" "Number of pixels to scroll (positive number)"
                   None (Some (VInt 500));
        mkProperty "element_selector" "string"
                   "Optional CSS selector for a specific element to scroll. If not provided, scrolls the main page."
                   None None;
        mkProperty "smooth" "boolean" "Whether to use smooth scrolling animation"
                   None (Some (VBool false)) ]
      ["direction"];
    mkToolSchema "navigate_to_website"
      "Navigate to a website using its name. The AI will use its knowledge to determine the correct URL. Use this when the user mentions a website by name like 'amazon', 'google', etc."
      [ mkProperty "website_name" "string"
                   "Name of the website to navigate to (e.g., 'amazon', 'google', 'youtube')"
                   None None ]
      ["website_name"] ].

(** The arguments follow the schema: every key is a property, every
    required property is there. *)
Definition conforms (schema : ToolSchema) (tool_args : Dict) : Prop :=
  (forall k v, In (k, v) tool_args -> In k (map prop_name (schema_properties schema)))
  /\ (forall r, In r (schema_required schema) -> Py.has_key tool_args r = true).

End ToolSchemas.

(** ** anthropic_client.py: the conversation as the backend gets it *)

Module Langchain.

(** The messages of LangChain the client builds *)
Inductive LcMessage : Type :=
| HumanMessage (content : string)
| AIMessage (content : string) (additional_tool_calls : option (list ToolCall))
| ToolMessage (content : string) (tool_call_id : string).

Definition lc_role (m : LcMessage) : string :=
  match m with
  | HumanMessage _ => "user"
  | AIMessage _ _ => "assistant"
  | ToolMessage _ _ => "tool"
  end.

(** The body of the loop of [_convert_messages_to_langchain]: what one
    message adds to the list. *)
Definition convert_message (msg : Message) : list LcMessage :=
  let content := match content msg with Some c => c | None => EmptyString end in
  if role msg =? "user" then [HumanMessage content]
  else if role msg =? "assistant" then
    match tool_calls msg with
    | Some l => [AIMessage EmptyString (Some l)]
    | None => [AIMessage content None]
    end
  else if role msg =? "tool" then
    [ToolMessage content (match tool_call_id msg with Some i => i | None => "1" end)]
  else [].

Definition _convert_messages_to_langchain (messages : list Message) : list LcMessage :=
  flat_map convert_message messages.

(** A role the conversion knows *)
Definition known_role (msg : Message) : bool :=
  (role msg =? "user") || (role msg =? "assistant") || (role msg =? "tool").

End Langchain.

(** ** Further vocabulary: pages and commands *)

Module PageTerms.
Import BrowserManager.

(** The attempts a trail holds: each starts with a wait for the
    selector. *)
Definition is_attempt (ev : PageEvent) : bool :=
  match ev with PgWaitForSelector _ _ => true | _ => false end.
Definition attempts_made (t : Trail) : nat := List.length (filter is_attempt t).

(** The pauses of a trail, in milliseconds *)
Fixpoint paused (t : Trail) : nat :=
  match t with
  | [] => 0
  | PgSleep ms :: t' => ms + paused t'
  | _ :: t' => paused t'
  end.

(** One of the three exceptions the module raises for a failed
    operation *)
Definition is_browser_error (e : Exn) : bool :=
  Tools.mem (exn_type e) ["BrowserTimeoutError"; "ElementNotFoundError"; "BrowserError"].

(** Every script the trail evaluates is one of [scripts]. *)
Definition evaluates_only (scripts : list string) (t : Trail) : Prop :=
  Forall (fun ev => match ev with
                    | PgEvaluate script _ => In script scripts
                    | _ => True
                    end) t.

(** No call on the page, only log records and pauses *)
Definition is_page_log (ev : PageEvent) : bool :=
  match ev with PgLog _ _ | PgSleep _ => true | _ => false end.

(** A page on which nothing is ever found *)
Definition dead_page : Page :=
  mkPage (fun _ _ => Raise (mkExn "TimeoutError" "Timeout 5000ms exceeded."))
         (fun _ _ => Ok tt)
         (fun _ _ => Ok tt)
         (fun _ _ _ => Ok tt)
         (fun _ _ => Ok true).

(** The budget the command [run] runs with *)
Definition cli_budget (max_iterations : option Z) (cfg : Server.AgentConfig) : Z :=
  match max_iterations with
  | Some n => if (n =? 0)%Z then Server.cfg_max_iterations cfg else n
  | None => Server.cfg_max_iterations cfg
  end.

(** The clock of the examples *)
Definition sample_loop_time (w : World) : nat := List.length w.
Definition sample_span (finish start : nat) : nat := finish - start.

End PageTerms.

(** ** Further vocabulary: the matcher *)

Module Matching.
Import Re.

Definition succeeds {R} (o : option R) : bool :=
  match o with Some _ => true | None => false end.

(** From the start of [s], over characters of the class [cc], there is a
    place where [f] holds. *)
Fixpoint reach (cc : cclass) (f : string -> bool) (s : string) : bool :=
  match s with
  | String c s' => if cc_match cc c then reach cc f s' || f s else f s
  | EmptyString => f s
  end.

(** The group [n] occurs in the expression. *)
Fixpoint mentions (n : nat) (r : regex) : bool :=
  match r with
  | Seq r1 r2 | Alt r1 r2 => mentions n r1 || mentions n r2
  | Group m r1 => (n =? m)%nat || mentions n r1
  | _ => false
  end.

(** The end of the pattern of the text extraction, after its second
    group: [[QUOTES]?.*(into|in)] *)
Definition text_tail : regex :=
  seqs [ Opt DecisionEngine.quotes; DotStar; Group 3 (words ["into"; "in"]) ].

Definition ends_in (s : string) : bool :=
  Terms.ci_prefix "into" s || Terms.ci_prefix "in" s.

(** No capture is longer than [n] characters. *)
Definition within (n : nat) (caps : captures) : Prop :=
  Forall (fun p => (String.length (snd p) <= n)%nat) caps.

(** Whatever the continuation [k] answers at a place at most [n] characters
    before the end, with captures within [n], satisfies [Q]. *)
Definition answers {R} (n : nat) (Q : R -> Prop) (k : cont R) : Prop :=
  forall p s caps x,
    (String.length s <= n)%nat -> within n caps -> k p s caps = Some x -> Q x.

(** A match whose text and captures are within [n] *)
Definition match_within (n : nat) (m : mobj) : Prop :=
  (String.length (whole m) <= n)%nat /\ within n (groups m).

End Matching.

(** ** Further vocabulary: AI backends *)

Module Backends.

(** An environment whose AI backend is configured and fails every call. *)
Definition failing_backend_env : Env :=
  mkEnv (fun w => Ok (List.length w))
        (fun _ _ _ => Ok tt)
        (fun _ _ => Ok tt)
        (fun _ _ _ => Ok true)
        (fun _ _ _ _ => Ok true)
        (fun _ _ _ _ _ _ => Ok true)
        (fun _ _ => Ok Tools.placeholder_page)
        true
        (fun _ _ _ => Raise (mkExn "APITimeoutError" "Request timed out.")).

(** The backend cannot decide on [messages]: there is none, or every call
    of it on them raises. *)
Definition backend_down (env : Env) (messages : list Message) (page_context : string)
  : Prop :=
  ai_available env = false
  \/ forall w, exists e, ai_invoke env w messages page_context = Raise e.

End Backends.

(** * Properties *)

(** ** Strings *)

Module PyStrFacts.
Import PyStr.

Lemma prefix_map_chars (f : ascii -> ascii) (a b : string) :
  String.prefix a b = true ->
  String.prefix (map_chars f a) (map_chars f b) = true.
Proof.
  revert b; induction a as [|c a IH]; intros [|d b]; simpl; try easy.
  destruct (ascii_dec c d) as [->|Hne]; [|easy].
  intros H. destruct (ascii_dec (f d) (f d)) as [_|Hn]; [auto | now elim Hn].
Qed.

Lemma contains_map_chars (f : ascii -> ascii) (sub s : string) :
  contains sub s = true -> contains (map_chars f sub) (map_chars f s) = true.
Proof.
  induction s as [|c s IH]; simpl; intros H.
  - apply orb_true_iff in H as [H|H]; [|easy].
    apply orb_true_iff; left. now apply (prefix_map_chars f sub EmptyString).
  - apply orb_true_iff in H as [H|H]; apply orb_true_iff.
    + left. now apply (prefix_map_chars f sub (String c s)).
    + right. auto.
Qed.

(** A substring survives [lower], lowered. *)
Lemma contains_lower (sub s : string) :
  contains sub s = true -> contains (lower sub) (lower s) = true.
Proof. apply contains_map_chars. Qed.

Lemma truthy_false (s : string) : truthy s = false -> s = EmptyString.
Proof.
  unfold truthy. destruct s; simpl; [reflexivity | discriminate].
Qed.

Lemma truthy_true (s : string) : s <> EmptyString -> truthy s = true.
Proof.
  unfold truthy. destruct s; simpl; [intros H; now elim H | reflexivity].
Qed.

Lemma strip_empty : strip EmptyString = EmptyString.
Proof. reflexivity. Qed.

Lemma rstrip_cons (c : ascii) (s : string) :
  rstrip (String c s)
  = match rstrip s with
    | EmptyString => if is_space c then EmptyString else String c EmptyString
    | String d t =>
        if is_wide (String c (String d t)) then EmptyString
        else String c (String d t)
    end.
Proof. reflexivity. Qed.

Lemma rstrip_idem (s : string) : rstrip (rstrip s) = rstrip s.
Proof.
  induction s as [|c s IH]; [reflexivity|]. rewrite rstrip_cons.
  destruct (rstrip s) as [|d t] eqn:Hr.
  - destruct (is_space c) eqn:Hc; [reflexivity|].
    rewrite rstrip_cons. cbn [rstrip]. now rewrite Hc.
  - destruct (is_wide (String c (String d t))) eqn:Hw; [reflexivity|].
    rewrite rstrip_cons, IH. now rewrite Hw.
Qed.

(** What [rstrip] leaves is the start of the text. *)
Lemma rstrip_prefix (s : string) : exists u, s = rstrip s ++ u.
Proof.
  induction s as [|c s [u IH]]; [now exists EmptyString|]. rewrite rstrip_cons.
  destruct (rstrip s) as [|d t] eqn:Hr.
  - destruct (is_space c); [now exists (String c s)|].
    exists s. reflexivity.
  - destruct (is_wide (String c (String d t))); [now exists (String c s)|].
    exists u. change (String c (String d t) ++ u) with (String c (String d t ++ u)).
    now rewrite <- IH.
Qed.

(** A text that starts with white space still does when it goes on. *)
Lemma starts_blank_app (p u : string) :
  starts_blank p = true -> starts_blank (p ++ u) = true.
Proof.
  destruct p as [|a [|b [|c p]]]; cbn [starts_blank append]; try discriminate.
  - rewrite !orb_false_r. intros ->. reflexivity.
  - rewrite !orb_false_r. intros H. apply orb_true_iff in H as [->| ->];
      [reflexivity | now rewrite !orb_true_r].
  - auto.
Qed.

Lemma lstrip_fix (s : string) : starts_blank s = false -> lstrip s = s.
Proof.
  destruct s as [|a [|b [|c s]]]; cbn [starts_blank lstrip]; auto.
  - rewrite !orb_false_r. now intros ->.
  - rewrite !orb_false_r. intros H. apply orb_false_iff in H as [-> ->].
    reflexivity.
  - intros H. apply orb_false_iff in H as [-> H].
    apply orb_false_iff in H as [-> ->]. reflexivity.
Qed.

Lemma lstrip_clear_upto (n : nat) :
  forall s : string, (String.length s <= n)%nat -> starts_blank (lstrip s) = false.
Proof.
  induction n as [|n IH]; intros s Hlen.
  - destruct s; [reflexivity | simpl in Hlen; lia].
  - destruct s as [|a s1]; [reflexivity|]. cbn [String.length] in Hlen.
    cbn [lstrip]. destruct (is_space a) eqn:Ha; [apply IH; lia|].
    destruct s1 as [|b s2]; [cbn [starts_blank]; now rewrite Ha|].
    cbn [String.length] in Hlen.
    destruct (wide2 a b) eqn:Hab; [apply IH; lia|].
    destruct s2 as [|c s3]; [cbn [starts_blank]; now rewrite Ha, Hab|].
    cbn [String.length] in Hlen.
    destruct (wide3 a b c) eqn:Habc; [apply IH; lia|].
    cbn [starts_blank]. now rewrite Ha, Hab, Habc.
Qed.

Lemma lstrip_clear (s : string) : starts_blank (lstrip s) = false.
Proof. now apply (lstrip_clear_upto (String.length s)). Qed.

Lemma rstrip_clear (s : string) :
  starts_blank s = false -> starts_blank (rstrip s) = false.
Proof.
  intros H. destruct (rstrip_prefix s) as [u Hu].
  destruct (starts_blank (rstrip s)) eqn:Hb; [|reflexivity].
  apply (starts_blank_app _ u) in Hb. rewrite <- Hu in Hb. congruence.
Qed.

(** [strip] is idempotent. *)
Lemma strip_idem (s : string) : strip (strip s) = strip s.
Proof.
  unfold strip.
  rewrite (lstrip_fix (rstrip (lstrip s))); [apply rstrip_idem|].
  apply rstrip_clear, lstrip_clear.
Qed.

Lemma length_lstrip (s : string) : (String.length (lstrip s) <= String.length s)%nat.
Proof.
  assert (H : forall n s, (String.length s <= n)%nat ->
                          (String.length (lstrip s) <= String.length s)%nat).
  { clear s. induction n as [|n IH]; intros s Hlen.
    - destruct s; [simpl; lia | simpl in Hlen; lia].
    - destruct s as [|a s1]; [simpl; lia|]. cbn [String.length] in Hlen.
      cbn [lstrip]. destruct (is_space a).
      { specialize (IH s1 ltac:(lia)). cbn [String.length]. lia. }
      destruct s1 as [|b s2]; [lia|]. cbn [String.length] in Hlen.
      destruct (wide2 a b).
      { specialize (IH s2 ltac:(lia)). cbn [String.length]. lia. }
      destruct s2 as [|c s3]; [lia|]. cbn [String.length] in Hlen.
      destruct (wide3 a b c); [|lia].
      specialize (IH s3 ltac:(lia)). cbn [String.length]. lia. }
  now apply (H (String.length s)).
Qed.

Lemma length_rstrip (s : string) : (String.length (rstrip s) <= String.length s)%nat.
Proof.
  induction s as [|c s IH]; [simpl; lia|]. rewrite rstrip_cons.
  destruct (rstrip s) as [|d t].
  - destruct (is_space c); cbn [String.length]; lia.
  - destruct (is_wide (String c (String d t))); cbn [String.length] in *; lia.
Qed.

Lemma length_strip (s : string) : (String.length (strip s) <= String.length s)%nat.
Proof.
  unfold strip. eapply Nat.le_trans; [apply length_rstrip | apply length_lstrip].
Qed.

End PyStrFacts.

(** ** The security gate *)

Module SecurityFacts.
Import Security Terms.

Lemma any_in_intro (kws : list string) (k s : string) :
  In k kws -> PyStr.contains k s = true -> any_in kws s = true.
Proof.
  intros Hin Hc. unfold any_in. apply existsb_exists. now exists k.
Qed.

(** A description that holds one of the three words is destructive once
    the checks are on. *)
Lemma destructive_of_keyword (settings : Settings) (d : string) :
  enable_security_checks settings = true ->
  PyStr.contains "pay" d || PyStr.contains "checkout" d || PyStr.contains "purchase" d
    = true ->
  is_destructive_action settings d = true.
Proof.
  intros Hon H. unfold is_destructive_action. rewrite Hon. simpl negb. cbv iota.
  apply orb_true_iff in H as [H|H]; [apply orb_true_iff in H as [H|H]|].
  - apply (any_in_intro _ "pay"); [simpl; tauto|].
    now apply (PyStrFacts.contains_lower "pay").
  - apply (any_in_intro _ "checkout"); [simpl; tauto|].
    now apply (PyStrFacts.contains_lower "checkout").
  - apply (any_in_intro _ "purchase"); [simpl; tauto|].
    now apply (PyStrFacts.contains_lower "purchase").
Qed.

Lemma lower_of_ok (tool_args : Dict) (k : string) :
  match Py.get tool_args k with Some (VStr _) | None => true | Some _ => false end = true ->
  exists s, lower_of (Py.get_default tool_args k (VStr EmptyString)) = Ok s.
Proof.
  unfold Py.get_default. destruct (Py.get tool_args k) as [[s| | |]|]; try discriminate;
    intros _; simpl; eauto.
Qed.

(** C4, the counterexample: a click whose selector is a number and whose
    rendered description holds the word pay is not answered with true; the
    gate raises [AttributeError] on [selector.lower()]. *)
Lemma approval_raises_on_numeric_selector :
  PyStr.contains "pay"
    (action_description "click_element" [("selector", VInt 5); ("note", VStr "pay")]) = true
  /\ should_require_approval (mkSettings true) "click_element"
       [("selector", VInt 5); ("note", VStr "pay")]
     = Raise (Py.AttributeError (VInt 5) "lower")
  /\ should_require_approval (mkSettings true) "click_element"
       [("selector", VInt 5); ("note", VStr "pay")] <> Ok true.
Proof.
  split; [reflexivity|]. split; [reflexivity|]. discriminate.
Qed.

(** C4, amended: with the checks enabled, every tool call whose rendered
    description (the tool name, a blank and the stringified arguments)
    contains pay, checkout or purchase requires approval, provided the
    selector of a click and the text of a typing are strings when present;
    with the checks disabled no tool call whatsoever requires approval. *)
Theorem approval_by_description (settings : Settings) (tool_name : string)
        (tool_args : Dict) :
  (enable_security_checks settings = true ->
   lowered_arg_is_str tool_name tool_args = true ->
   PyStr.contains "pay" (action_description tool_name tool_args)
   || PyStr.contains "checkout" (action_description tool_name tool_args)
   || PyStr.contains "purchase" (action_description tool_name tool_args) = true ->
   should_require_approval settings tool_name tool_args = Ok true)
  /\ (enable_security_checks settings = false ->
      should_require_approval settings tool_name tool_args = Ok false).
Proof.
  split.
  - intros Hon Hty Hkw. unfold should_require_approval. rewrite Hon. simpl negb. cbv iota.
    pose proof (destructive_of_keyword settings _ Hon Hkw) as Hd.
    unfold lowered_arg_is_str in Hty.
    destruct (tool_name =? "click_element").
    + destruct (lower_of_ok _ _ Hty) as [s ->].
      destruct (any_in _ s); [reflexivity | now rewrite Hd].
    + destruct (tool_name =? "type_text").
      * destruct (lower_of_ok _ _ Hty) as [s ->].
        destruct (any_in _ s); [reflexivity | now rewrite Hd].
      * now rewrite Hd.
  - intros Hoff. unfold should_require_approval. now rewrite Hoff.
Qed.

Lemma approval_by_description_witness :
  should_require_approval (mkSettings true) "scroll_page"
    [("direction", VStr "down"); ("element_selector", VStr "#checkout")] = Ok true
  /\ should_require_approval (mkSettings false) "click_element"
       [("selector", VStr "button.pay-now")] = Ok false.
Proof.
  split.
  - apply (proj1 (approval_by_description (mkSettings true) "scroll_page"
                    [("direction", VStr "down"); ("element_selector", VStr "#checkout")]));
      reflexivity.
  - apply (proj2 (approval_by_description (mkSettings false) "click_element"
                    [("selector", VStr "button.pay-now")])); reflexivity.
Defined.

End SecurityFacts.

(** ** The monad *)

Module MonadFacts.
Import Terms.

Lemma independent_ret {A} (a : A) : history_independent (ret a).
Proof. intros w1 w2; reflexivity. Qed.

Lemma independent_raise {A} (e : Exn) : history_independent (@raise A e).
Proof. intros w1 w2; reflexivity. Qed.

Lemma independent_lift {A} (r : Res A) : history_independent (lift r).
Proof. intros w1 w2; reflexivity. Qed.

Lemma independent_log (lvl : Level) (msg : string) : history_independent (log lvl msg).
Proof. intros w1 w2; reflexivity. Qed.

Lemma independent_bind {A B} (c : M A) (f : A -> M B) :
  history_independent c ->
  (forall a, history_independent (f a)) ->
  history_independent (bind c f).
Proof.
  intros Hc Hf w1 w2. unfold bind.
  specialize (Hc w1 w2).
  destruct (c w1) as [r1 w1'], (c w2) as [r2 w2']; simpl in Hc; subst r2.
  destruct r1 as [a|e]; [apply Hf | reflexivity].
Qed.

(** A log line never fails and only appends itself. *)
Lemma log_run (lvl : Level) (msg : string) (w : World) :
  log lvl msg w = (Ok tt, (w ++ [EvLog lvl msg])%list).
Proof. reflexivity. Qed.

Lemma bind_ok {A B} (c : M A) (f : A -> M B) (w w' : World) (a : A) :
  c w = (Ok a, w') -> bind c f w = f a w'.
Proof. intros H. unfold bind. now rewrite H. Qed.

Lemma bind_raise {A B} (c : M A) (f : A -> M B) (w w' : World) (e : Exn) :
  c w = (Raise e, w') -> bind c f w = (Raise e, w').
Proof. intros H. unfold bind. now rewrite H. Qed.

End MonadFacts.

Create HintDb independent.
#[export] Hint Resolve MonadFacts.independent_ret MonadFacts.independent_raise
  MonadFacts.independent_lift MonadFacts.independent_log : independent.

(** ** The rule-based decision provider *)

Module DecisionFacts.
Import DecisionEngine Terms MonadFacts.

Ltac independent_step :=
  match goal with
  | |- history_independent (bind _ _) => apply independent_bind; [|intros ?]
  | |- history_independent (if ?b then _ else _) => destruct b
  | |- history_independent (match ?x with _ => _ end) => destruct x
  | |- history_independent _ => solve [auto with independent]
  end.

Lemma after_rules_independent (patterns : Patterns) (last : string) (f i b : bool) :
  history_independent (after_rules patterns last f i b).
Proof. unfold after_rules. repeat independent_step. Qed.

Lemma pattern_rules_independent (patterns : Patterns) (last content : string)
      (f i b : bool) :
  history_independent (pattern_rules patterns last content f i b).
Proof.
  pose proof (after_rules_independent patterns last f i b) as Hafter.
  unfold pattern_rules.
  repeat first [ exact Hafter | independent_step ].
Qed.

(** C6: the rule-based fallback is a function of the conversation and the
    page snapshot alone: two runs on the same message list and the same
    snapshot return the same decision (or raise the same error), whatever
    happened before either of them. *)
Theorem fallback_decision_deterministic (patterns : Patterns)
        (messages : list Message) (page_context : string) (w1 w2 : World) :
  fst (_make_fallback_decision patterns messages page_context w1)
  = fst (_make_fallback_decision patterns messages page_context w2).
Proof.
  revert w1 w2. change (history_independent
                          (_make_fallback_decision patterns messages page_context)).
  pose proof pattern_rules_independent as Hrules.
  unfold _make_fallback_decision.
  repeat first [ apply Hrules | independent_step ].
Qed.

End DecisionFacts.

Module RuleFacts.
Import DecisionEngine Terms MonadFacts.

Section Rules.
Variable patterns : Patterns.
Variables (last content : string) (f i b : bool).

Lemma rule_finish (w : World) :
  Re.matches (p_finish_task patterns) content = true ->
  fst (pattern_rules patterns last content f i b w) = Ok (Content "FINISH").
Proof. intros H. unfold pattern_rules. now rewrite H. Qed.

Lemma rule_payment (w : World) :
  Re.matches (p_finish_task patterns) content = false ->
  Re.matches (p_submit_click patterns) content = false ->
  Re.matches (p_payment_action patterns) content = true ->
  fst (pattern_rules patterns last content f i b w) = Ok payment_click.
Proof. intros H1 H2 H3. unfold pattern_rules. now rewrite H1, H2, H3. Qed.

Lemma rule_submit_before_payment (w : World) :
  Re.matches (p_finish_task patterns) content = false ->
  Re.matches (p_submit_click patterns) content = true ->
  fst (pattern_rules patterns last content f i b w)
  = Ok (tool_call_decision "click_element"
          [("selector", VStr (if f then "button[type='submit']" else "button"))]).
Proof. intros H1 H2. unfold pattern_rules. rewrite H1, H2. now destruct f. Qed.
End Rules.

(** Without a site in the first message of the user, the decision is the
    one of the chain of rules on the last message. *)
Lemma fallback_by_rules (patterns : Patterns) (messages : list Message)
      (page_context : string) (m : Message) (last : string)
      (original : option string) (w : World) :
  last_message messages = Ok m ->
  content m = Some last ->
  original_user_message messages = Ok original ->
  original_mention patterns original = None ->
  exists w',
    fst (_make_fallback_decision patterns messages page_context w)
    = fst (pattern_rules patterns last (PyStr.lower (PyStr.strip last))
             (page_has "form" page_context) (page_has "input" page_context)
             (page_has "button" page_context) w').
Proof.
  intros Hm Hc Ho Hn. unfold _make_fallback_decision, bind, lift.
  rewrite Hm. unfold content_of. rewrite Hc, Ho. rewrite log_run.
  eexists. unfold original_mention in Hn.
  destruct original as [o|]; [|reflexivity].
  destruct (PyStr.truthy o); [|reflexivity].
  now rewrite Hn.
Qed.

(** With a site in the first message of the user, the decision is to
    navigate there, whatever the last message says. *)
Lemma fallback_website_first (patterns : Patterns) (messages : list Message)
      (page_context : string) (m : Message) (last : string)
      (original : option string) (website_match : Re.mobj) (w : World) :
  last_message messages = Ok m ->
  content m = Some last ->
  original_user_message messages = Ok original ->
  original_mention patterns original = Some website_match ->
  fst (_make_fallback_decision patterns messages page_context w)
  = Ok (navigate_to_website_call (Re.group website_match 0)).
Proof.
  intros Hm Hc Ho Hn. unfold _make_fallback_decision, bind, lift.
  rewrite Hm. unfold content_of. rewrite Hc, Ho. rewrite log_run.
  unfold original_mention in Hn.
  destruct original as [o|]; [|discriminate].
  destruct (PyStr.truthy o); [|discriminate].
  now rewrite Hn.
Qed.

(** A task that no rule recognises gets the default answer, a text. *)
Lemma fallback_default (patterns : Patterns) (messages : list Message)
      (page_context : string) (m : Message) (last : string)
      (original : option string) (w : World) :
  last_message messages = Ok m ->
  content m = Some last ->
  original_user_message messages = Ok original ->
  original_mention patterns original = None ->
  rule_matches patterns last = false ->
  fst (_make_fallback_decision patterns messages page_context w)
  = Ok (Content (default_response (page_has "form" page_context)
                                  (page_has "input" page_context)
                                  (page_has "button" page_context))).
Proof.
  intros Hm Hc Ho Hn Hr.
  destruct (fallback_by_rules patterns messages page_context m last original w
              Hm Hc Ho Hn) as [w' ->].
  unfold rule_matches in Hr.
  repeat (apply orb_false_iff in Hr; destruct Hr as [Hr ?]).
  unfold pattern_rules.
  repeat match goal with H : Re.matches _ _ = false |- _ => rewrite H; clear H end.
  simpl orb. cbv iota. unfold after_rules.
  match goal with H : Re.matches _ _ = false |- _ => rename H into Hw end.
  unfold Re.matches in Hw.
  destruct (Re.search (p_website_mention patterns) (PyStr.strip last)); [discriminate|].
  reflexivity.
Qed.

End RuleFacts.

Module DecisionClaims.
Import DecisionEngine Terms RuleFacts.

Lemma single_message_facts (c : string) :
  last_message [user_message c] = Ok (user_message c)
  /\ content (user_message c) = Some c
  /\ original_user_message [user_message c] = Ok (Some (PyStr.strip c)).
Proof. repeat split. Qed.

(** C2, the counterexample: on "pay now to complete purchase" the fallback
    does not return the click on the payment selectors; the completion rule,
    tried first, recognises the word complete and the answer is the terminal
    FINISH. *)
Lemma pay_now_to_complete_purchase_finishes :
  fst (_make_fallback_decision decision_engine
         [user_message "pay now to complete purchase"] Tools.placeholder_page [])
  = Ok (Content "FINISH")
  /\ fst (_make_fallback_decision decision_engine
            [user_message "pay now to complete purchase"] Tools.placeholder_page [])
     <> Ok payment_click.
Proof.
  assert (H : fst (_make_fallback_decision decision_engine
                     [user_message "pay now to complete purchase"]
                     Tools.placeholder_page [])
              = Ok (Content "FINISH")) by (vm_compute; reflexivity).
  split; [exact H | rewrite H; discriminate].
Qed.

(** C2, amended: for the input "pay now to complete purchase" the fallback
    matches the completion rule, which is tried before the submit-click and
    the payment rule and recognises the word complete, and returns the
    terminal content FINISH, whatever the page; the click_element call
    against the fixed payment-like selectors is what payment wording without
    a completion word gets, as "pay now" does. *)
Theorem completion_rule_precedes_payment (page_context : string) (w : World) :
  fst (_make_fallback_decision decision_engine
         [user_message "pay now to complete purchase"] page_context w)
  = Ok (Content "FINISH")
  /\ fst (_make_fallback_decision decision_engine
            [user_message "pay now"] page_context w)
     = Ok payment_click.
Proof.
  split.
  - destruct (single_message_facts "pay now to complete purchase") as (Hm & Hc & Ho).
    destruct (fallback_by_rules decision_engine _ page_context _ _ _ w Hm Hc Ho)
      as [w' ->]; [vm_compute; reflexivity|].
    apply rule_finish. vm_compute; reflexivity.
  - destruct (single_message_facts "pay now") as (Hm & Hc & Ho).
    destruct (fallback_by_rules decision_engine _ page_context _ _ _ w Hm Hc Ho)
      as [w' ->]; [vm_compute; reflexivity|].
    apply rule_payment; vm_compute; reflexivity.
Qed.


End DecisionClaims.

(** ** The matcher on a list of literal words *)

Module ReFacts.
Import Re Terms.

Lemma run_lit (R : Type) (n : string) :
  forall prev s caps (k : cont R),
    run R (lit n) prev s caps k
    = if ci_prefix n s
      then k (last_char prev (PyStr.take (String.length n) s))
             (drop (String.length n) s) caps
      else None.
Proof.
  induction n as [|a n IH]; intros prev s caps k; [reflexivity|].
  destruct n as [|a2 n2].
  - destruct s as [|d s']; [reflexivity|]. simpl.
    rewrite andb_true_r.
    destruct (Ascii.eqb (PyStr.lower_char d) (PyStr.lower_char a)); [|reflexivity].
    now destruct s'.
  - destruct s as [|d s']; [reflexivity|].
    change (run R (lit (String a (String a2 n2))) prev (String d s') caps k)
      with (if cc_match (CLit a) d
            then run R (lit (String a2 n2)) (Some d) s' caps k else None).
    rewrite IH.
    change (cc_match (CLit a) d)
      with (Ascii.eqb (PyStr.lower_char d) (PyStr.lower_char a)).
    change (ci_prefix (String a (String a2 n2)) (String d s'))
      with (Ascii.eqb (PyStr.lower_char d) (PyStr.lower_char a)
            && ci_prefix (String a2 n2) s').
    destruct (Ascii.eqb (PyStr.lower_char d) (PyStr.lower_char a)); reflexivity.
Qed.

Lemma run_words (R : Type) (l : list string) prev s caps (k : cont R) :
  l <> [] -> run R (words l) prev s caps k = first_word R l prev s caps k.
Proof.
  induction l as [|n l IH]; [easy|]. intros _.
  destruct l as [|n2 l2].
  - simpl. unfold words; simpl. now destruct (run R (lit n) prev s caps k).
  - change (run R (words (n :: n2 :: l2)) prev s caps k)
      with (orelse R (run R (lit n) prev s caps k)
                   (fun _ => run R (words (n2 :: l2)) prev s caps k)).
    rewrite IH by easy. reflexivity.
Qed.

Lemma length_take_drop (n : nat) (s : string) :
  String.length s = (String.length (PyStr.take n s) + String.length (drop n s))%nat.
Proof.
  revert s; induction n as [|n IH]; intros [|c s]; simpl; auto.
Qed.

Lemma take_drop (n : nat) (s : string) : s = PyStr.take n s ++ drop n s.
Proof.
  revert s; induction n as [|n IH]; intros [|c s]; simpl; auto.
  now rewrite <- IH.
Qed.

Lemma ci_prefix_length (n s : string) :
  ci_prefix n s = true -> String.length (PyStr.take (String.length n) s) = String.length n.
Proof.
  revert s; induction n as [|a n IH]; intros [|d s]; simpl; try easy.
  intros H. apply andb_true_iff in H as [_ H]. now rewrite IH.
Qed.

Lemma take_length_app (x post : string) : PyStr.take (String.length x) (x ++ post) = x.
Proof. induction x as [|c x IH]; simpl; [now destruct post | now rewrite IH]. Qed.

Lemma drop_length_app (x post : string) : drop (String.length x) (x ++ post) = post.
Proof. induction x as [|c x IH]; simpl; [now destruct post | assumption]. Qed.

Lemma length_append (a b : string) :
  String.length (a ++ b) = (String.length a + String.length b)%nat.
Proof. induction a as [|c a IH]; simpl; auto. Qed.

Lemma consumed_app (x post : string) : consumed (x ++ post) post = x.
Proof.
  unfold consumed. rewrite length_append.
  replace (String.length x + String.length post - String.length post)%nat
    with (String.length x) by lia.
  apply take_length_app.
Qed.

Lemma consumed_drop (n s : string) :
  ci_prefix n s = true ->
  consumed s (drop (String.length n) s) = PyStr.take (String.length n) s.
Proof.
  intros H. rewrite (take_drop (String.length n) s) at 1.
  apply consumed_app.
Qed.

End ReFacts.

(** ** The pattern of the website names *)

Module SiteFacts.
Import Re Terms ReFacts DecisionEngine.

Lemma first_word_site (l : list string) (prev : option ascii) (s : string) :
  first_word mobj l prev s []
    (fun p1 s1 c1 =>
       if at_boundary p1 s1
       then Some (mkMatch (consumed s s1) ((1, consumed s s1) :: c1)) else None)
  = option_map site_match (first_site l prev s).
Proof.
  induction l as [|n l IH]; [reflexivity|].
  simpl first_word. rewrite run_lit. simpl first_site.
  destruct (ci_prefix n s) eqn:Hp; simpl andb; cbv iota.
  - rewrite (consumed_drop n s Hp).
    destruct (at_boundary _ _); simpl; [reflexivity | exact IH].
  - exact IH.
Qed.

Lemma match_here_site (prev : option ascii) (s : string) :
  match_here website_mention prev s = option_map site_match (site_at prev s).
Proof.
  unfold match_here, site_at.
  change (run mobj website_mention prev s []
              (fun _ s' caps => Some (mkMatch (consumed s s') caps)))
    with (if at_boundary prev s
          then run mobj (words website_names) prev s []
                   (fun p1 s1 c1 =>
                      if at_boundary p1 s1
                      then Some (mkMatch (consumed s s1) ((1, consumed s s1) :: c1))
                      else None)
          else None).
  destruct (at_boundary prev s); [|reflexivity].
  rewrite run_words by discriminate.
  apply first_word_site.
Qed.

Lemma search_from_site (s : string) :
  forall prev, search_from website_mention prev s = option_map site_match (site_from prev s).
Proof.
  induction s as [|c s IH]; intros prev; simpl; rewrite match_here_site;
    destruct (site_at prev _); simpl; auto.
Qed.

Ltac by_cases_on_char d :=
  destruct d as [[] [] [] [] [] [] [] []]; vm_compute;
  try reflexivity; try discriminate; intros; try reflexivity; discriminate.

Lemma lower_char_fix (a : ascii) : PyStr.is_lower a = true -> PyStr.lower_char a = a.
Proof. by_cases_on_char a. Qed.

Lemma lower_char_idem (d : ascii) :
  PyStr.lower_char (PyStr.lower_char d) = PyStr.lower_char d.
Proof. by_cases_on_char d. Qed.

Lemma is_word_of_lower (d : ascii) :
  PyStr.is_lower (PyStr.lower_char d) = true -> PyStr.is_word d = true.
Proof. by_cases_on_char d. Qed.

Lemma mem_In (k : string) (l : list string) : Tools.mem k l = true <-> In k l.
Proof.
  unfold Tools.mem. rewrite existsb_exists. split.
  - intros (x & Hin & Heq). apply String.eqb_eq in Heq. now subst.
  - intros Hin. exists k. split; [assumption | apply String.eqb_refl].
Qed.

Lemma names_are_words :
  Forall (fun n => lower_letters n = true /\ n <> EmptyString) website_names.
Proof. repeat constructor; discriminate. Qed.

(** What a name made of lower-case letters matches is a run of word
    characters that lowers to the name. *)
Lemma ci_prefix_letters (n : string) :
  lower_letters n = true -> n <> EmptyString ->
  forall s, ci_prefix n s = true ->
    PyStr.lower (PyStr.take (String.length n) s) = n
    /\ is_word_opt (head s) = true
    /\ forall prev, is_word_opt (last_char prev (PyStr.take (String.length n) s)) = true.
Proof.
  induction n as [|a n IH]; [easy|]. intros Hl _ [|d s] Hp; [discriminate|].
  simpl in Hl, Hp. apply andb_true_iff in Hl as [Ha Hl], Hp as [Hd Hp].
  apply Ascii.eqb_eq in Hd. rewrite (lower_char_fix a Ha) in Hd.
  assert (Hw : PyStr.is_word d = true) by (apply is_word_of_lower; now rewrite Hd).
  destruct n as [|a2 n2].
  - repeat split; auto.
    destruct s; simpl; unfold PyStr.lower; simpl; now rewrite Hd.
  - destruct (IH Hl ltac:(discriminate) s Hp) as (H1 & H2 & H3).
    repeat split.
    + change (PyStr.lower (PyStr.take (String.length (String a (String a2 n2)))
                                       (String d s)))
        with (String (PyStr.lower_char d)
                     (PyStr.lower (PyStr.take (String.length (String a2 n2)) s))).
      now rewrite H1, Hd.
    + exact Hw.
    + intros prev.
      change (last_char prev (PyStr.take (String.length (String a (String a2 n2)))
                                         (String d s)))
        with (last_char (Some d) (PyStr.take (String.length (String a2 n2)) s)).
      apply H3.
Qed.

Lemma length_lower (x : string) : String.length (PyStr.lower x) = String.length x.
Proof. induction x as [|c x IH]; simpl; auto. Qed.

Lemma ci_prefix_lower (x post : string) : ci_prefix (PyStr.lower x) (x ++ post) = true.
Proof.
  induction x as [|c x IH]; [reflexivity|]. simpl.
  rewrite lower_char_idem, Ascii.eqb_refl. exact IH.
Qed.

Lemma xorb_true_r_false (b : bool) : xorb b true = true -> b = false.
Proof. now destruct b. Qed.

Lemma xorb_true_l_false (b : bool) : xorb true b = true -> b = false.
Proof. now destruct b. Qed.

(** A site found at the start of [s] is a known name standing there as a
    whole word. *)
Lemma first_site_sound (l : list string) (prev : option ascii) (s x : string) :
  Forall (fun n => lower_letters n = true /\ n <> EmptyString) l ->
  first_site l prev s = Some x ->
  exists post,
    s = x ++ post /\ In (PyStr.lower x) l
    /\ is_word_opt (head s) = true
    /\ is_word_opt (head post) = false.
Proof.
  induction 1 as [|n l [Hl Hne] _ IH]; [discriminate|]. simpl.
  destruct (ci_prefix n s) eqn:Hp; simpl andb; cbv iota.
  - destruct (at_boundary _ _) eqn:Hb.
    + intros [= <-]. exists (drop (String.length n) s).
      destruct (ci_prefix_letters n Hl Hne s Hp) as (H1 & H2 & H3).
      split; [apply take_drop|]. split; [left; now rewrite H1|]. split; [exact H2|].
      unfold at_boundary in Hb. rewrite H3 in Hb. now apply xorb_true_l_false.
    + intros H. destruct (IH H) as (post & ? & ? & ? & ?).
      exists post. repeat split; auto; now right.
  - intros H. destruct (IH H) as (post & ? & ? & ? & ?).
    exists post. repeat split; auto; now right.
Qed.

Lemma site_at_sound (prev : option ascii) (s x : string) :
  site_at prev s = Some x ->
  exists post,
    s = x ++ post /\ is_site x = true
    /\ is_word_opt prev = false /\ is_word_opt (head post) = false.
Proof.
  unfold site_at. destruct (at_boundary prev s) eqn:Hb; [|discriminate].
  intros H. destruct (first_site_sound _ _ _ _ names_are_words H)
    as (post & Hs & Hin & Hh & Hp).
  exists post. repeat split; auto.
  - now apply mem_In.
  - unfold at_boundary in Hb. rewrite Hh in Hb. now apply xorb_true_r_false.
Qed.

Lemma first_site_complete (l : list string) (prev : option ascii) (s n : string) :
  In n l ->
  ci_prefix n s = true ->
  at_boundary (last_char prev (PyStr.take (String.length n) s))
              (drop (String.length n) s) = true ->
  exists y, first_site l prev s = Some y.
Proof.
  intros Hin Hp Hb. induction l as [|m l IH]; [easy|]. simpl.
  destruct Hin as [->|Hin].
  - rewrite Hp, Hb. simpl. eauto.
  - destruct (ci_prefix m s && at_boundary _ _); eauto.
Qed.

(** A known name standing at the start of [s] as a whole word is found. *)
Lemma site_at_complete (prev : option ascii) (x post : string) :
  is_site x = true ->
  is_word_opt prev = false ->
  is_word_opt (head post) = false ->
  exists y, site_at prev (x ++ post) = Some y.
Proof.
  intros Hs Hprev Hpost. apply mem_In in Hs.
  pose proof names_are_words as Hall. rewrite Forall_forall in Hall.
  destruct (Hall _ Hs) as [Hl Hne].
  pose proof (ci_prefix_lower x post) as Hp.
  destruct (ci_prefix_letters _ Hl Hne _ Hp) as (_ & Hh & Hlast).
  unfold site_at, at_boundary. rewrite Hprev, Hh. simpl xorb. cbv iota.
  apply (first_site_complete _ _ _ _ Hs Hp).
  specialize (Hlast prev). unfold at_boundary. rewrite Hlast.
  rewrite length_lower, drop_length_app, Hpost. reflexivity.
Qed.

(** The search returns the leftmost whole-word site: if a known name stands
    as a whole word after [pre], one is found that starts no later. *)
Lemma site_from_leftmost (pre : string) :
  forall prev x post,
    is_site x = true ->
    is_word_opt (last_char prev pre) = false ->
    is_word_opt (head post) = false ->
    exists pre' y post',
      site_from prev (pre ++ x ++ post) = Some y
      /\ pre ++ x ++ post = pre' ++ y ++ post'
      /\ is_site y = true
      /\ is_word_opt (last_char prev pre') = false
      /\ is_word_opt (head post') = false
      /\ (String.length pre' <= String.length pre)%nat.
Proof.
  induction pre as [|c pre IH]; intros prev x post Hs Hprev Hpost.
  - simpl in Hprev.
    change (EmptyString ++ x ++ post) with (x ++ post).
    destruct (site_at_complete prev x post Hs Hprev Hpost) as [y Hy].
    destruct (site_at_sound _ _ _ Hy) as (post' & He & Hsy & Hp1 & Hp2).
    exists EmptyString, y, post'. repeat split; auto.
    destruct (x ++ post); simpl; now rewrite Hy.
  - change ((String c pre) ++ x ++ post) with (String c (pre ++ x ++ post)).
    simpl site_from.
    destruct (site_at prev (String c (pre ++ x ++ post))) as [y|] eqn:Hy.
    + destruct (site_at_sound _ _ _ Hy) as (post' & He & Hsy & Hp1 & Hp2).
      exists EmptyString, y, post'. repeat split; auto. simpl; lia.
    + destruct (IH (Some c) x post Hs Hprev Hpost)
        as (pre' & y & post' & H1 & H2 & H3 & H4 & H5 & H6).
      exists (String c pre'), y, post'. repeat split; auto.
      * simpl. now rewrite H2.
      * simpl; lia.
Qed.

End SiteFacts.

Module WebsiteClaims.
Import DecisionEngine Terms RuleFacts SiteFacts.

Lemma validated_last (messages : list Message) :
  _validate_messages messages = Ok tt ->
  exists m last, last_message messages = Ok m /\ content m = Some last.
Proof.
  unfold _validate_messages, last_message.
  destruct (rev messages) as [|m ?]; [discriminate|].
  destruct (content m) as [c|] eqn:Hc; [|discriminate]. eauto.
Qed.

Lemma site_not_empty (name pre post : string) :
  is_site name = true -> PyStr.truthy (pre ++ name ++ post) = true.
Proof.
  intros Hs. apply PyStrFacts.truthy_true.
  destruct name as [|c name]; [discriminate Hs|].
  destruct pre; discriminate.
Qed.

Lemma search_original (pre name post : string) :
  is_site name = true ->
  Re.is_word_opt (last_char None pre) = false ->
  Re.is_word_opt (Re.head post) = false ->
  exists pre' name' post',
    original_mention decision_engine (Some (pre ++ name ++ post))
    = Some (site_match name')
    /\ whole_word (pre ++ name ++ post) pre' name' post'
    /\ is_site name' = true
    /\ (String.length pre' <= String.length pre)%nat.
Proof.
  intros Hs Hpre Hpost.
  destruct (site_from_leftmost pre None name post Hs Hpre Hpost)
    as (pre' & y & post' & H1 & H2 & H3 & H4 & H5 & H6).
  exists pre', y, post'. unfold original_mention.
  rewrite (site_not_empty name pre post Hs).
  change (Re.search (p_website_mention decision_engine) (pre ++ name ++ post))
    with (Re.search_from website_mention None (pre ++ name ++ post)).
  rewrite search_from_site, H1. repeat split; auto.
Qed.



End WebsiteClaims.

(** ** The tool executor *)

Module ToolFacts.
Import Tools Terms.

Lemma unknown_tool (tool_name : string) :
  ~ In tool_name known_tools ->
  (tool_name =? "click_element") = false
  /\ (tool_name =? "type_text") = false
  /\ (tool_name =? "get_page_state") = false
  /\ (tool_name =? "scroll_page") = false
  /\ (tool_name =? "navigate_to_website") = false.
Proof.
  intros Hn. repeat split; apply String.eqb_neq; intros ->; apply Hn; simpl; tauto.
Qed.

Ltac unfold_monad :=
  unfold try_except, bind, lift, call, log, sleep, emit, ret, raise in *.

(** The events a call appends, read off the history it leaves *)
Ltac read_events H :=
  repeat rewrite <- app_assoc in H; apply app_inv_head in H; subst; simpl in *.

Ltac tool_case :=
  match goal with
  | |- context [bind_kwargs ?f ?r ?o ?a] => destruct (bind_kwargs f r o a) as [[]|?]
  | |- context [Security.preview_of ?v] => destruct (Security.preview_of v)
  | |- context [Security.lower_of ?v] => destruct (Security.lower_of v)
  | |- context [click_element_env ?e ?w ?c ?s] => destruct (click_element_env e w c s)
  | |- context [type_text_env ?e ?w ?c ?s ?t] => destruct (type_text_env e w c s t)
  | |- context [scroll_page_env ?e ?w ?c ?a ?b ?d ?f] =>
      destruct (scroll_page_env e w c a b d f)
  | |- context [navigate_to_url_env ?e ?w ?c ?u] => destruct (navigate_to_url_env e w c u)
  | |- context [get_interactive_elements_env ?e ?w ?c] =>
      destruct (get_interactive_elements_env e w c)
  end.

(** [execute_tool] returns on every input. *)
Lemma execute_tool_returns (env : Env) (tool_name : string) (tool_args : Dict)
      (context : option BrowserContext) (w : World) :
  exists v w', execute_tool env tool_name tool_args context w = (Ok v, w').
Proof.
  unfold execute_tool, click_element_wrapper, type_text_wrapper, get_page_state_wrapper,
    scroll_page_wrapper, navigate_to_website_wrapper.
  unfold_monad.
  destruct (tool_name =? "click_element");
    [|destruct (tool_name =? "type_text");
      [|destruct (tool_name =? "get_page_state");
        [|destruct (tool_name =? "scroll_page");
          [|destruct (tool_name =? "navigate_to_website")]]]].
  all: destruct context; repeat tool_case; eauto.
Qed.

(** C8, the counterexample: when the browser fails under get_page_state, the
    exception is caught but the tool does not return a failure: it returns
    the placeholder page, a result that counts as success. *)
Lemma page_state_failure_is_not_reported :
  let failing :=
    mkEnv (fun _ => Ok 0) (fun _ _ _ => Ok tt) (fun _ _ => Ok tt)
          (fun _ _ _ => Ok true) (fun _ _ _ _ => Ok true)
          (fun _ _ _ _ _ _ => Ok true)
          (fun _ _ => Raise (mkExn "BrowserError" "Page analysis failed: closed"))
          false
          (fun _ _ _ => Raise (mkExn "AnthropicAPIError" "unavailable")) in
  let run := execute_tool failing "get_page_state" [] (Some 0) [] in
  existsb env_raised (snd run) = true
  /\ fst run = Ok (RStr placeholder_page)
  /\ fst run <> Ok (RBool false)
  /\ result_truthy (RStr placeholder_page) = true.
Proof.
  cbv zeta. repeat split; try reflexivity. discriminate.
Qed.

(** C8, amended: [execute_tool] never raises; for every tool name outside
    the five known tools and every argument mapping it returns False; and
    whenever a browser operation raises during the call, the exception is
    caught and the call returns False, except under get_page_state, where it
    returns the placeholder page instead of a failure. *)
Theorem execute_tool_contains_failures (env : Env) (tool_name : string)
        (tool_args : Dict) (context : option BrowserContext) (w : World) :
  (exists v, fst (execute_tool env tool_name tool_args context w) = Ok v)
  /\ (~ In tool_name known_tools ->
      fst (execute_tool env tool_name tool_args context w) = Ok (RBool false))
  /\ (forall d,
         snd (execute_tool env tool_name tool_args context w) = (w ++ d)%list ->
         existsb env_raised d = true ->
         fst (execute_tool env tool_name tool_args context w)
         = Ok (if tool_name =? "get_page_state" then RStr placeholder_page
               else RBool false)).
Proof.
  split; [|split].
  - destruct (execute_tool_returns env tool_name tool_args context w) as (v & w' & ->).
    now exists v.
  - intros Hn. destruct (unknown_tool tool_name Hn) as (H1 & H2 & H3 & H4 & H5).
    unfold execute_tool. rewrite H1, H2, H3, H4, H5. reflexivity.
  - intros d.
    unfold execute_tool, click_element_wrapper, type_text_wrapper, get_page_state_wrapper,
      scroll_page_wrapper, navigate_to_website_wrapper.
    unfold_monad.
    destruct (tool_name =? "click_element") eqn:E1;
      [|destruct (tool_name =? "type_text") eqn:E2;
        [|destruct (tool_name =? "get_page_state") eqn:E3;
          [|destruct (tool_name =? "scroll_page") eqn:E4;
            [|destruct (tool_name =? "navigate_to_website") eqn:E5]]]].
    all: repeat match goal with
                | E : (_ =? _) = true |- _ => apply String.eqb_eq in E; subst
                end.
    all: destruct context; repeat tool_case; simpl;
      intros Hd Hr; read_events Hd; first [reflexivity | discriminate Hr].
Qed.

Lemma execute_tool_contains_failures_witness :
  let failing :=
    mkEnv (fun _ => Ok 0) (fun _ _ _ => Ok tt) (fun _ _ => Ok tt)
          (fun _ _ _ => Raise (mkExn "ElementNotFoundError" "Element 'button' not found"))
          (fun _ _ _ _ => Ok true)
          (fun _ _ _ _ _ _ => Ok true)
          (fun _ _ => Ok placeholder_page)
          false
          (fun _ _ _ => Raise (mkExn "AnthropicAPIError" "unavailable")) in
  fst (execute_tool failing "open_tab" [] None []) = Ok (RBool false)
  /\ fst (execute_tool failing "click_element" [("selector", VStr "button")] (Some 0) [])
     = Ok (RBool false).
Proof.
  cbv zeta. split.
  - apply (proj1 (proj2 (execute_tool_contains_failures _ "open_tab" [] None []))).
    simpl. intuition discriminate.
  - apply (proj2 (proj2 (execute_tool_contains_failures _ "click_element"
                           [("selector", VStr "button")] (Some 0) []))
             [ EvLog DEBUG "Executing tool: click_element with args: {'selector': 'button'}";
               EvClick 0 (VStr "button")
                       (Raise (mkExn "ElementNotFoundError" "Element 'button' not found"));
               EvLog ERROR
                     "Failed to click element 'button': Element 'button' not found" ]);
      reflexivity.
Defined.

End ToolFacts.

(** ** Computations that leave the graph alone *)

Module EffectFacts.
Import Terms.

Lemma node_trace_app (a b : World) :
  node_trace (a ++ b)%list = (node_trace a ++ node_trace b)%list.
Proof.
  induction a as [|e a IH]; [reflexivity|].
  destruct e; simpl; rewrite ?IH; reflexivity.
Qed.

Lemma returns_behaves {A} (P : A -> Prop) (c : M A) : returns P c -> behaves P c.
Proof.
  intros H w. destruct (H w) as (a & d & Hc & Hn & Hp).
  exists d. rewrite Hc. simpl. repeat split; auto. now intros ? [= <-].
Qed.

Lemma behaves_weaken {A} (P Q : A -> Prop) (c : M A) :
  (forall a, P a -> Q a) -> behaves P c -> behaves Q c.
Proof.
  intros HPQ H w. destruct (H w) as (d & Hs & Hn & Hp). exists d. auto.
Qed.

Lemma returns_weaken {A} (P Q : A -> Prop) (c : M A) :
  (forall a, P a -> Q a) -> returns P c -> returns Q c.
Proof.
  intros HPQ H w. destruct (H w) as (a & d & Hc & Hn & Hp). exists a, d. auto.
Qed.

Lemma behaves_ret {A} (P : A -> Prop) (a : A) : P a -> behaves P (ret a).
Proof.
  intros Hp w. exists []. simpl. rewrite app_nil_r. repeat split. now intros ? [= <-].
Qed.

Lemma returns_ret {A} (P : A -> Prop) (a : A) : P a -> returns P (ret a).
Proof. intros Hp w. exists a, []. simpl. now rewrite app_nil_r. Qed.

Lemma behaves_raise {A} (P : A -> Prop) (e : Exn) : behaves P (raise e).
Proof. intros w. exists []. simpl. rewrite app_nil_r. repeat split. discriminate. Qed.

Lemma behaves_lift {A} (P : A -> Prop) (r : Res A) :
  (forall a, r = Ok a -> P a) -> behaves P (lift r).
Proof. intros Hp w. exists []. simpl. rewrite app_nil_r. repeat split. exact Hp. Qed.

Lemma returns_lift {A} (P : A -> Prop) (a : A) : P a -> returns P (lift (Ok a)).
Proof. intros Hp w. exists a, []. simpl. now rewrite app_nil_r. Qed.

Lemma returns_log (lvl : Level) (msg : string) : returns anything (log lvl msg).
Proof. intros w. exists tt, [EvLog lvl msg]. repeat split. Qed.

Lemma behaves_log (lvl : Level) (msg : string) : behaves anything (log lvl msg).
Proof. apply returns_behaves, returns_log. Qed.

Lemma returns_sleep (ms : nat) : returns anything (sleep ms).
Proof. intros w. exists tt, [EvSleep ms]. repeat split. Qed.

Lemma behaves_call {A} (ask : World -> Res A) (ev : Res A -> Event) :
  (forall r, node_trace [ev r] = []) -> behaves anything (call ask ev).
Proof.
  intros Hev w. exists [ev (ask w)]. repeat split. apply Hev.
Qed.

Lemma behaves_bind {A B} (Q : A -> Prop) (P : B -> Prop) (c : M A) (f : A -> M B) :
  behaves Q c -> (forall a, Q a -> behaves P (f a)) -> behaves P (bind c f).
Proof.
  intros Hc Hf w. destruct (Hc w) as (d1 & Hs & Hn & Hq).
  unfold bind. destruct (c w) as [[a|e] w1]; simpl in *; subst w1.
  - destruct (Hf a (Hq a eq_refl) (w ++ d1)%list) as (d2 & Hs2 & Hn2 & Hp).
    exists (d1 ++ d2)%list. rewrite Hs2, app_assoc, node_trace_app, Hn, Hn2. auto.
  - exists d1. repeat split; auto. discriminate.
Qed.

Lemma returns_bind {A B} (Q : A -> Prop) (P : B -> Prop) (c : M A) (f : A -> M B) :
  returns Q c -> (forall a, Q a -> returns P (f a)) -> returns P (bind c f).
Proof.
  intros Hc Hf w. destruct (Hc w) as (a & d1 & Hs & Hn & Hq).
  unfold bind. rewrite Hs.
  destruct (Hf a Hq (w ++ d1)%list) as (b & d2 & Hs2 & Hn2 & Hp).
  exists b, (d1 ++ d2)%list. rewrite Hs2, app_assoc, node_trace_app, Hn, Hn2. auto.
Qed.

Lemma behaves_try_except {A} (P : A -> Prop) (c : M A) (h : Exn -> M A) :
  behaves P c -> (forall e, behaves P (h e)) -> behaves P (try_except c h).
Proof.
  intros Hc Hh w. destruct (Hc w) as (d1 & Hs & Hn & Hp).
  unfold try_except. destruct (c w) as [[a|e] w1]; simpl in *; subst w1.
  - exists d1. auto.
  - destruct (Hh e (w ++ d1)%list) as (d2 & Hs2 & Hn2 & Hp2).
    exists (d1 ++ d2)%list. rewrite Hs2, app_assoc, node_trace_app, Hn, Hn2. auto.
Qed.

Lemma returns_try_except {A} (P : A -> Prop) (c : M A) (h : Exn -> M A) :
  behaves P c -> (forall e, returns P (h e)) -> returns P (try_except c h).
Proof.
  intros Hc Hh w. destruct (Hc w) as (d1 & Hs & Hn & Hp).
  unfold try_except. destruct (c w) as [[a|e] w1]; simpl in *; subst w1.
  - exists a, d1. auto.
  - destruct (Hh e (w ++ d1)%list) as (b & d2 & Hs2 & Hn2 & Hp2).
    exists b, (d1 ++ d2)%list. rewrite Hs2, app_assoc, node_trace_app, Hn, Hn2. auto.
Qed.

(** Steps common to the proofs that a computation only logs and calls the
    collaborators. *)
Ltac quiet_step :=
  match goal with
  | |- behaves anything (bind _ _) =>
      eapply (behaves_bind anything); [|intros ? _]
  | |- behaves anything (try_except _ _) => apply behaves_try_except; [|intros ?]
  | |- behaves anything (log _ _) => apply behaves_log
  | |- behaves anything (sleep _) => apply returns_behaves, returns_sleep
  | |- behaves anything (ret _) => now apply behaves_ret
  | |- behaves anything (raise _) => apply behaves_raise
  | |- behaves anything (lift _) => now apply behaves_lift
  | |- behaves anything (call _ _) => apply behaves_call; intros ?; reflexivity
  | |- behaves anything (if ?b then _ else _) => destruct b
  | |- behaves anything (match ?x with _ => _ end) => destruct x
  end.

End EffectFacts.

(** ** The nodes of the workflow *)

Module NodeFacts.
Import Terms EffectFacts BrowserAgent.

Lemma returns_bind_lift {A B} (P : B -> Prop) (a : A) (f : A -> M B) :
  returns P (f a) -> returns P (bind (lift (Ok a)) f).
Proof. intros H w. exact (H w). Qed.

Lemma returns_bind_ret {A B} (P : B -> Prop) (a : A) (f : A -> M B) :
  returns P (f a) -> returns P (bind (ret a) f).
Proof. intros H w. exact (H w). Qed.

Lemma returns_bind_log {B} (P : B -> Prop) (lvl : Level) (msg : string) (c : M B) :
  returns P c -> returns P (bind (log lvl msg) (fun _ => c)).
Proof. intros H. eapply returns_bind; [apply returns_log | intros _ _; exact H]. Qed.

Lemma returns_of_total {A} (P : A -> Prop) (c : M A) :
  behaves P c -> (forall w, exists a w', c w = (Ok a, w')) -> returns P c.
Proof.
  intros Hb Ht w. destruct (Hb w) as (d & Hs & Hn & Hp), (Ht w) as (a & w' & Hc).
  rewrite Hc in *. simpl in *. subst w'. exists a, d. auto.
Qed.

Section Nodes.
Variable env : Env.
Variable settings : Settings.

Lemma get_page_state_returns (context : option BrowserContext) :
  returns anything (Tools.get_page_state_wrapper env context).
Proof.
  destruct context as [ctx|]; simpl; [|now apply returns_ret].
  apply returns_try_except; [quiet_step|].
  intros e. apply returns_bind_log. now apply returns_ret.
Qed.

Lemma execute_tool_quiet (tool_name : string) (tool_args : Dict)
      (context : option BrowserContext) :
  returns anything (Tools.execute_tool env tool_name tool_args context).
Proof.
  apply returns_of_total; [|apply ToolFacts.execute_tool_returns].
  unfold Tools.execute_tool, Tools.click_element_wrapper, Tools.type_text_wrapper,
    Tools.get_page_state_wrapper, Tools.scroll_page_wrapper,
    Tools.navigate_to_website_wrapper.
  repeat quiet_step.
Qed.

Lemma fallback_quiet (patterns : DecisionEngine.Patterns) (messages : list Message)
      (page_context : string) :
  behaves anything (DecisionEngine._make_fallback_decision patterns messages page_context).
Proof.
  unfold DecisionEngine._make_fallback_decision, DecisionEngine.pattern_rules,
    DecisionEngine.after_rules.
  repeat quiet_step.
Qed.

Lemma make_decision_quiet (patterns : DecisionEngine.Patterns)
      (messages : list Message) (page_context : string) :
  behaves anything (DecisionEngine.make_decision patterns env messages page_context).
Proof.
  pose proof (fallback_quiet patterns messages page_context) as Hf.
  unfold DecisionEngine.make_decision, AnthropicClient.make_decision.
  repeat first [ exact Hf | quiet_step ].
Qed.

(** [security_check_node] returns, and it leaves no pending action. *)
Lemma security_check_node_returns (st : AgentState) (context : option BrowserContext) :
  returns (fun st' => browser_action st' = EmptyString
                      /\ messages st' = messages st
                      /\ task_complete st' = task_complete st)
          (security_check_node env st context).
Proof.
  unfold security_check_node. apply returns_bind_log.
  eapply (returns_bind anything).
  { destruct context; [apply get_page_state_returns | now apply returns_ret]. }
  intros page _.
  eapply (returns_bind (fun st' => browser_action st' = EmptyString
                                   /\ messages st' = messages st
                                   /\ task_complete st' = task_complete st)).
  - destruct (PyStr.truthy (browser_action (set_page_map st page))) eqn:Ht.
    + apply returns_bind_log. now apply returns_ret.
    + apply returns_ret. apply PyStrFacts.truthy_false in Ht. auto.
  - intros st' H. apply returns_bind_log. now apply returns_ret.
Qed.

Lemma human_approval_node_returns (st : AgentState) :
  returns (fun st' => st' = set_browser_action st EmptyString)
          (human_approval_node st).
Proof. unfold human_approval_node. apply returns_bind_log. now apply returns_ret. Qed.

Lemma agent_node_behaves (st : AgentState) :
  behaves (agent_shape st) (agent_node env settings st).
Proof.
  unfold agent_node.
  eapply (behaves_bind anything); [apply behaves_log | intros _ _].
  eapply (behaves_bind anything); [apply make_decision_quiet | intros result _].
  destruct result as [l|c].
  - eapply (behaves_bind anything); [now apply behaves_lift | intros tc _].
    eapply (behaves_bind anything); [now apply behaves_lift | intros flagged _].
    destruct flagged.
    + eapply (behaves_bind anything); [now apply behaves_lift | intros msg _].
      eapply (behaves_bind anything); [apply behaves_log | intros _ _].
      apply behaves_ret. left. now exists tc.
    + apply behaves_ret. left. now exists tc.
  - destruct (PyStr.contains "FINISH" (PyStr.upper c)); apply behaves_ret; right.
    + now exists "Task completed successfully".
    + now exists c.
Qed.

Lemma tool_wrapper_returns (st : AgentState) (m : Message) (tc : ToolCall) :
  DecisionEngine.last_message (messages st) = Ok m ->
  tool_calls m = Some [tc] ->
  returns (fun st' => task_complete st' = true) (tool_wrapper env st).
Proof.
  intros Hm Htc. unfold tool_wrapper, tool_node. apply returns_bind_log.
  rewrite Hm. apply returns_bind_lift. rewrite Htc.
  apply returns_bind_lift. apply returns_bind_log.
  eapply (returns_bind anything); [apply execute_tool_quiet | intros result _].
  apply returns_bind_ret.
  eapply (returns_bind anything).
  - destruct (Tools.result_truthy result); apply returns_log.
  - intros _ _. now apply returns_ret.
Qed.
End Nodes.

End NodeFacts.

(** ** What a match captures *)

Module CaptureFacts.
Import Re Matching DecisionEngine.

Lemma length_take (n : nat) (s : string) :
  (String.length (PyStr.take n s) <= String.length s)%nat.
Proof.
  revert s. induction n as [|n IH]; intros [|c s]; simpl; try lia.
  specialize (IH s). lia.
Qed.

Lemma length_consumed (s s' : string) :
  (String.length (consumed s s') <= String.length s)%nat.
Proof. apply length_take. Qed.

Section Engine.
Variable R : Type.
Variable n : nat.
Variable Q : R -> Prop.

Lemma star_greedy_within (cc : cclass) (k : cont R) :
  answers n Q k -> answers n Q (star_greedy R cc k).
Proof.
  intros Hk p s. revert p. induction s as [|c s IH]; intros p caps x Hlen Hcaps;
    cbn [star_greedy]; [now apply Hk|].
  cbn [String.length] in Hlen.
  destruct (cc_match cc c); [|now apply Hk].
  destruct (star_greedy R cc k (Some c) s caps) eqn:Hrec; cbn [orelse].
  - intros [= <-]. apply (IH (Some c) caps r); [lia | exact Hcaps | exact Hrec].
  - now apply Hk.
Qed.

Lemma star_lazy_within (cc : cclass) (k : cont R) :
  answers n Q k -> answers n Q (star_lazy R cc k).
Proof.
  intros Hk p s. revert p. induction s as [|c s IH]; intros p caps x Hlen Hcaps;
    cbn [star_lazy].
  - destruct (k p EmptyString caps) eqn:Hhere; cbn [orelse]; [|discriminate].
    intros [= <-]. now apply (Hk p EmptyString caps).
  - cbn [String.length] in Hlen.
    destruct (k p (String c s) caps) eqn:Hhere; cbn [orelse].
    + intros [= <-]. now apply (Hk p (String c s) caps).
    + destruct (cc_match cc c); [|discriminate].
      apply IH; [lia | exact Hcaps].
Qed.

(** The matcher only moves forward, and a group captures a piece of the
    text it is run on. *)
Lemma run_within (r : regex) :
  forall k : cont R,
    answers n Q k -> answers n Q (fun p s caps => run R r p s caps k).
Proof.
  induction r as [| cc | | r1 IH1 r2 IH2 | r1 IH1 r2 IH2 | cc | cc | cc | m r1 IH1];
    intros k Hk p s caps x Hlen Hcaps; cbn [run].
  - now apply Hk.
  - destruct s as [|c s']; [discriminate|]. cbn [String.length] in Hlen.
    destruct (cc_match cc c); [|discriminate].
    apply Hk; [lia | exact Hcaps].
  - destruct (at_boundary p s); [now apply Hk | discriminate].
  - now apply (IH1 (fun p1 s1 c1 => run R r2 p1 s1 c1 k) (IH2 k Hk)).
  - destruct (run R r1 p s caps k) eqn:H1; cbn [orelse].
    + intros [= <-]. now apply (IH1 k Hk p s caps).
    + now apply (IH2 k Hk p s caps).
  - now apply star_greedy_within.
  - now apply star_lazy_within.
  - destruct s as [|c s']; [now apply Hk|]. cbn [String.length] in Hlen.
    destruct (cc_match cc c); [|now apply Hk].
    destruct (k (Some c) s' caps) eqn:H1; cbn [orelse].
    + intros [= <-]. apply (Hk (Some c) s' caps); [lia | exact Hcaps | exact H1].
    + now apply Hk.
  - apply (IH1 (fun p1 s1 c1 => k p1 s1 ((m, consumed s s1) :: c1))); auto.
    intros p1 s1 c1 y Hlen1 Hcaps1. apply Hk; [exact Hlen1|].
    constructor; [|exact Hcaps1]. cbn [snd].
    eapply Nat.le_trans; [apply length_consumed | exact Hlen].
Qed.
End Engine.

Lemma match_here_within (r : regex) (n : nat) (prev : option ascii) (s : string)
      (m : mobj) :
  (String.length s <= n)%nat -> match_here r prev s = Some m -> match_within n m.
Proof.
  intros Hlen. unfold match_here.
  apply (run_within mobj n (match_within n) r
           (fun _ s' caps => Some (mkMatch (consumed s s') caps))); auto.
  - intros p s' caps x _ Hcaps [= <-]. split; [|exact Hcaps]. cbn [whole].
    eapply Nat.le_trans; [apply length_consumed | exact Hlen].
  - constructor.
Qed.

Lemma search_from_within (r : regex) (n : nat) (s : string) :
  forall prev m,
    (String.length s <= n)%nat -> search_from r prev s = Some m -> match_within n m.
Proof.
  induction s as [|c s IH]; intros prev m Hlen; cbn [search_from].
  - destruct (match_here r prev EmptyString) eqn:H; [|discriminate].
    intros [= <-]. now apply (match_here_within r n prev EmptyString).
  - destruct (match_here r prev (String c s)) eqn:H.
    + intros [= <-]. now apply (match_here_within r n prev (String c s)).
    + cbn [String.length] in Hlen. apply IH. lia.
Qed.

(** No group of a match is longer than the text searched. *)
Lemma group_length (r : regex) (s : string) (m : mobj) (g : nat) :
  search r s = Some m -> (String.length (group m g) <= String.length s)%nat.
Proof.
  intros H. apply (search_from_within r (String.length s)) in H; [|lia].
  destruct H as [Hwhole Hcaps]. destruct g as [|g]; [exact Hwhole|].
  cbn [group]. generalize (S g). intros i.
  induction Hcaps as [|[j x] caps Hx _ IH]; cbn [lookup]; [simpl; lia|].
  destruct (i =? j)%nat; [exact Hx | exact IH].
Qed.

(** The amount of a scroll is converted when the message is not longer
    than the longest run of digits [int] takes. *)
Lemma scroll_amount_converts (content : string) :
  (String.length content <= Py.int_max_str_digits)%nat ->
  exists amount, scroll_amount content = Ok amount.
Proof.
  intros Hlen. unfold scroll_amount.
  destruct (search amount_pattern content) as [m|] eqn:Hm; [|eauto].
  unfold Py.int.
  pose proof (group_length amount_pattern content m 1 Hm) as Hg.
  destruct (Py.int_max_str_digits <? String.length (group m 1))%nat eqn:Hlt; [|eauto].
  apply Nat.ltb_lt in Hlt. lia.
Qed.

Lemma scroll_amount_of_message (last : string) :
  (String.length last <= Py.int_max_str_digits)%nat ->
  exists amount, scroll_amount (PyStr.lower (PyStr.strip last)) = Ok amount.
Proof.
  intros Hlen. apply scroll_amount_converts.
  rewrite SiteFacts.length_lower.
  eapply Nat.le_trans; [apply PyStrFacts.length_strip | exact Hlen].
Qed.

End CaptureFacts.

(** ** The rule-based provider inside the agent node *)

Module ProviderFacts.
Import Terms EffectFacts NodeFacts BrowserAgent DecisionEngine.

Section Provider.
Variable settings : Settings.

Lemma good_click (selector : string) :
  good_call settings (mkToolCall "click_element" [("selector", VStr selector)]).
Proof.
  split.
  - unfold Security.should_require_approval. cbn [tc_name tc_args].
    destruct (negb _); [eauto|].
    change ("click_element" =? "click_element") with true. cbv iota.
    change (Py.get_default [("selector", VStr selector)] "selector" (VStr EmptyString))
      with (VStr selector).
    cbn [Security.lower_of]. destruct (Security.any_in _ _); eauto.
  - unfold Security.get_approval_message. cbn [tc_name tc_args].
    change ("click_element" =? "click_element") with true. cbv iota. eauto.
Qed.

Lemma good_type (selector text : string) :
  good_call settings
    (mkToolCall "type_text" [("selector", VStr selector); ("text", VStr text)]).
Proof.
  split.
  - unfold Security.should_require_approval. cbn [tc_name tc_args].
    destruct (negb _); [eauto|].
    change ("type_text" =? "click_element") with false.
    change ("type_text" =? "type_text") with true. cbv iota.
    change (Py.get_default [("selector", VStr selector); ("text", VStr text)]
                           "text" (VStr EmptyString))
      with (VStr text).
    cbn [Security.lower_of]. destruct (Security.any_in _ _); eauto.
  - unfold Security.get_approval_message. cbn [tc_name tc_args].
    change ("type_text" =? "click_element") with false.
    change ("type_text" =? "type_text") with true. cbv iota.
    change (Py.get_default [("selector", VStr selector); ("text", VStr text)]
                           "text" (VStr EmptyString))
      with (VStr text).
    cbn [Security.preview_of]. eauto.
Qed.

Lemma good_other (name : string) (args : Dict) :
  (name =? "click_element") = false ->
  (name =? "type_text") = false ->
  good_call settings (mkToolCall name args).
Proof.
  intros H1 H2. split.
  - unfold Security.should_require_approval. cbn [tc_name tc_args].
    rewrite H1, H2. destruct (negb _); eauto.
  - unfold Security.get_approval_message. cbn [tc_name tc_args].
    rewrite H1, H2. destruct (name =? "navigate_to_website"); eauto.
Qed.

Lemma good_single (tc : ToolCall) :
  good_call settings tc -> good_decision settings (ToolCalls [tc]).
Proof. intros H. now exists tc. Qed.

Ltac good_step :=
  match goal with
  | |- returns _ (bind (log _ _) _) => apply returns_bind_log
  | |- returns _ (ret (Content _)) => now apply returns_ret
  | |- returns _ (ret (navigate_to_website_call _)) =>
      apply returns_ret, good_single, good_other; reflexivity
  | |- returns _ (ret (tool_call_decision "click_element" _)) =>
      apply returns_ret, good_single, good_click
  | |- returns _ (ret (tool_call_decision "type_text" _)) =>
      apply returns_ret, good_single, good_type
  | |- returns _ (ret (tool_call_decision _ _)) =>
      apply returns_ret, good_single, good_other; reflexivity
  | |- returns _ (if ?b then _ else _) => destruct b
  | |- returns _ (match ?x with _ => _ end) => destruct x
  end.

(** On a conversation that ends in a text and whose first user message
    carries a text, the fallback returns, and the security gate accepts
    what it returns. *)
Lemma fallback_returns_good (patterns : Patterns) (messages : list Message)
      (page_context : string) (m : Message) (last : string) (o : option string) :
  last_message messages = Ok m ->
  content m = Some last ->
  (String.length last <= Py.int_max_str_digits)%nat ->
  original_user_message messages = Ok o ->
  returns (good_decision settings)
          (_make_fallback_decision patterns messages page_context).
Proof.
  intros Hm Hc Hlen Ho. unfold _make_fallback_decision.
  rewrite Hm. unfold content_of. rewrite Hc, Ho.
  apply returns_bind_lift, returns_bind_lift.
  destruct (CaptureFacts.scroll_amount_of_message last Hlen) as [amount Hamount].
  unfold pattern_rules, after_rules. rewrite Hamount.
  repeat first
    [ good_step
    | match goal with
      | |- returns _ (bind (lift (Ok _)) _) => apply returns_bind_lift
      end ].
Qed.

Variable env : Env.

Lemma last_text_of (messages : list Message) (m : Message) (last : string) :
  last_message messages = Ok m -> content m = Some last -> last_text messages = last.
Proof.
  unfold last_message, last_text. destruct (rev messages) as [|m' l]; [discriminate|].
  intros [= ->] ->. reflexivity.
Qed.

Lemma make_decision_rule_based (messages : list Message) (page_context : string) :
  ai_available env = false ->
  _validate_messages messages = Ok tt ->
  convertible (last_text messages) = true ->
  (exists o, original_user_message messages = Ok o) ->
  returns (good_decision settings)
          (make_decision decision_engine env messages page_context).
Proof.
  intros Hai Hv Hlen [o Ho].
  destruct (WebsiteClaims.validated_last messages Hv) as (m & last & Hm & Hc).
  rewrite (last_text_of messages m last Hm Hc) in Hlen.
  apply Nat.leb_le in Hlen.
  unfold make_decision. rewrite Hv. apply returns_bind_lift.
  unfold AnthropicClient.is_available. rewrite Hai.
  apply returns_bind_ret. apply returns_bind_log.
  exact (fallback_returns_good decision_engine messages page_context m last o
           Hm Hc Hlen Ho).
Qed.

(** With the rule-based provider the agent node returns on every validated
    conversation whose last message [int] can take the amount of. *)
Lemma agent_node_rule_based (st : AgentState) :
  ai_available env = false ->
  _validate_messages (messages st) = Ok tt ->
  convertible (last_text (messages st)) = true ->
  (exists o, original_user_message (messages st) = Ok o) ->
  returns (agent_shape st) (agent_node env settings st).
Proof.
  intros Hai Hv Hlen Ho. unfold agent_node. apply returns_bind_log.
  eapply returns_bind; [exact (make_decision_rule_based _ _ Hai Hv Hlen Ho)|].
  intros [l|c] Hgood.
  - destruct Hgood as (tc & -> & [b Hb] & [msg Hmsg]).
    apply returns_bind_lift. rewrite Hb. apply returns_bind_lift.
    destruct b.
    + rewrite Hmsg. apply returns_bind_lift, returns_bind_log.
      apply returns_ret. left. now exists tc.
    + apply returns_ret. left. now exists tc.
  - destruct (PyStr.contains "FINISH" (PyStr.upper c)); apply returns_ret; right.
    + now exists "Task completed successfully".
    + now exists c.
Qed.

(** With the rule-based provider, on a conversation no rule recognises, the
    agent node answers with a text. *)
Lemma agent_node_text (st : AgentState) (original : option string) :
  ai_available env = false ->
  _validate_messages (messages st) = Ok tt ->
  original_user_message (messages st) = Ok original ->
  original_mention decision_engine original = None ->
  rule_matches decision_engine (last_text (messages st)) = false ->
  returns (text_shape st) (agent_node env settings st).
Proof.
  intros Hai Hv Ho Hnone Hrules w.
  destruct (WebsiteClaims.validated_last (messages st) Hv) as (m & last & Hm & Hc).
  rewrite (last_text_of (messages st) m last Hm Hc) in Hrules.
  destruct (agent_node_behaves env settings st w) as (d & Hs & Hn & _).
  assert (Hdec : forall w0,
             fst (make_decision decision_engine env (messages st) (page_map st) w0)
             = Ok (Content (default_response (page_has "form" (page_map st))
                                             (page_has "input" (page_map st))
                                             (page_has "button" (page_map st))))).
  { intros w0. unfold make_decision, AnthropicClient.is_available.
    rewrite Hv, Hai. ToolFacts.unfold_monad.
    exact (RuleFacts.fallback_default decision_engine (messages st) (page_map st)
             m last original _ Hm Hc Ho Hnone Hrules). }
  destruct (make_decision decision_engine env (messages st) (page_map st)
              (w ++ [EvLog DEBUG "Agent node: Deciding next action..."])%list)
    as [r w1] eqn:Hmd.
  pose proof (Hdec (w ++ [EvLog DEBUG "Agent node: Deciding next action..."])%list)
    as Hr.
  rewrite Hmd in Hr. cbn [fst] in Hr. subst r.
  assert (Hag : exists st',
             agent_node env settings st w = (Ok st', w1) /\ text_shape st st').
  { unfold agent_node. unfold bind at 1. rewrite MonadFacts.log_run.
    unfold bind at 1. rewrite Hmd.
    destruct (PyStr.contains "FINISH" (PyStr.upper _)); eexists;
      (split; [reflexivity|]); eexists; split; reflexivity. }
  destruct Hag as (st' & Hag & Hshape). rewrite Hag in Hs. cbn [snd] in Hs. subst w1.
  exists st', d. auto.
Qed.
End Provider.

End ProviderFacts.

(** ** Walks of the workflow graph *)

Module GraphFacts.
Import Terms EffectFacts NodeFacts BrowserAgent.

Lemma last_message_app (l : list Message) (m : Message) :
  DecisionEngine.last_message (l ++ [m])%list = Ok m.
Proof. unfold DecisionEngine.last_message. now rewrite rev_unit. Qed.

Section Walks.
Variable env : Env.
Variable settings : Settings.
Variable limit : Z.

Let G : Graph := workflow_graph env settings.

Lemma run_out (name : string) (st : AgentState) (w : World) :
  run_from G limit 0 name st w
  = (mkOutcome (Raise (GraphRecursionError limit)) (messages st), w).
Proof. reflexivity. Qed.

Lemma run_end (n : nat) (st : AgentState) (w : World) :
  run_from G limit (S n) END st w = (mkOutcome (Ok st) (messages st), w).
Proof. reflexivity. Qed.

Lemma run_tool (n : nat) (st : AgentState) (w : World) :
  run_from G limit (S n) "tool" st w
  = match tool_wrapper env st (w ++ [EvNode "tool"])%list with
    | (Raise e, w') => (mkOutcome (Raise e) (messages st), w')
    | (Ok st', w') => run_from G limit n (should_end_workflow st') st' w'
    end.
Proof. reflexivity. Qed.

Lemma run_agent (n : nat) (st : AgentState) (w : World) :
  run_from G limit (S n) "agent" st w
  = match agent_node env settings st (w ++ [EvNode "agent"])%list with
    | (Raise e, w') => (mkOutcome (Raise e) (messages st), w')
    | (Ok st', w') =>
        match should_continue_to_tool st' with
        | Raise e => (mkOutcome (Raise e) (messages st'), w')
        | Ok next => run_from G limit n next st' w'
        end
    end.
Proof. reflexivity. Qed.

Lemma run_security_check (n : nat) (st : AgentState) (w : World) :
  run_from G limit (S n) "security_check" st w
  = match security_check_wrapper env st (w ++ [EvNode "security_check"])%list with
    | (Raise e, w') => (mkOutcome (Raise e) (messages st), w')
    | (Ok st', w') => run_from G limit n (should_request_approval st') st' w'
    end.
Proof. reflexivity. Qed.

(** The walk that arrives at [END] with the task marked complete: it ends
    there when a step is left, and is out of steps otherwise. *)
Lemma walk_at_end (n : nat) (st : AgentState) (w : World) :
  task_complete st = true ->
  (forall path, walk_along path n w (run_from G limit n END st w))
  /\ ((1 <= n)%nat -> walk_done (run_from G limit n END st w)).
Proof.
  intros Hdone. destruct n as [|n].
  - split; [|lia]. intros path. exists []. rewrite run_out. simpl. rewrite app_nil_r.
    repeat split; eauto. discriminate.
  - rewrite run_end. split.
    + intros path. exists []. simpl. rewrite app_nil_r.
      repeat split; eauto; [lia | now intros fs [= <-]].
    + intros _. now exists st.
Qed.

Lemma walk_from_tool (n : nat) (st : AgentState) (w : World) (m : Message)
      (tc : ToolCall) :
  DecisionEngine.last_message (messages st) = Ok m ->
  tool_calls m = Some [tc] ->
  walk_along ["tool"] n w (run_from G limit n "tool" st w)
  /\ ((2 <= n)%nat -> walk_done (run_from G limit n "tool" st w)).
Proof.
  intros Hm Htc. destruct n as [|n].
  - split; [|lia]. exists []. simpl. rewrite app_nil_r.
    repeat split; eauto. discriminate.
  - rewrite run_tool.
    destruct (tool_wrapper_returns env st m tc Hm Htc (w ++ [EvNode "tool"])%list)
      as (st' & d & Hrun & Hn & Hdone).
    rewrite Hrun. unfold should_end_workflow. rewrite Hdone.
    destruct (walk_at_end n st' ((w ++ [EvNode "tool"]) ++ d)%list Hdone)
      as [Hwalk Htotal].
    destruct (Hwalk []) as (d' & Hs' & [rest Hp] & Hlen & Hfin).
    split.
    + exists (([EvNode "tool"] ++ d) ++ d')%list.
      rewrite Hs', !app_assoc. split; [reflexivity|].
      rewrite !node_trace_app, Hn.
      destruct (node_trace d') as [|x l]; [|destruct rest; discriminate].
      simpl. repeat split; [now exists [] | lia | exact Hfin].
    + intros Hge. apply Htotal. lia.
Qed.

Lemma walk_from_agent (n : nat) (st : AgentState) (w : World) :
  walk_along ["agent"; "tool"] n w (run_from G limit n "agent" st w)
  /\ ((3 <= n)%nat ->
      returns (agent_shape st) (agent_node env settings st) ->
      walk_done (run_from G limit n "agent" st w)).
Proof.
  destruct n as [|n].
  - split; [|lia]. exists []. simpl. rewrite app_nil_r.
    repeat split; eauto. discriminate.
  - rewrite run_agent.
    destruct (agent_node_behaves env settings st (w ++ [EvNode "agent"])%list)
      as (d & Hs & Hn & Hshape).
    destruct (agent_node env settings st (w ++ [EvNode "agent"])%list)
      as [[st'|e] w'] eqn:Hrun; simpl in Hs, Hshape; subst w'.
    + destruct (Hshape st' eq_refl) as [[tc Hmsgs]|(c & Hmsgs & Hdone)].
      * unfold should_continue_to_tool. rewrite Hmsgs, last_message_app. simpl.
        destruct (walk_from_tool n st' ((w ++ [EvNode "agent"]) ++ d)%list
                    (assistant_tool_calls [tc]) tc)
          as [(d' & Hs' & [rest Hp] & Hlen & Hfin) Htotal];
          [now rewrite Hmsgs, last_message_app | reflexivity |].
        split.
        -- exists (([EvNode "agent"] ++ d) ++ d')%list.
           rewrite Hs', !app_assoc. split; [reflexivity|].
           rewrite !node_trace_app, Hn. simpl.
           repeat split; [exists rest; now rewrite <- Hp | lia | exact Hfin].
        -- intros Hge _. apply Htotal. lia.
      * unfold should_continue_to_tool. rewrite Hmsgs, last_message_app. simpl.
        destruct (walk_at_end n st' ((w ++ [EvNode "agent"]) ++ d)%list Hdone)
          as [Hwalk Htotal].
        destruct (Hwalk []) as (d' & Hs' & [rest Hp] & Hlen & Hfin).
        split.
        -- exists (([EvNode "agent"] ++ d) ++ d')%list.
           rewrite Hs', !app_assoc. split; [reflexivity|].
           rewrite !node_trace_app, Hn.
           destruct (node_trace d') as [|x l]; [|destruct rest; discriminate].
           simpl. repeat split; [now exists ["tool"] | lia | exact Hfin].
        -- intros Hge _. apply Htotal. lia.
    + split.
      * exists ([EvNode "agent"] ++ d)%list. simpl snd. rewrite app_assoc.
        split; [reflexivity|]. rewrite node_trace_app, Hn. simpl.
        repeat split; [now exists ["tool"] | lia | discriminate].
      * intros _ Hret.
        destruct (Hret (w ++ [EvNode "agent"])%list) as (a & d0 & Hc & _).
        rewrite Hc in Hrun. discriminate.
Qed.

(** A walk on which the agent answers with a text arrives at [END] with
    three steps: security_check, agent, and the one that finds the end. *)
Lemma walk_of_text (n : nat) (st : AgentState) (w : World) :
  (3 <= n)%nat ->
  (forall st1, messages st1 = messages st ->
               returns (text_shape st1) (agent_node env settings st1)) ->
  exists d fs,
    run_from G limit n "security_check" st w
    = (mkOutcome (Ok fs) (messages fs), (w ++ d)%list)
    /\ node_trace d = ["security_check"; "agent"]
    /\ task_complete fs = true.
Proof.
  intros Hn Hret. destruct n as [|[|[|n]]]; try lia.
  rewrite run_security_check.
  destruct (security_check_node_returns env st None
              (w ++ [EvNode "security_check"])%list)
    as (st1 & d1 & Hrun & Hn1 & Hclear & Hmsgs & _).
  unfold security_check_wrapper. rewrite Hrun.
  unfold should_request_approval. rewrite Hclear.
  change (PyStr.truthy EmptyString) with false. cbv iota.
  rewrite run_agent.
  destruct (Hret st1 Hmsgs (((w ++ [EvNode "security_check"]) ++ d1)
                              ++ [EvNode "agent"])%list)
    as (st2 & d2 & Hrun2 & Hn2 & c & Hmsgs2 & Hdone).
  rewrite Hrun2. unfold should_continue_to_tool. rewrite Hmsgs2, last_message_app.
  cbn [tool_calls assistant_text]. rewrite run_end.
  exists ((([EvNode "security_check"] ++ d1) ++ [EvNode "agent"]) ++ d2)%list, st2.
  rewrite !app_assoc. split; [reflexivity|].
  rewrite !node_trace_app, Hn1, Hn2. auto.
Qed.

(** Every walk from the entry point runs security_check, agent and tool in
    this order and no other node; with four steps it arrives at [END]. *)
Lemma walk_from_entry (n : nat) (st : AgentState) (w : World) :
  walk_along ["security_check"; "agent"; "tool"] n w
             (run_from G limit n "security_check" st w)
  /\ ((4 <= n)%nat ->
      (forall st1, messages st1 = messages st ->
                   returns (agent_shape st1) (agent_node env settings st1)) ->
      walk_done (run_from G limit n "security_check" st w)).
Proof.
  destruct n as [|n].
  - split; [|lia]. exists []. simpl. rewrite app_nil_r.
    repeat split; eauto. discriminate.
  - rewrite run_security_check.
    destruct (security_check_node_returns env st None
                (w ++ [EvNode "security_check"])%list)
      as (st1 & d & Hrun & Hn & Hclear & Hmsgs & _).
    unfold security_check_wrapper. rewrite Hrun.
    unfold should_request_approval. rewrite Hclear.
    change (PyStr.truthy EmptyString) with false. cbv iota.
    destruct (walk_from_agent n st1 ((w ++ [EvNode "security_check"]) ++ d)%list)
      as [(d' & Hs' & [rest Hp] & Hlen & Hfin) Htotal].
    split.
    + exists (([EvNode "security_check"] ++ d) ++ d')%list.
      rewrite Hs', !app_assoc. split; [reflexivity|].
      rewrite !node_trace_app, Hn. simpl.
      repeat split; [exists rest; now rewrite <- Hp | lia | exact Hfin].
    + intros Hge Hret. apply Htotal; [lia | now apply Hret].
Qed.
End Walks.

End GraphFacts.

(** ** run_agent_workflow: acquisition, workflow loop and teardown *)

Module RunFacts.
Import Terms EffectFacts NodeFacts BrowserAgent ToolFacts.

Lemma close_attempts_app (a b : World) :
  close_attempts (a ++ b)%list = (close_attempts a + close_attempts b)%nat.
Proof. unfold close_attempts. now rewrite filter_app, length_app. Qed.

Lemma sessions_created_app (a b : World) :
  sessions_created (a ++ b)%list = (sessions_created a + sessions_created b)%nat.
Proof. unfold sessions_created. now rewrite filter_app, length_app. Qed.

Section Run.
Variable env : Env.
Variable settings : Settings.
Variable invoke : Graph -> AgentState -> Z -> World -> Outcome * World.

Lemma create_loop_returns (fuel attempts : nat) :
  returns anything (create_loop env fuel attempts).
Proof.
  revert attempts. induction fuel as [|fuel IH]; intros attempts; cbn [create_loop];
    [now apply returns_ret|].
  destruct (attempts <? max_browser_attempts)%nat; [|now apply returns_ret].
  eapply (returns_bind anything).
  - apply returns_try_except; [|intros e; now apply returns_ret].
    unfold create_and_test. repeat quiet_step.
  - intros [ctx|e] _; [now apply returns_ret|].
    apply returns_bind_log.
    destruct (max_browser_attempts <=? attempts + 1)%nat.
    + apply returns_bind_log. now apply returns_ret.
    + eapply (returns_bind anything); [apply returns_sleep | intros _ _; apply IH].
Qed.

Lemma acquire_returns (use_real_browser : bool) (w : World) :
  exists r w', acquire env use_real_browser w = (Ok r, w').
Proof.
  unfold acquire. destruct use_real_browser.
  - destruct (create_loop_returns max_browser_attempts 0 w) as (r & d & H & _).
    eauto.
  - unfold ret. eauto.
Qed.

(** The teardown loop returns, and all it does to the browser is to try
    to close the one context, once per pass. *)
Lemma cleanup_loop_spec (fuel : nat) :
  forall (attempts : nat) (ctx : BrowserContext) (w : World),
  exists d,
    cleanup_loop env fuel attempts ctx w = (Ok tt, (w ++ d)%list)
    /\ (close_attempts d <= fuel)%nat
    /\ ((attempts < max_cleanup_attempts)%nat -> (1 <= fuel)%nat ->
        (1 <= close_attempts d)%nat)
    /\ closes_only ctx d
    /\ sessions_created d = 0%nat.
Proof.
  induction fuel as [|fuel IH]; intros attempts ctx w.
  - exists []. simpl. rewrite app_nil_r. repeat split; auto; try lia. constructor.
  - cbn [cleanup_loop]. destruct (attempts <? max_cleanup_attempts)%nat eqn:Hlt.
    + unfold_monad.
      destruct (close_browser_context_env env w ctx) as [[]|e].
      * exists [EvClose ctx (Ok tt); EvLog INFO "Browser context closed successfully"].
        rewrite <- app_assoc. repeat split; unfold close_attempts, sessions_created in *; simpl; auto; try lia.
        repeat constructor.
      * destruct (max_cleanup_attempts <=? attempts + 1)%nat.
        -- eexists [EvClose ctx (Raise e); EvLog WARNING _; EvLog ERROR _].
           rewrite <- !app_assoc. repeat split; unfold close_attempts, sessions_created in *; simpl; auto; try lia.
           repeat constructor.
        -- match goal with
           | |- context [cleanup_loop env fuel ?a ctx ?w'] =>
               destruct (IH a ctx w') as (d & Hrun & Hle & _ & Hctx & Hnew)
           end.
           rewrite Hrun.
           eexists ([EvClose ctx (Raise e); EvLog WARNING _; EvSleep 500] ++ d)%list.
           rewrite <- !app_assoc. split; [reflexivity|].
           rewrite close_attempts_app, sessions_created_app.
           repeat split; unfold close_attempts, sessions_created in *; simpl; auto; try lia.
           repeat constructor. exact Hctx.
    + exists []. unfold ret. rewrite app_nil_r.
      apply Nat.ltb_ge in Hlt. repeat split; unfold close_attempts, sessions_created in *; simpl; auto; try lia. constructor.
Qed.

Lemma cleanup_held (ctx : BrowserContext) (w : World) :
  exists d,
    cleanup env (Some ctx) w = (Ok tt, (w ++ d)%list)
    /\ (1 <= close_attempts d <= max_cleanup_attempts)%nat
    /\ closes_only ctx d
    /\ sessions_created d = 0%nat.
Proof.
  destruct (cleanup_loop_spec max_cleanup_attempts 0 ctx w)
    as (d & Hrun & Hle & Hge & Hctx & Hnew).
  exists d. repeat split; auto. apply Hge; unfold max_cleanup_attempts; lia.
Qed.

Lemma cleanup_returns (browser_context : option BrowserContext) (w : World) :
  exists w', cleanup env browser_context w = (Ok tt, w').
Proof.
  destruct browser_context as [ctx|].
  - destruct (cleanup_held ctx w) as (d & H & _). eauto.
  - unfold cleanup, ret. eauto.
Qed.

(** The body returns: with the final state of the graph, or with the
    error details. *)
Lemma workflow_body_returns (initial_task : string) (max_iterations : Z)
      (use_real_browser : bool) (browser_context : option BrowserContext)
      (state : AgentState) (w : World) :
  exists res w',
    workflow_body env settings invoke initial_task max_iterations use_real_browser
                  browser_context state w = (Ok res, w')
    /\ ((exists fs st' w1,
            workflow_loop env settings invoke max_workflow_attempts max_iterations 0
                          state w = ((Ok fs, st'), w1)
            /\ res = result_of_state fs)
        \/ (r_task_complete res = false /\ r_error res <> None)).
Proof.
  unfold workflow_body.
  destruct (workflow_loop env settings invoke max_workflow_attempts max_iterations 0
                          state w) as [[[fs|e] st'] w1].
  - eexists _, _. split; [reflexivity|]. left. eauto.
  - eexists _, _. split; [reflexivity|]. right. split; [reflexivity | discriminate].
Qed.

(** What the workflow loop returns as final state is a final state of a
    run of the graph. *)
Lemma workflow_loop_final (P : AgentState -> Prop) (max_iterations : Z) :
  (forall st w fs,
      final (fst (invoke (workflow_graph env settings) st max_iterations w)) = Ok fs ->
      P fs) ->
  forall fuel attempts state w fs st' w1,
    workflow_loop env settings invoke fuel max_iterations attempts state w
    = ((Ok fs, st'), w1) ->
    P fs.
Proof.
  intros Hinv. induction fuel as [|fuel IH]; intros attempts state w fs st' w1;
    cbn [workflow_loop]; [discriminate|].
  destruct (attempts <? max_workflow_attempts)%nat; [|discriminate].
  unfold workflow_attempt, create_workflow. unfold_monad.
  destruct (invoke (workflow_graph env settings) state max_iterations _)
    as [out w2] eqn:Hrun.
  destruct (final out) as [fs'|e] eqn:Hfinal.
  - intros [= <- _ _]. eapply Hinv. rewrite Hrun. exact Hfinal.
  - destruct (max_workflow_attempts <=? attempts + 1)%nat; [discriminate|].
    apply IH.
Qed.

(** A validated run returns: it acquires, runs the body and tears down,
    and its result is the one of the body. *)
Lemma run_structure (initial_task : string) (max_iterations : Z)
      (use_real_browser : bool) (w : World) :
  validate_run initial_task max_iterations = Ok tt ->
  exists browser_context flag w1 res w2 w3,
    acquire env use_real_browser
            (w ++ [EvLog INFO ("Starting browser agent with task: " ++ initial_task)])%list
    = (Ok (browser_context, flag), w1)
    /\ workflow_body env settings invoke initial_task max_iterations flag
                     browser_context (initial_state initial_task) w1 = (Ok res, w2)
    /\ cleanup env browser_context w2 = (Ok tt, w3)
    /\ run_agent_workflow_on env settings invoke initial_task max_iterations
                             use_real_browser w = (Ok res, w3).
Proof.
  intros Hv. unfold run_agent_workflow_on.
  destruct (acquire_returns use_real_browser
              (w ++ [EvLog INFO ("Starting browser agent with task: " ++ initial_task)])%list)
    as ([browser_context flag] & w1 & Hacq).
  destruct (workflow_body_returns initial_task max_iterations flag browser_context
              (initial_state initial_task) w1) as (res & w2 & Hbody & _).
  destruct (cleanup_returns browser_context w2) as (w3 & Hclean).
  exists browser_context, flag, w1, res, w2, w3.
  repeat split; auto.
  unfold bind at 1. rewrite MonadFacts.log_run. unfold bind at 1, lift. rewrite Hv.
  unfold bind. rewrite Hacq. simpl fst; simpl snd.
  unfold try_finally. now rewrite Hbody, Hclean.
Qed.
End Run.

End RunFacts.

(** ** The workflow engine *)

Module WorkflowClaims.
Import Terms EffectFacts NodeFacts GraphFacts RunFacts BrowserAgent.

Lemma validate_run_blank (initial_task : string) (max_iterations : Z) :
  PyStr.strip initial_task = EmptyString ->
  validate_run initial_task max_iterations
  = Raise (Py.ValidationError "Task description cannot be empty").
Proof.
  intros H. unfold validate_run. rewrite H.
  change (PyStr.truthy EmptyString) with false. now rewrite orb_true_r.
Qed.

Lemma validate_run_range (initial_task : string) (max_iterations : Z) :
  PyStr.strip initial_task <> EmptyString ->
  validate_run initial_task max_iterations
  = if ((max_iterations <? 1) || (max_iterations >? 20))%Z
    then Raise (Py.ValidationError "max_iterations must be between 1 and 20")
    else Ok tt.
Proof.
  intros H. unfold validate_run.
  rewrite (PyStrFacts.truthy_true _ H).
  destruct initial_task as [|c t]; [now elim H | reflexivity].
Qed.

Lemma run_rejected (env : Env) (settings : Settings)
      (invoke : Graph -> AgentState -> Z -> World -> Outcome * World)
      (initial_task : string) (max_iterations : Z) (use_real_browser : bool)
      (w : World) (e : Exn) :
  validate_run initial_task max_iterations = Raise e ->
  run_agent_workflow_on env settings invoke initial_task max_iterations
                        use_real_browser w
  = (Raise e,
     (w ++ [EvLog INFO ("Starting browser agent with task: " ++ initial_task)])%list).
Proof.
  intros H. unfold run_agent_workflow_on.
  unfold bind at 1. rewrite MonadFacts.log_run. unfold bind at 1, lift. now rewrite H.
Qed.

(** C3: [run_agent_workflow] raises ValidationError for every task that is
    empty or only white space and for every max_iterations outside 1..20,
    and it does so right after the log line that opens the run: nothing has
    touched the browser, no context has been created.  For every task that
    is not blank, max_iterations 1 and 20 are accepted: the run returns a
    result and raises nothing, whatever the browser and the graph executor
    do. *)
Theorem run_validation (env : Env) (settings : Settings)
        (invoke : Graph -> AgentState -> Z -> World -> Outcome * World)
        (initial_task : string) (max_iterations : Z) (use_real_browser : bool)
        (w : World) :
  (PyStr.strip initial_task = EmptyString
   \/ (max_iterations < 1)%Z \/ (20 < max_iterations)%Z ->
   exists msg,
     run_agent_workflow_on env settings invoke initial_task max_iterations
                           use_real_browser w
     = (Raise (Py.ValidationError msg),
        (w ++ [EvLog INFO ("Starting browser agent with task: " ++ initial_task)])%list))
  /\ (PyStr.strip initial_task <> EmptyString ->
      max_iterations = 1%Z \/ max_iterations = 20%Z ->
      exists res w',
        run_agent_workflow_on env settings invoke initial_task max_iterations
                              use_real_browser w = (Ok res, w')).
Proof.
  split.
  - intros H.
    destruct (string_dec (PyStr.strip initial_task) EmptyString) as [Hb|Hnb].
    + eexists. apply run_rejected. now apply validate_run_blank.
    + destruct H as [H|H]; [contradiction|].
      eexists. apply run_rejected. rewrite (validate_run_range _ _ Hnb).
      replace ((max_iterations <? 1) || (max_iterations >? 20))%Z with true;
        [reflexivity|].
      symmetry. apply orb_true_iff. destruct H as [H|H].
      * left. now apply Z.ltb_lt.
      * right. apply Z.gtb_lt. lia.
  - intros Hnb Hm.
    assert (Hv : validate_run initial_task max_iterations = Ok tt).
    { rewrite (validate_run_range _ _ Hnb). destruct Hm as [-> | ->]; reflexivity. }
    destruct (run_structure env settings invoke initial_task max_iterations
                use_real_browser w Hv)
      as (ctx & flag & w1 & res & w2 & w3 & _ & _ & _ & Hrun).
    now exists res, w3.
Qed.

Lemma run_validation_witness :
  (exists msg,
      run_agent_workflow quiet_env checks_on "   " 5 true []
      = (Raise (Py.ValidationError msg),
         [EvLog INFO "Starting browser agent with task:    "]))
  /\ (exists msg,
         run_agent_workflow quiet_env checks_on "test task" 25 true []
         = (Raise (Py.ValidationError msg),
            [EvLog INFO "Starting browser agent with task: test task"]))
  /\ (exists res w', run_agent_workflow quiet_env checks_on "test task" 20 true []
                     = (Ok res, w')).
Proof.
  split; [|split].
  - apply (proj1 (run_validation quiet_env checks_on ainvoke "   " 5 true [])).
    left. reflexivity.
  - apply (proj1 (run_validation quiet_env checks_on ainvoke "test task" 25 true [])).
    right. right. lia.
  - apply (proj2 (run_validation quiet_env checks_on ainvoke "test task" 20 true [])).
    + discriminate.
    + right. reflexivity.
Defined.

(** White space outside ASCII is white space: a task of such characters
    only is refused, and around a task it is stripped. *)
Example wide_blank_task_is_refused :
  validate_run wide_blank 5
  = Raise (Py.ValidationError "Task description cannot be empty")
  /\ initial_state (wide_blank ++ "open the page" ++ wide_blank)
     = initial_state "open the page".
Proof. split; reflexivity. Qed.

(** Whatever the agent node left pending, a conversation that ends in a
    tool call is routed to the tool node. *)
Lemma tool_call_routes_to_tool (st : AgentState) (l : list Message) (tc : ToolCall) :
  messages st = (l ++ [assistant_tool_calls [tc]])%list ->
  workflow_edges "agent" st = Ok "tool".
Proof.
  intros H. unfold workflow_edges, should_continue_to_tool.
  change ("agent" =? "security_check") with false.
  change ("agent" =? "agent") with true. cbv iota.
  now rewrite H, last_message_app.
Qed.

(** Every tool call that the gate flags is recorded as pending and, in the
    same step, routed to the tool node. *)
Lemma flagged_call_goes_to_tool (env : Env) (settings : Settings) (st : AgentState)
      (w w1 : World) (tc : ToolCall) (others : list ToolCall) (msg : string) :
  DecisionEngine.make_decision DecisionEngine.decision_engine env
    (messages st) (page_map st)
    (w ++ [EvLog DEBUG "Agent node: Deciding next action..."])%list
  = (Ok (ToolCalls (tc :: others)), w1) ->
  Security.should_require_approval settings (tc_name tc) (tc_args tc) = Ok true ->
  Security.get_approval_message (tc_name tc) (tc_args tc) = Ok msg ->
  exists st',
    agent_node env settings st w
    = (Ok st', (w1 ++ [EvLog WARNING ("Destructive action detected: " ++ msg)])%list)
    /\ browser_action st' = msg
    /\ workflow_edges "agent" st' = Ok "tool".
Proof.
  intros Hd Hflag Hmsg. unfold agent_node.
  unfold bind at 1. rewrite MonadFacts.log_run. unfold bind at 1. rewrite Hd.
  unfold first_of, bind, lift. rewrite Hflag, Hmsg, MonadFacts.log_run.
  eexists. split; [reflexivity|]. split; [reflexivity|].
  now apply (tool_call_routes_to_tool _ (messages st) tc).
Qed.

(** C1, at the failing input: with the security checks enabled and the
    rule-based provider, the task "buy it now" is decided as a click on the
    payment selectors, the gate flags it and the agent node records the
    pending action; the run then goes from the agent node straight to the
    tool node, which executes the click, and ends with the action still
    pending: the graph visited neither a second security_check nor
    human_approval. *)
Theorem flagged_call_reaches_tool_executor :
  let run := run_agent_workflow quiet_env checks_on "buy it now" 10 false [] in
  node_trace (snd run) = ["security_check"; "agent"; "tool"]
  /\ In (EvLog WARNING
           "Destructive action detected: Click on element: button.pay-now, button.checkout, button#purchase")
        (snd run)
  /\ In (EvLog DEBUG
           "Mock clicking element: button.pay-now, button.checkout, button#purchase")
        (snd run)
  /\ pending_action (fst run)
     = "Click on element: button.pay-now, button.checkout, button#purchase"
  /\ completed (fst run) = true.
Proof.
  cbv zeta.
  set (run := run_agent_workflow quiet_env checks_on "buy it now" 10 false []).
  assert (Hrun : run = ltac:(let v := eval vm_compute in
                               (run_agent_workflow quiet_env checks_on "buy it now" 10
                                                   false []) in exact v))
    by (vm_compute; reflexivity).
  rewrite Hrun. repeat split; simpl; tauto.
Qed.

(** C9, at the failing input: the browser starts on each of the three
    attempts and the probe navigation to about:blank fails each time.  Three
    sessions have been created, the run falls back to mock mode and
    completes, and no teardown is attempted: the history holds no call to
    close_browser_context. *)
Theorem failed_probe_leaves_sessions_open :
  let run := run_agent_workflow probe_failing_env checks_on
               "Click the submit button on the page" 10 true [] in
  sessions_created (snd run) = 3%nat
  /\ close_attempts (snd run) = 0%nat
  /\ completed (fst run) = true
  /\ error_type (fst run) = None.
Proof. vm_compute. repeat split. Qed.

(** The teardown discipline of the [finally] block: a validated run that
    holds a browser context when the workflow body starts returns the result
    of the body, after one teardown of that context: between one and three
    calls to close_browser_context, nothing else done to the browser. *)
Lemma held_context_is_torn_down_once (env : Env) (settings : Settings)
      (invoke : Graph -> AgentState -> Z -> World -> Outcome * World)
      (initial_task : string) (max_iterations : Z) (use_real_browser : bool)
      (w : World) :
  validate_run initial_task max_iterations = Ok tt ->
  exists browser_context flag w1 res w2 d,
    acquire env use_real_browser
            (w ++ [EvLog INFO ("Starting browser agent with task: " ++ initial_task)])%list
    = (Ok (browser_context, flag), w1)
    /\ workflow_body env settings invoke initial_task max_iterations flag
                     browser_context (initial_state initial_task) w1 = (Ok res, w2)
    /\ run_agent_workflow_on env settings invoke initial_task max_iterations
                             use_real_browser w = (Ok res, (w2 ++ d)%list)
    /\ match browser_context with
       | Some ctx =>
           (1 <= close_attempts d <= max_cleanup_attempts)%nat
           /\ closes_only ctx d /\ sessions_created d = 0%nat
       | None => d = []
       end.
Proof.
  intros Hv.
  destruct (run_structure env settings invoke initial_task max_iterations
              use_real_browser w Hv)
    as (ctx & flag & w1 & res & w2 & w3 & Hacq & Hbody & Hclean & Hrun).
  destruct ctx as [ctx|].
  - destruct (cleanup_held env ctx w2) as (d & Hd & Hn & Hc & Hs).
    rewrite Hd in Hclean. injection Hclean as <-.
    exists (Some ctx), flag, w1, res, w2, d. repeat split; auto; apply Hn.
  - exists None, flag, w1, res, w2, []. rewrite app_nil_r.
    unfold cleanup, ret in Hclean. injection Hclean as <-. repeat split; auto.
Qed.

(** Repeated teardown failure is logged and changes nothing: with a browser
    that never closes, the run completes with its result after three
    attempts to close. *)
Lemma teardown_failure_is_only_logged :
  let run := run_agent_workflow stuck_close_env checks_on
               "Click the submit button on the page" 10 true [] in
  completed (fst run) = true
  /\ close_attempts (snd run) = 3%nat
  /\ In (EvLog ERROR "Failed to cleanup browser context after 3 attempts") (snd run).
Proof. vm_compute. repeat split. tauto. Qed.

Lemma not_on_path (d : World) (rest : list string) :
  ["security_check"; "agent"; "tool"] = (node_trace d ++ rest)%list ->
  ~ In "human_approval" (node_trace d).
Proof.
  intros Hp Hin.
  assert (H : In "human_approval" ["security_check"; "agent"; "tool"]).
  { rewrite Hp. apply in_or_app. now left. }
  simpl in H. intuition discriminate.
Qed.

(** C10: [security_check_node] and [human_approval_node] return on every
    state, and the state they return has an empty [browser_action]: a
    pending approval is cleared, as if approved, by either node.  The
    approval node changes nothing else and its only way out leads to the
    agent node; after security_check the route is always the agent node;
    and no run of the compiled workflow ever executes human_approval. *)
Theorem pending_approval_never_survives (env : Env) (settings : Settings) :
  (forall (st : AgentState) (context : option BrowserContext) (w : World),
      exists st' w',
        security_check_node env st context w = (Ok st', w')
        /\ browser_action st' = EmptyString
        /\ should_request_approval st' = "agent")
  /\ (forall (st : AgentState) (w : World),
         exists st' w',
           human_approval_node st w = (Ok st', w')
           /\ browser_action st' = EmptyString
           /\ messages st' = messages st
           /\ page_map st' = page_map st
           /\ task_complete st' = task_complete st)
  /\ (forall st : AgentState, workflow_edges "human_approval" st = Ok "agent")
  /\ (forall (st : AgentState) (limit : Z) (w : World),
         exists d,
           snd (ainvoke (workflow_graph env settings) st limit w) = (w ++ d)%list
           /\ ~ In "human_approval" (node_trace d)).
Proof.
  repeat split.
  - intros st context w.
    destruct (security_check_node_returns env st context w)
      as (st' & d & Hrun & _ & Hclear & _).
    exists st', (w ++ d)%list. repeat split; auto.
    unfold should_request_approval. now rewrite Hclear.
  - intros st w.
    destruct (human_approval_node_returns st w) as (st' & d & Hrun & _ & ->).
    exists (set_browser_action st EmptyString), (w ++ d)%list. repeat split; auto.
  - intros st limit w.
    destruct (walk_from_entry env settings limit (Z.to_nat limit) st w)
      as [(d & Hs & [rest Hp] & _) _].
    exists d. split; [exact Hs | exact (not_on_path d rest Hp)].
Qed.

Lemma convertible_strip (initial_task : string) :
  convertible initial_task = true ->
  convertible (last_text (messages (initial_state initial_task))) = true.
Proof.
  unfold convertible. cbn [initial_state messages last_text rev app content user_message].
  intros H. apply Nat.leb_le in H. apply Nat.leb_le.
  eapply Nat.le_trans; [apply PyStrFacts.length_strip | exact H].
Qed.

Lemma initial_state_validated (initial_task : string) (st1 : AgentState) :
  PyStr.strip initial_task <> EmptyString ->
  messages st1 = messages (initial_state initial_task) ->
  DecisionEngine._validate_messages (messages st1) = Ok tt
  /\ exists o, DecisionEngine.original_user_message (messages st1) = Ok o.
Proof.
  intros Hnb ->. split.
  - unfold initial_state, DecisionEngine._validate_messages. simpl.
    rewrite PyStrFacts.strip_idem. now rewrite (PyStrFacts.truthy_true _ Hnb).
  - now eexists.
Qed.




End WorkflowClaims.

(** ** The bounds of the three loops

    The loops of [run_agent_workflow] are [while] loops over a counter that
    every pass increases; the model recurses on a number of passes.  The
    number the model gives each loop is enough: more passes change
    nothing. *)

Module LoopFacts.
Import Terms BrowserAgent ToolFacts.

Section Loops.
Variable env : Env.
Variable settings : Settings.
Variable invoke : Graph -> AgentState -> Z -> World -> Outcome * World.

Lemma create_loop_S (fuel attempts : nat) :
create_loop env (S fuel) attempts
= ltac:(let t := eval cbn [create_loop] in (create_loop env (S fuel) attempts) in
        exact t).
Proof. reflexivity. Qed.

Lemma create_loop_fuel (fuel : nat) :
forall (attempts : nat) (w : World),
  (max_browser_attempts - attempts <= fuel)%nat ->
  create_loop env (S fuel) attempts w = create_loop env fuel attempts w.
Proof.
induction fuel as [|fuel IH]; intros attempts w H.
- rewrite create_loop_S. cbn [create_loop].
  destruct (attempts <? max_browser_attempts)%nat eqn:E; [|reflexivity].
  apply Nat.ltb_lt in E. lia.
- rewrite (create_loop_S (S fuel) attempts), (create_loop_S fuel attempts).
  destruct (attempts <? max_browser_attempts)%nat; [|reflexivity].
  unfold create_and_test. unfold_monad.
  destruct (create_browser_context_env env _) as [ctx|e]; [|].
  + destruct (navigate_to_url_env env _ ctx "about:blank") as [[]|e]; [reflexivity|].
    destruct (max_browser_attempts <=? attempts + 1)%nat eqn:E; [reflexivity|].
    apply IH. apply Nat.leb_gt in E. lia.
  + destruct (max_browser_attempts <=? attempts + 1)%nat eqn:E; [reflexivity|].
    apply IH. apply Nat.leb_gt in E. lia.
Qed.

Lemma create_loop_enough (extra : nat) (w : World) :
create_loop env (max_browser_attempts + extra) 0 w
= create_loop env max_browser_attempts 0 w.
Proof.
induction extra as [|extra IH]; [now rewrite Nat.add_0_r|].
rewrite Nat.add_succ_r, create_loop_fuel; [exact IH | lia].
Qed.

Lemma cleanup_loop_S (fuel attempts : nat) (ctx : BrowserContext) :
cleanup_loop env (S fuel) attempts ctx
= ltac:(let t := eval cbn [cleanup_loop] in (cleanup_loop env (S fuel) attempts ctx) in
        exact t).
Proof. reflexivity. Qed.

Lemma cleanup_loop_fuel (fuel : nat) :
forall (attempts : nat) (ctx : BrowserContext) (w : World),
  (max_cleanup_attempts - attempts <= fuel)%nat ->
  cleanup_loop env (S fuel) attempts ctx w = cleanup_loop env fuel attempts ctx w.
Proof.
induction fuel as [|fuel IH]; intros attempts ctx w H.
- rewrite cleanup_loop_S. cbn [cleanup_loop].
  destruct (attempts <? max_cleanup_attempts)%nat eqn:E; [|reflexivity].
  apply Nat.ltb_lt in E. lia.
- rewrite (cleanup_loop_S (S fuel) attempts), (cleanup_loop_S fuel attempts).
  destruct (attempts <? max_cleanup_attempts)%nat; [|reflexivity].
  unfold_monad.
  destruct (close_browser_context_env env w ctx) as [[]|e]; [reflexivity|].
  destruct (max_cleanup_attempts <=? attempts + 1)%nat eqn:E; [reflexivity|].
  apply IH. apply Nat.leb_gt in E. lia.
Qed.

Lemma cleanup_loop_enough (extra : nat) (ctx : BrowserContext) (w : World) :
cleanup_loop env (max_cleanup_attempts + extra) 0 ctx w
= cleanup_loop env max_cleanup_attempts 0 ctx w.
Proof.
induction extra as [|extra IH]; [now rewrite Nat.add_0_r|].
rewrite Nat.add_succ_r, cleanup_loop_fuel; [exact IH | lia].
Qed.

Lemma workflow_loop_S (fuel : nat) (max_iterations : Z) (attempts : nat)
    (state : AgentState) (w : World) :
workflow_loop env settings invoke (S fuel) max_iterations attempts state w
= ltac:(let t := eval cbn [workflow_loop] in
                 (workflow_loop env settings invoke (S fuel) max_iterations
                                attempts state w) in
        exact t).
Proof. reflexivity. Qed.

Lemma workflow_loop_fuel (max_iterations : Z) (fuel : nat) :
forall (attempts : nat) (state : AgentState) (w : World),
  (max_workflow_attempts - attempts <= fuel)%nat ->
  workflow_loop env settings invoke (S fuel) max_iterations attempts state w
  = workflow_loop env settings invoke fuel max_iterations attempts state w.
Proof.
induction fuel as [|fuel IH]; intros attempts state w H.
- rewrite workflow_loop_S. cbn [workflow_loop].
  destruct (attempts <? max_workflow_attempts)%nat eqn:E; [|reflexivity].
  apply Nat.ltb_lt in E. lia.
- rewrite (workflow_loop_S (S fuel)), (workflow_loop_S fuel).
  destruct (attempts <? max_workflow_attempts)%nat; [|reflexivity].
  destruct (workflow_attempt env settings invoke max_iterations attempts state w)
    as [[[fs|e] st'] w1]; [reflexivity|].
  destruct (max_workflow_attempts <=? attempts + 1)%nat eqn:E; [reflexivity|].
  apply IH. apply Nat.leb_gt in E. lia.
Qed.

Lemma workflow_loop_enough (max_iterations : Z) (extra : nat) (state : AgentState)
    (w : World) :
workflow_loop env settings invoke (max_workflow_attempts + extra) max_iterations 0
              state w
= workflow_loop env settings invoke max_workflow_attempts max_iterations 0 state w.
Proof.
induction extra as [|extra IH]; [now rewrite Nat.add_0_r|].
rewrite Nat.add_succ_r, workflow_loop_fuel; [exact IH | lia].
Qed.
End Loops.

End LoopFacts.

(** ** The patterns on sample instructions *)

Module PatternExamples.
Import DecisionEngine Terms.

Example website_keeps_case :
  Re.search website_mention "Go to Amazon now" = Some (site_match "Amazon").
Proof. reflexivity. Qed.

Example submit_click_groups :
  option_map (fun m => (Re.group m 0, Re.group m 1, Re.group m 2))
             (Re.search submit_click "please click the big submit button")
  = Some ("click the big submit", "click", "submit").
Proof. reflexivity. Qed.

Example amount_of_pixels :
  scroll_amount "scroll down 300 px" = Ok 300%Z
  /\ scroll_amount "scroll down a bit" = Ok 500%Z
  /\ scroll_direction "scroll to the right" = "right".
Proof. repeat split. Qed.

Example quoted_text_is_not_extracted :
  text_to_input "type 'hello' into the text field" = "test data".
Proof. reflexivity. Qed.

Example rules_on_pay_now_to_complete_purchase :
  Re.matches finish_task "pay now to complete purchase" = true
  /\ Re.matches submit_click "pay now to complete purchase" = false
  /\ Re.matches payment_action "pay now to complete purchase" = true.
Proof. repeat split. Qed.

End PatternExamples.

(** ** Computations by the kind of events they append *)

Module OnlyFacts.
Import Effects.

Section Kind.
Variable P : Event -> bool.

Lemma only_ret {A} (a : A) : only P (ret a).
Proof. intros w. exists []. simpl. now rewrite app_nil_r. Qed.

Lemma only_raise {A} (e : Exn) : only P (@raise A e).
Proof. intros w. exists []. simpl. now rewrite app_nil_r. Qed.

Lemma only_lift {A} (r : Res A) : only P (lift r).
Proof. intros w. exists []. simpl. now rewrite app_nil_r. Qed.

Lemma only_emit (ev : Event) : P ev = true -> only P (emit ev).
Proof. intros H w. exists [ev]. simpl. now rewrite H. Qed.

Lemma only_call {A} (ask : World -> Res A) (ev : Res A -> Event) :
  (forall r, P (ev r) = true) -> only P (call ask ev).
Proof. intros H w. exists [ev (ask w)]. simpl. now rewrite H. Qed.

Lemma only_bind {A B} (c : M A) (f : A -> M B) :
  only P c -> (forall a, only P (f a)) -> only P (bind c f).
Proof.
  intros Hc Hf w. destruct (Hc w) as (d1 & Hs & Hp).
  unfold bind. destruct (c w) as [[a|e] w1]; simpl in Hs; subst w1.
  - destruct (Hf a (w ++ d1)%list) as (d2 & Hs2 & Hp2).
    exists (d1 ++ d2)%list. rewrite Hs2, app_assoc, forallb_app, Hp, Hp2. auto.
  - exists d1. auto.
Qed.

Lemma only_try_except {A} (c : M A) (h : Exn -> M A) :
  only P c -> (forall e, only P (h e)) -> only P (try_except c h).
Proof.
  intros Hc Hh w. destruct (Hc w) as (d1 & Hs & Hp).
  unfold try_except. destruct (c w) as [[a|e] w1]; simpl in Hs; subst w1.
  - exists d1. auto.
  - destruct (Hh e (w ++ d1)%list) as (d2 & Hs2 & Hp2).
    exists (d1 ++ d2)%list. rewrite Hs2, app_assoc, forallb_app, Hp, Hp2. auto.
Qed.

Lemma only_try_finally {A} (c : M A) (f : M unit) :
  only P c -> only P f -> only P (try_finally c f).
Proof.
  intros Hc Hf w. destruct (Hc w) as (d1 & Hs & Hp).
  unfold try_finally. destruct (c w) as [r w1]; simpl in Hs; subst w1.
  destruct (Hf (w ++ d1)%list) as (d2 & Hs2 & Hp2).
  destruct (f (w ++ d1)%list) as [[u|e] w2]; simpl in Hs2; subst w2;
    exists (d1 ++ d2)%list; rewrite app_assoc, forallb_app, Hp, Hp2; auto.
Qed.
End Kind.

Lemma only_weaken (P Q : Event -> bool) {A} (c : M A) :
  (forall ev, P ev = true -> Q ev = true) -> only P c -> only Q c.
Proof.
  intros HPQ Hc w. destruct (Hc w) as (d & Hs & Hp). exists d. split; [exact Hs|].
  rewrite forallb_forall in *. auto.
Qed.

(** Steps common to the proofs by kind of event; the goals left are the
    kinds of the events themselves. *)
Ltac only_step :=
  match goal with
  | |- only _ (bind _ _) => apply only_bind; [|intros ?]
  | |- only _ (try_except _ _) => apply only_try_except; [|intros ?]
  | |- only _ (log _ _) => apply only_emit; reflexivity
  | |- only _ (sleep _) => apply only_emit; reflexivity
  | |- only _ (emit _) => apply only_emit; reflexivity
  | |- only _ (ret _) => apply only_ret
  | |- only _ (raise _) => apply only_raise
  | |- only _ (lift _) => apply only_lift
  | |- only _ (call _ _) => apply only_call; intros ?; reflexivity
  | |- only _ (if ?b then _ else _) => destruct b
  | |- only _ (match ?x with _ => _ end) => destruct x
  end.

End OnlyFacts.

(** ** What a run does to the browser *)

Module BrowserUse.
Import Effects OnlyFacts BrowserAgent.

Section Parts.
Variable env : Env.
Variable settings : Settings.

(** Without a context the tool executor only logs. *)
Lemma execute_tool_mock_logs (tool_name : string) (tool_args : Dict) :
  only is_log (Tools.execute_tool env tool_name tool_args None).
Proof.
  unfold Tools.execute_tool, Tools.click_element_wrapper, Tools.type_text_wrapper,
    Tools.get_page_state_wrapper, Tools.scroll_page_wrapper,
    Tools.navigate_to_website_wrapper.
  repeat only_step.
Qed.

Lemma fallback_logs (patterns : DecisionEngine.Patterns) (messages : list Message)
      (page_context : string) :
  only is_log (DecisionEngine._make_fallback_decision patterns messages page_context).
Proof.
  unfold DecisionEngine._make_fallback_decision, DecisionEngine.pattern_rules,
    DecisionEngine.after_rules.
  repeat only_step.
Qed.

Lemma thought_of_log (ev : Event) : is_log ev = true -> is_thought ev = true.
Proof. unfold is_thought. now intros ->. Qed.

Lemma make_decision_thinks (patterns : DecisionEngine.Patterns)
      (messages : list Message) (page_context : string) :
  only is_thought (DecisionEngine.make_decision patterns env messages page_context).
Proof.
  pose proof (only_weaken _ _ _ thought_of_log
                (fallback_logs patterns messages page_context)) as Hf.
  unfold DecisionEngine.make_decision, AnthropicClient.make_decision.
  repeat first [ exact Hf | only_step ].
Qed.

Lemma agent_node_thinks (st : AgentState) : only is_thought (agent_node env settings st).
Proof.
  pose proof make_decision_thinks as Hd.
  unfold agent_node. repeat first [ apply Hd | only_step ].
Qed.

Lemma security_check_wrapper_logs (st : AgentState) :
  only is_log (security_check_wrapper env st).
Proof. unfold security_check_wrapper, security_check_node. repeat only_step. Qed.

Lemma tool_wrapper_logs (st : AgentState) : only is_log (tool_wrapper env st).
Proof.
  pose proof execute_tool_mock_logs as He.
  unfold tool_wrapper, tool_node. repeat first [ apply He | only_step ].
Qed.

Lemma human_approval_node_logs (st : AgentState) :
  only is_log (human_approval_node st).
Proof. unfold human_approval_node. repeat only_step. Qed.

(** The nodes of the graph, one by one *)
Lemma workflow_nodes (Q : (AgentState -> M AgentState) -> Prop) :
  Q (security_check_wrapper env) -> Q (agent_node env settings) ->
  Q (tool_wrapper env) -> Q human_approval_node ->
  forall name node,
    find_node name (nodes (workflow_graph env settings)) = Some node -> Q node.
Proof.
  intros H1 H2 H3 H4 name node. unfold workflow_graph. cbn [nodes find_node].
  destruct ("security_check" =? name); [now intros [= <-]|].
  destruct ("agent" =? name); [now intros [= <-]|].
  destruct ("tool" =? name); [now intros [= <-]|].
  destruct ("human_approval" =? name); [now intros [= <-]|].
  discriminate.
Qed.

Lemma quiet_of_thought (ev : Event) : is_thought ev = true -> is_quiet ev = true.
Proof. now destruct ev. Qed.

Lemma quiet_of_log (ev : Event) : is_log ev = true -> is_quiet ev = true.
Proof. now destruct ev. Qed.

Lemma workflow_nodes_quiet (name : string) (node : AgentState -> M AgentState) :
  find_node name (nodes (workflow_graph env settings)) = Some node ->
  forall st, only is_quiet (node st).
Proof.
  apply (workflow_nodes (fun node => forall st, only is_quiet (node st))); intros st.
  - apply (only_weaken is_log); [apply quiet_of_log|apply security_check_wrapper_logs].
  - apply (only_weaken is_thought); [apply quiet_of_thought|apply agent_node_thinks].
  - apply (only_weaken is_log); [apply quiet_of_log|apply tool_wrapper_logs].
  - apply (only_weaken is_log); [apply quiet_of_log|apply human_approval_node_logs].
Qed.
End Parts.

(** A run of a graph appends the steps it takes and what its nodes
    append. *)
Lemma run_from_only (P : Event -> bool) (app : Graph) (limit : Z) :
  (forall name, P (EvNode name) = true) ->
  (forall name node, find_node name (nodes app) = Some node ->
                     forall st, only P (node st)) ->
  forall (fuel : nat) (name : string) (st : AgentState) (w : World),
  exists d, snd (run_from app limit fuel name st w) = (w ++ d)%list
            /\ forallb P d = true.
Proof.
  intros Hstep Hnodes. induction fuel as [|fuel IH]; intros name st w.
  - cbn [run_from].
    destruct (name =? END); [|destruct (Tools.mem name (interrupt_before app))];
      exists []; simpl; now rewrite app_nil_r.
  - cbn [run_from].
    destruct (name =? END); [exists []; simpl; now rewrite app_nil_r|].
    destruct (Tools.mem name (interrupt_before app));
      [exists []; simpl; now rewrite app_nil_r|].
    destruct (find_node name (nodes app)) as [node|] eqn:Hfind;
      [|exists []; simpl; now rewrite app_nil_r].
    unfold bind, emit.
    destruct (Hnodes name node Hfind st (w ++ [EvNode name])%list) as (d1 & Hs & Hp).
    destruct (node st (w ++ [EvNode name])%list) as [[st'|e] w1]; simpl in Hs; subst w1.
    + destruct (edge app name st') as [next|e].
      * destruct (IH next st' ((w ++ [EvNode name]) ++ d1)%list) as (d2 & Hs2 & Hp2).
        exists (([EvNode name] ++ d1) ++ d2)%list.
        rewrite Hs2, !app_assoc. split; [reflexivity|].
        rewrite !forallb_app, Hp, Hp2. simpl. now rewrite Hstep.
      * exists ([EvNode name] ++ d1)%list. simpl snd. rewrite app_assoc.
        split; [reflexivity|]. rewrite forallb_app, Hp. simpl. now rewrite Hstep.
    + exists ([EvNode name] ++ d1)%list. simpl snd. rewrite app_assoc.
      split; [reflexivity|]. rewrite forallb_app, Hp. simpl. now rewrite Hstep.
Qed.

Section Run.
Variable env : Env.
Variable settings : Settings.

Lemma ainvoke_quiet (st : AgentState) (limit : Z) (w : World) :
  exists d, snd (ainvoke (workflow_graph env settings) st limit w) = (w ++ d)%list
            /\ forallb is_quiet d = true.
Proof.
  unfold ainvoke. apply run_from_only; [reflexivity|].
  apply workflow_nodes_quiet.
Qed.

Lemma workflow_loop_quiet (max_iterations : Z) (fuel : nat) :
  forall (attempts : nat) (state : AgentState) (w : World),
  exists d,
    snd (workflow_loop env settings ainvoke fuel max_iterations attempts state w)
    = (w ++ d)%list
    /\ forallb is_quiet d = true.
Proof.
  induction fuel as [|fuel IH]; intros attempts state w; cbn [workflow_loop].
  - exists []. simpl. now rewrite app_nil_r.
  - destruct (attempts <? max_workflow_attempts)%nat;
      [|exists []; simpl; now rewrite app_nil_r].
    unfold workflow_attempt, create_workflow. ToolFacts.unfold_monad.
    match goal with
    | |- context [ainvoke _ state max_iterations ?w0] =>
        destruct (ainvoke_quiet state max_iterations w0) as (d1 & Hs & Hp);
        destruct (ainvoke (workflow_graph env settings) state max_iterations w0)
          as [out w1]
    end.
    simpl in Hs. subst w1.
    destruct (final out) as [fs|e].
    + eexists (_ :: _ :: _ :: d1 ++ [_])%list. simpl snd.
      rewrite <- !app_assoc. split; [reflexivity|].
      simpl. rewrite forallb_app, Hp. reflexivity.
    + destruct (max_workflow_attempts <=? attempts + 1)%nat.
      * eexists (_ :: _ :: _ :: d1 ++ [_; _])%list. simpl snd.
        rewrite <- !app_assoc. split; [reflexivity|].
        simpl. rewrite forallb_app, Hp. reflexivity.
      * match goal with
        | |- context [workflow_loop env settings ainvoke fuel max_iterations ?a ?s ?w0] =>
            destruct (IH a s w0) as (d2 & Hs2 & Hp2)
        end.
        rewrite Hs2.
        eexists (_ :: _ :: _ :: d1 ++ [_; _] ++ d2)%list.
        rewrite <- !app_assoc. split; [reflexivity|].
        simpl. rewrite forallb_app, Hp. simpl. exact Hp2.
Qed.

Lemma workflow_body_quiet (initial_task : string) (max_iterations : Z)
      (use_real_browser : bool) (browser_context : option BrowserContext)
      (state : AgentState) :
  only is_quiet (workflow_body env settings ainvoke initial_task max_iterations
                               use_real_browser browser_context state).
Proof.
  intros w. unfold workflow_body.
  destruct (workflow_loop_quiet max_iterations max_workflow_attempts 0 state w)
    as (d & Hs & Hp).
  destruct (workflow_loop env settings ainvoke max_workflow_attempts max_iterations 0
                          state w) as [[[fs|e] st'] w1]; simpl in Hs; subst w1.
  - exists d. auto.
  - eexists (d ++ [_])%list. simpl snd. rewrite app_assoc. split; [reflexivity|].
    rewrite forallb_app, Hp. reflexivity.
Qed.

Lemma create_loop_sets_up (fuel : nat) :
  forall attempts, only is_setup (create_loop env fuel attempts).
Proof.
  induction fuel as [|fuel IH]; intros attempts; cbn [create_loop]; [apply only_ret|].
  unfold create_and_test.
  repeat first [ apply IH | only_step ].
Qed.

Lemma cleanup_loop_tears_down (fuel : nat) :
  forall attempts ctx, only is_teardown (cleanup_loop env fuel attempts ctx).
Proof.
  induction fuel as [|fuel IH]; intros attempts ctx; cbn [cleanup_loop];
    [apply only_ret|].
  repeat first [ apply IH | only_step ].
Qed.

Lemma lifecycle_of_setup (ev : Event) : is_setup ev = true -> is_lifecycle ev = true.
Proof. now destruct ev. Qed.

Lemma lifecycle_of_teardown (ev : Event) :
  is_teardown ev = true -> is_lifecycle ev = true.
Proof. now destruct ev. Qed.

Lemma quiet_is_lifecycle (ev : Event) : is_quiet ev = true -> is_lifecycle ev = true.
Proof. destruct ev; simpl; congruence. Qed.
End Run.

(** X1: whatever the task and the environment, [run_agent_workflow] never
    clicks, types, scrolls or reads the page of a browser, and it navigates
    nowhere but to the probe address about:blank: all it does to a browser
    is to create contexts, probe them and close them.  The nodes of the graph
    are compiled without the context, so the tools always run in mock mode,
    also when use_real_browser is set; when it is not set the run does not
    touch a browser at all. *)
Theorem workflow_never_operates_the_browser (env : Env) (settings : Settings)
        (initial_task : string) (max_iterations : Z) (use_real_browser : bool)
        (w : World) :
  exists d,
    snd (run_agent_workflow env settings initial_task max_iterations
                            use_real_browser w) = (w ++ d)%list
    /\ forallb (if use_real_browser then is_lifecycle else is_quiet) d = true.
Proof.
  revert w.
  change (only (if use_real_browser then is_lifecycle else is_quiet)
               (run_agent_workflow env settings initial_task max_iterations
                                   use_real_browser)).
  unfold run_agent_workflow, run_agent_workflow_on.
  apply only_bind; [apply only_emit; now destruct use_real_browser | intros _].
  apply only_bind; [apply only_lift | intros _].
  destruct use_real_browser; unfold acquire.
  - apply only_bind;
      [apply (only_weaken is_setup); [apply lifecycle_of_setup|apply create_loop_sets_up]|].
    intros [ctx flag]. cbn [fst snd]. apply only_try_finally.
    + apply (only_weaken is_quiet); [apply quiet_is_lifecycle|].
      apply workflow_body_quiet.
    + unfold cleanup. destruct ctx as [ctx|]; [|apply only_ret].
      apply (only_weaken is_teardown);
        [apply lifecycle_of_teardown|apply cleanup_loop_tears_down].
  - intros w. unfold bind at 1, ret at 1. cbn [fst snd].
    revert w. apply only_try_finally; [apply workflow_body_quiet | apply only_ret].
Qed.

End BrowserUse.

(** ** How much a run can do *)

Module CountFacts.
Import Effects OnlyFacts BrowserAgent.

Lemma count_app (P : Event -> bool) (a b : World) :
  count P (a ++ b)%list = (count P a + count P b)%nat.
Proof. unfold count. now rewrite filter_app, length_app. Qed.

Lemma count_free (P : Event -> bool) (d : World) :
  forallb (fun ev => negb (P ev)) d = true -> count P d = 0%nat.
Proof.
  unfold count. induction d as [|ev d IH]; simpl; [reflexivity|].
  destruct (P ev); simpl; [discriminate|exact IH].
Qed.

Section Kind.
Variable P : Event -> bool.

Lemma at_most_free {A} (n : nat) (c : M A) : free P c -> at_most P n c.
Proof.
  intros Hc w. destruct (Hc w) as (d & Hs & Hp). exists d. split; [exact Hs|].
  rewrite (count_free _ _ Hp). lia.
Qed.

Lemma at_most_mono {A} (n m : nat) (c : M A) :
  (n <= m)%nat -> at_most P n c -> at_most P m c.
Proof.
  intros Hle Hc w. destruct (Hc w) as (d & Hs & Hp). exists d. split; [exact Hs|lia].
Qed.

Lemma at_most_call {A} (ask : World -> Res A) (ev : Res A -> Event) :
  at_most P 1 (call ask ev).
Proof.
  intros w. exists [ev (ask w)]. split; [reflexivity|].
  unfold count. simpl. destruct (P _); simpl; lia.
Qed.

Lemma at_most_bind {A B} (n m : nat) (c : M A) (f : A -> M B) :
  at_most P n c -> (forall a, at_most P m (f a)) -> at_most P (n + m) (bind c f).
Proof.
  intros Hc Hf w. destruct (Hc w) as (d1 & Hs & Hp).
  unfold bind. destruct (c w) as [[a|e] w1]; simpl in Hs; subst w1.
  - destruct (Hf a (w ++ d1)%list) as (d2 & Hs2 & Hp2).
    exists (d1 ++ d2)%list. rewrite Hs2, app_assoc, count_app. split; [reflexivity|lia].
  - exists d1. split; [reflexivity|lia].
Qed.

Lemma at_most_try_except {A} (n m : nat) (c : M A) (h : Exn -> M A) :
  at_most P n c -> (forall e, at_most P m (h e)) -> at_most P (n + m) (try_except c h).
Proof.
  intros Hc Hh w. destruct (Hc w) as (d1 & Hs & Hp).
  unfold try_except. destruct (c w) as [[a|e] w1]; simpl in Hs; subst w1.
  - exists d1. split; [reflexivity|lia].
  - destruct (Hh e (w ++ d1)%list) as (d2 & Hs2 & Hp2).
    exists (d1 ++ d2)%list. rewrite Hs2, app_assoc, count_app. split; [reflexivity|lia].
Qed.

Lemma at_most_try_finally {A} (n m : nat) (c : M A) (f : M unit) :
  at_most P n c -> at_most P m f -> at_most P (n + m) (try_finally c f).
Proof.
  intros Hc Hf w. destruct (Hc w) as (d1 & Hs & Hp).
  unfold try_finally. destruct (c w) as [r w1]; simpl in Hs; subst w1.
  destruct (Hf (w ++ d1)%list) as (d2 & Hs2 & Hp2).
  destruct (f (w ++ d1)%list) as [[u|e] w2]; simpl in Hs2; subst w2;
    exists (d1 ++ d2)%list; rewrite app_assoc, count_app; (split; [reflexivity|lia]).
Qed.

(** The counted part first or last, the rest free *)
Lemma at_most_then {A B} (n : nat) (c : M A) (f : A -> M B) :
  at_most P n c -> (forall a, free P (f a)) -> at_most P n (bind c f).
Proof.
  intros Hc Hf. apply (at_most_mono (n + 0)); [lia|].
  apply at_most_bind; [exact Hc|]. intros a. now apply at_most_free.
Qed.

Lemma at_most_after {A B} (n : nat) (c : M A) (f : A -> M B) :
  free P c -> (forall a, at_most P n (f a)) -> at_most P n (bind c f).
Proof.
  intros Hc Hf. apply (at_most_mono (0 + n)); [lia|].
  apply at_most_bind; [now apply at_most_free|exact Hf].
Qed.

Lemma at_most_handled {A} (n : nat) (c : M A) (h : Exn -> M A) :
  at_most P n c -> (forall e, free P (h e)) -> at_most P n (try_except c h).
Proof.
  intros Hc Hf. apply (at_most_mono (n + 0)); [lia|].
  apply at_most_try_except; [exact Hc|]. intros a. now apply at_most_free.
Qed.

(** A run of a graph by the nodes it executes: with a weight for each
    node that bounds what a step of it appends, and steps that are not of
    the kind themselves, a run appends no more than the weights of its
    steps together. *)
Lemma run_from_weighted (wt : string -> nat) (app : Graph) (limit : Z) :
  (forall name, P (EvNode name) = false) ->
  (forall name node st, find_node name (nodes app) = Some node ->
                        at_most P (wt name) (node st)) ->
  forall (fuel : nat) (name : string) (st : AgentState) (w : World),
  exists d, snd (run_from app limit fuel name st w) = (w ++ d)%list
            /\ (count P d <= list_sum (map wt (Terms.node_trace d)))%nat.
Proof.
  intros Hstep Hnodes. induction fuel as [|fuel IH]; intros name st w.
  - cbn [run_from].
    destruct (name =? END); [|destruct (Tools.mem name (interrupt_before app))];
      exists []; simpl; rewrite app_nil_r; (split; [reflexivity|apply Nat.le_0_l]).
  - cbn [run_from].
    destruct (name =? END);
      [exists []; simpl; rewrite app_nil_r; split; [reflexivity|apply Nat.le_0_l]|].
    destruct (Tools.mem name (interrupt_before app));
      [exists []; simpl; rewrite app_nil_r; split; [reflexivity|apply Nat.le_0_l]|].
    destruct (find_node name (nodes app)) as [node|] eqn:Hfind;
      [|exists []; simpl; rewrite app_nil_r; split; [reflexivity|apply Nat.le_0_l]].
    unfold bind, emit.
    destruct (Hnodes name node st Hfind (w ++ [EvNode name])%list) as (d1 & Hs & Hp).
    assert (Hhead : forall d', (count P ((EvNode name :: d1) ++ d')%list
                                <= wt name + count P d')%nat).
    { intros d'. rewrite count_app. unfold count at 1. cbn [filter].
      rewrite Hstep. fold (count P d1). lia. }
    assert (Htrace : forall d', list_sum (map wt (Terms.node_trace
                                                    ((EvNode name :: d1) ++ d')%list))
                                = (wt name + list_sum (map wt (Terms.node_trace d1))
                                   + list_sum (map wt (Terms.node_trace d')))%nat).
    { intros d'. rewrite EffectFacts.node_trace_app. cbn [Terms.node_trace].
      rewrite map_app, list_sum_app. cbn [map]. unfold list_sum. cbn [fold_right]. lia. }
    destruct (node st (w ++ [EvNode name])%list) as [[st'|e] w1]; simpl in Hs; subst w1.
    + destruct (edge app name st') as [next|e].
      * destruct (IH next st' ((w ++ [EvNode name]) ++ d1)%list) as (d2 & Hs2 & Hp2).
        exists ((EvNode name :: d1) ++ d2)%list.
        split; [rewrite Hs2, <- !app_assoc; reflexivity|].
        specialize (Hhead d2). rewrite (Htrace d2).
        eapply Nat.le_trans; [exact Hhead|].
        rewrite <- Nat.add_assoc. apply Nat.add_le_mono_l.
        eapply Nat.le_trans; [exact Hp2|]. apply Nat.le_add_l.
      * exists ((EvNode name :: d1) ++ [])%list. simpl snd.
        split; [rewrite app_nil_r, <- app_assoc; reflexivity|].
        specialize (Hhead []). rewrite (Htrace []).
        eapply Nat.le_trans; [exact Hhead|].
        rewrite <- Nat.add_assoc. apply Nat.add_le_mono_l. apply Nat.le_0_l.
    + exists ((EvNode name :: d1) ++ [])%list. simpl snd.
      split; [rewrite app_nil_r, <- app_assoc; reflexivity|].
      specialize (Hhead []). rewrite (Htrace []).
      eapply Nat.le_trans; [exact Hhead|].
      rewrite <- Nat.add_assoc. apply Nat.add_le_mono_l. apply Nat.le_0_l.
Qed.
End Kind.

Ltac free_step := unfold free; only_step.

End CountFacts.

Module Bounds.
Import Effects OnlyFacts CountFacts BrowserAgent BrowserUse.

Lemma delta_unique (w d d' : World) (x : World) :
  x = (w ++ d)%list -> x = (w ++ d')%list -> d = d'.
Proof. intros -> H. now apply app_inv_head in H. Qed.

Lemma count_nodes (d : World) : count is_node d = List.length (Terms.node_trace d).
Proof.
  unfold count. induction d as [|ev d IH]; [reflexivity|].
  destruct ev; cbn [filter is_node Terms.node_trace length]; now rewrite ?IH.
Qed.

Lemma weight_of_prefix (trace rest : list string) :
  (list_sum (map ai_weight trace) <= list_sum (map ai_weight (trace ++ rest)))%nat.
Proof. rewrite map_app, list_sum_app. apply Nat.le_add_r. Qed.

Section Parts.
Variable env : Env.
Variable settings : Settings.

(** One call of the decision engine calls the AI backend at most once. *)
Lemma make_decision_one_call (patterns : DecisionEngine.Patterns)
      (messages : list Message) (page_context : string) :
  at_most is_ai_call 1 (DecisionEngine.make_decision patterns env messages page_context).
Proof.
  unfold DecisionEngine.make_decision.
  apply at_most_after; [unfold free; apply only_lift | intros _].
  apply at_most_then.
  - destruct (AnthropicClient.is_available env);
      [|apply at_most_free; unfold free; apply only_ret].
    apply at_most_handled; [|intros e; unfold free; repeat only_step].
    apply at_most_after; [unfold free; only_step | intros _].
    apply at_most_then; [|intros d; unfold free; apply only_ret].
    unfold AnthropicClient.make_decision.
    destruct (negb (AnthropicClient.is_available env));
      [apply at_most_free; unfold free; apply only_raise|].
    apply at_most_handled; [|intros e; unfold free; repeat only_step].
    apply at_most_after; [unfold free; only_step | intros _].
    apply at_most_then; [apply at_most_call | intros r; unfold free; apply only_ret].
  - intros [d|]; unfold free; [apply only_ret|].
    apply only_bind; [only_step | intros _].
    apply (only_weaken is_log); [now intros []|apply fallback_logs].
Qed.

Lemma agent_node_one_call (st : AgentState) :
  at_most is_ai_call 1 (agent_node env settings st).
Proof.
  unfold agent_node.
  apply at_most_after; [unfold free; only_step | intros _].
  apply at_most_then; [apply make_decision_one_call|].
  intros result. unfold free. repeat only_step.
Qed.

(** A step of a node calls the AI backend as often as its weight says. *)
Lemma node_ai_weight (name : string) (node : AgentState -> M AgentState)
      (st : AgentState) :
  find_node name (nodes (workflow_graph env settings)) = Some node ->
  at_most is_ai_call (ai_weight name) (node st).
Proof.
  unfold workflow_graph. cbn [nodes find_node].
  destruct ("security_check" =? name) eqn:E1.
  { intros [= <-]. apply at_most_free, (only_weaken is_log);
      [now intros []|apply security_check_wrapper_logs]. }
  destruct ("agent" =? name) eqn:E2.
  { intros [= <-]. apply String.eqb_eq in E2. subst name. apply agent_node_one_call. }
  destruct ("tool" =? name) eqn:E3.
  { intros [= <-]. apply at_most_free, (only_weaken is_log);
      [now intros []|apply tool_wrapper_logs]. }
  destruct ("human_approval" =? name) eqn:E4; [|discriminate].
  intros [= <-]. apply at_most_free, (only_weaken is_log);
    [now intros []|apply human_approval_node_logs].
Qed.

(** A pass over the graph takes three steps at most, within the budget,
    and decides once at most. *)
Lemma pass_nodes (st : AgentState) (limit : Z) (w : World) :
  exists d,
    snd (ainvoke (workflow_graph env settings) st limit w) = (w ++ d)%list
    /\ (count is_node d <= Nat.min (Z.to_nat limit) 3)%nat.
Proof.
  destruct (proj1 (GraphFacts.walk_from_entry env settings limit (Z.to_nat limit) st w))
    as (d & Hs & [rest Hpath] & Hlen & _).
  exists d. split; [exact Hs|]. rewrite count_nodes.
  apply Nat.min_glb; [exact Hlen|].
  apply (f_equal (@List.length string)) in Hpath. rewrite length_app in Hpath.
  cbn [length] in Hpath. lia.
Qed.

Lemma pass_ai_calls (st : AgentState) (limit : Z) (w : World) :
  exists d,
    snd (ainvoke (workflow_graph env settings) st limit w) = (w ++ d)%list
    /\ (count is_ai_call d <= 1)%nat.
Proof.
  destruct (proj1 (GraphFacts.walk_from_entry env settings limit (Z.to_nat limit) st w))
    as (d & Hs & [rest Hpath] & _).
  destruct (run_from_weighted is_ai_call ai_weight (workflow_graph env settings) limit
              ltac:(reflexivity) node_ai_weight (Z.to_nat limit)
              (entry_point (workflow_graph env settings)) st w) as (d' & Hs' & Hcount).
  exists d'. split; [exact Hs'|].
  assert (d' = d) by exact (delta_unique _ _ _ _ Hs' Hs). subst d'.
  eapply Nat.le_trans; [exact Hcount|].
  eapply Nat.le_trans; [apply (weight_of_prefix _ rest)|].
  rewrite <- Hpath. apply Nat.le_refl.
Qed.

Section Kind.
(** A kind of events, no log record and none of the acquisition or the
    teardown, of which a pass over the graph appends [b] at most *)
Variable P : Event -> bool.
Variable b : nat.
Variable max_iterations : Z.
Hypothesis Hpass :
  forall st w, exists d,
    snd (ainvoke (workflow_graph env settings) st max_iterations w) = (w ++ d)%list
    /\ (count P d <= b)%nat.
Hypothesis Hlog : forall ev, is_log ev = true -> P ev = false.

Lemma workflow_loop_at_most (fuel : nat) :
  forall (attempts : nat) (state : AgentState) (w : World),
  exists d,
    snd (workflow_loop env settings ainvoke fuel max_iterations attempts state w)
    = (w ++ d)%list
    /\ (count P d <= fuel * b)%nat.
Proof.
  induction fuel as [|fuel IH]; intros attempts state w; cbn [workflow_loop].
  - exists []. simpl. rewrite app_nil_r. split; [reflexivity|apply Nat.le_0_l].
  - destruct (attempts <? max_workflow_attempts)%nat;
      [|exists []; simpl; rewrite app_nil_r; split; [reflexivity|apply Nat.le_0_l]].
    unfold workflow_attempt, create_workflow. ToolFacts.unfold_monad.
    match goal with
    | |- context [ainvoke _ state max_iterations ?w0] =>
        destruct (Hpass state w0) as (d1 & Hs & Hp);
        destruct (ainvoke (workflow_graph env settings) state max_iterations w0)
          as [out w1]
    end.
    simpl in Hs. subst w1.
    destruct (final out) as [fs|e].
    + eexists (_ :: _ :: _ :: d1 ++ [_])%list. simpl snd.
      rewrite <- !app_assoc. split; [reflexivity|].
      unfold count in *. simpl. rewrite !Hlog by reflexivity.
      rewrite filter_app, length_app. simpl. rewrite !Hlog by reflexivity. simpl. lia.
    + destruct (max_workflow_attempts <=? attempts + 1)%nat.
      * eexists (_ :: _ :: _ :: d1 ++ [_; _])%list. simpl snd.
        rewrite <- !app_assoc. split; [reflexivity|].
        unfold count in *. simpl. rewrite !Hlog by reflexivity.
        rewrite filter_app, length_app. simpl. rewrite !Hlog by reflexivity. simpl. lia.
      * match goal with
        | |- context [workflow_loop env settings ainvoke fuel max_iterations ?a ?s ?w0] =>
            destruct (IH a s w0) as (d2 & Hs2 & Hp2)
        end.
        rewrite Hs2.
        eexists (_ :: _ :: _ :: d1 ++ [_; _] ++ d2)%list.
        rewrite <- !app_assoc. split; [reflexivity|].
        unfold count in *. simpl. rewrite !Hlog by reflexivity.
        rewrite !filter_app, !length_app. simpl. rewrite !Hlog by reflexivity. simpl. lia.
Qed.

Lemma workflow_body_at_most (initial_task : string)
      (use_real_browser : bool) (browser_context : option BrowserContext)
      (state : AgentState) :
  at_most P (max_workflow_attempts * b)
          (workflow_body env settings ainvoke initial_task max_iterations
                         use_real_browser browser_context state).
Proof.
  intros w. unfold workflow_body.
  destruct (workflow_loop_at_most max_workflow_attempts 0 state w) as (d & Hs & Hp).
  destruct (workflow_loop env settings ainvoke max_workflow_attempts max_iterations 0
                          state w) as [[[fs|e] st'] w1]; simpl in Hs; subst w1.
  - exists d. auto.
  - eexists (d ++ [_])%list. simpl snd. rewrite app_assoc. split; [reflexivity|].
    rewrite count_app. unfold count at 2. cbn [filter]. rewrite Hlog by reflexivity.
    cbn [length]. lia.
Qed.

Hypothesis Hsetup : forall ev, is_setup ev = true -> P ev = false.
Hypothesis Hteardown : forall ev, is_teardown ev = true -> P ev = false.

Lemma negb_of (Q : Event -> bool) :
  (forall ev, Q ev = true -> P ev = false) ->
  forall ev, Q ev = true -> negb (P ev) = true.
Proof. intros H ev Hq. now rewrite (H ev Hq). Qed.

(** What a run appends of the kind is what its passes over the graph
    append, two at most. *)
Lemma run_at_most (initial_task : string) (use_real_browser : bool) :
  at_most P (max_workflow_attempts * b)
          (run_agent_workflow env settings initial_task max_iterations
                              use_real_browser).
Proof.
  unfold run_agent_workflow, run_agent_workflow_on.
  apply at_most_after; [apply only_emit; now rewrite Hlog | intros _].
  apply at_most_after; [apply only_lift | intros _].
  apply at_most_after.
  - unfold acquire. destruct use_real_browser; [|apply only_ret].
    apply (only_weaken is_setup); [apply negb_of, Hsetup|apply create_loop_sets_up].
  - intros [ctx flag]. cbn [fst snd].
    apply (at_most_mono _ (max_workflow_attempts * b + 0)); [lia|].
    apply at_most_try_finally; [apply workflow_body_at_most|].
    apply at_most_free. unfold cleanup. destruct ctx as [ctx|]; [|apply only_ret].
    apply (only_weaken is_teardown);
      [apply negb_of, Hteardown|apply cleanup_loop_tears_down].
Qed.
End Kind.

Lemma create_loop_at_most (fuel : nat) :
  forall attempts, at_most is_create fuel (create_loop env fuel attempts).
Proof.
  induction fuel as [|fuel IH]; intros attempts; cbn [create_loop];
    [apply at_most_free, only_ret|].
  destruct (attempts <? max_browser_attempts)%nat; [|apply at_most_free, only_ret].
  apply (at_most_bind _ 1 fuel).
  - apply at_most_handled; [|intros e; apply only_ret].
    apply at_most_then; [|intros ctx; apply only_ret].
    unfold create_and_test.
    apply at_most_after; [unfold free; only_step | intros _].
    apply at_most_then; [apply at_most_call|].
    intros ctx. unfold free. repeat only_step.
  - intros [ctx|e]; [apply at_most_free, only_ret|].
    apply at_most_after; [unfold free; only_step | intros _].
    destruct (max_browser_attempts <=? attempts + 1)%nat.
    + apply at_most_free. unfold free. repeat only_step.
    + apply at_most_after; [unfold free; only_step | intros _]. apply IH.
Qed.

Lemma cleanup_loop_at_most (fuel attempts : nat) (ctx : BrowserContext) :
  at_most Terms.is_close fuel (cleanup_loop env fuel attempts ctx).
Proof.
  intros w.
  destruct (RunFacts.cleanup_loop_spec env fuel attempts ctx w) as (d & Hrun & Hle & _).
  exists d. rewrite Hrun. split; [reflexivity|exact Hle].
Qed.

Lemma run_creates (initial_task : string) (max_iterations : Z)
      (use_real_browser : bool) :
  at_most is_create max_browser_attempts
          (run_agent_workflow env settings initial_task max_iterations
                              use_real_browser).
Proof.
  unfold run_agent_workflow, run_agent_workflow_on.
  apply at_most_after; [unfold free; only_step | intros _].
  apply at_most_after; [apply only_lift | intros _].
  apply at_most_then.
  - unfold acquire. destruct use_real_browser; [apply create_loop_at_most|].
    apply at_most_free, only_ret.
  - intros [ctx flag]. cbn [fst snd]. apply only_try_finally.
    + apply (only_weaken is_quiet); [now intros []|apply workflow_body_quiet].
    + unfold cleanup. destruct ctx as [ctx|]; [|apply only_ret].
      apply (only_weaken is_teardown); [now intros []|apply cleanup_loop_tears_down].
Qed.

Lemma run_closes (initial_task : string) (max_iterations : Z)
      (use_real_browser : bool) :
  at_most Terms.is_close max_cleanup_attempts
          (run_agent_workflow env settings initial_task max_iterations
                              use_real_browser).
Proof.
  unfold run_agent_workflow, run_agent_workflow_on.
  apply at_most_after; [unfold free; only_step | intros _].
  apply at_most_after; [apply only_lift | intros _].
  apply at_most_after.
  - unfold acquire. destruct use_real_browser; [|apply only_ret].
    apply (only_weaken is_setup); [|apply create_loop_sets_up].
    intros [] H; try reflexivity; discriminate.
  - intros [ctx flag]. cbn [fst snd].
    apply (at_most_mono _ (0 + max_cleanup_attempts)); [lia|].
    apply at_most_try_finally.
    + apply at_most_free.
      apply (only_weaken is_quiet); [now intros []|apply workflow_body_quiet].
    + unfold cleanup. destruct ctx as [ctx|]; [|apply at_most_free, only_ret].
      apply cleanup_loop_at_most.
Qed.
End Parts.

(** X2: how much a run can do.  Whatever the task, the budget and the
    environment, a call of [run_agent_workflow] makes two passes over the
    graph at most, each of three steps at most and within [max_iterations]:
    it executes no more than six nodes, however large the budget, calls the
    AI backend at most twice, asks at most three times for a browser context
    and tries at most three times to close one. *)
Theorem run_is_bounded (env : Env) (settings : Settings) (initial_task : string)
        (max_iterations : Z) (use_real_browser : bool) (w : World) :
  exists d,
    snd (run_agent_workflow env settings initial_task max_iterations
                            use_real_browser w) = (w ++ d)%list
    /\ (count is_node d
        <= max_workflow_attempts * Nat.min (Z.to_nat max_iterations) 3)%nat
    /\ (count is_ai_call d <= max_workflow_attempts)%nat
    /\ (count is_create d <= max_browser_attempts)%nat
    /\ (count Terms.is_close d <= max_cleanup_attempts)%nat.
Proof.
  destruct (run_at_most env settings is_node _ max_iterations
              (fun st w => pass_nodes env settings st max_iterations w)
              ltac:(now intros []) ltac:(now intros []) ltac:(now intros [])
              initial_task use_real_browser w) as (d & Hs & Hn).
  destruct (run_at_most env settings is_ai_call _ max_iterations
              (fun st w => pass_ai_calls env settings st max_iterations w)
              ltac:(now intros []) ltac:(now intros []) ltac:(now intros [])
              initial_task use_real_browser w) as (d1 & Hs1 & Ha).
  destruct (run_creates env settings initial_task max_iterations use_real_browser w)
    as (d2 & Hs2 & Hc).
  destruct (run_closes env settings initial_task max_iterations use_real_browser w)
    as (d3 & Hs3 & Hk).
  rewrite (delta_unique _ _ _ _ Hs1 Hs) in Ha.
  rewrite (delta_unique _ _ _ _ Hs2 Hs) in Hc.
  rewrite (delta_unique _ _ _ _ Hs3 Hs) in Hk.
  exists d. rewrite Nat.mul_1_r in Ha. auto.
Qed.

End Bounds.

(** ** The text a typing request carries *)

Module ExtractFacts.
Import Re Terms Matching ReFacts DecisionEngine.

Section Engine.
Variable R : Type.

Lemma star_greedy_inv (cc : cclass) (k : cont R) (caps : captures) (x : R) :
  forall s prev, star_greedy R cc k prev s caps = Some x ->
                 exists p' s', k p' s' caps = Some x.
Proof.
  induction s as [|c s IH]; intros prev; cbn [star_greedy]; [eauto|].
  destruct (cc_match cc c); [|eauto].
  destruct (star_greedy R cc k (Some c) s caps) eqn:Hrec; cbn [orelse]; [|eauto].
  intros [= ->]. eauto.
Qed.

Lemma star_lazy_inv (cc : cclass) (k : cont R) (caps : captures) (x : R) :
  forall s prev, star_lazy R cc k prev s caps = Some x ->
                 exists p' s', k p' s' caps = Some x.
Proof.
  induction s as [|c s IH]; intros prev; cbn [star_lazy].
  - destruct (k prev EmptyString caps) eqn:Hk; cbn [orelse]; [|discriminate].
    intros [= ->]. eauto.
  - destruct (k prev (String c s) caps) eqn:Hk; cbn [orelse].
    + intros [= ->]. eauto.
    + destruct (cc_match cc c); [eauto|discriminate].
Qed.

(** A match is the answer of the continuation at some later place, with
    the groups of the expression added to the captures and the other
    groups as they were. *)
Lemma run_inv (n : nat) (r : regex) :
  forall prev s caps (k : cont R) x,
    run R r prev s caps k = Some x ->
    exists p' s' caps',
      k p' s' caps' = Some x
      /\ (mentions n r = false -> lookup n caps' = lookup n caps).
Proof.
  induction r as [| cc | | r1 IH1 r2 IH2 | r1 IH1 r2 IH2 | cc | cc | cc | m r1 IH1];
    intros prev s caps k x; cbn [run mentions].
  - eauto.
  - destruct s as [|c s']; [discriminate|]. destruct (cc_match cc c); [eauto|discriminate].
  - destruct (at_boundary prev s); [eauto|discriminate].
  - intros H. apply IH1 in H. destruct H as (p1 & s1 & c1 & H & Hc1).
    apply IH2 in H. destruct H as (p2 & s2 & c2 & H & Hc2).
    exists p2, s2, c2. split; [exact H|].
    intros Hm. apply orb_false_iff in Hm. destruct Hm as [Hm1 Hm2].
    now rewrite Hc2, Hc1.
  - destruct (run R r1 prev s caps k) eqn:H1; cbn [orelse].
    + intros [= ->]. apply IH1 in H1. destruct H1 as (p1 & s1 & c1 & H & Hc1).
      exists p1, s1, c1. split; [exact H|].
      intros Hm. apply orb_false_iff in Hm. now apply Hc1.
    + intros H. apply IH2 in H. destruct H as (p1 & s1 & c1 & H & Hc1).
      exists p1, s1, c1. split; [exact H|].
      intros Hm. apply orb_false_iff in Hm. now apply Hc1.
  - intros H. apply star_greedy_inv in H. destruct H as (p' & s' & H). eauto.
  - intros H. apply star_lazy_inv in H. destruct H as (p' & s' & H). eauto.
  - destruct s as [|c s']; [eauto|]. destruct (cc_match cc c); [|eauto].
    destruct (k (Some c) s' caps) eqn:Hk; cbn [orelse]; [|eauto].
    intros [= ->]. eauto.
  - intros H. apply IH1 in H. destruct H as (p1 & s1 & c1 & H & Hc1).
    exists p1, s1, ((m, consumed s s1) :: c1). split; [exact H|].
    intros Hm. apply orb_false_iff in Hm. destruct Hm as [Hne Hm].
    cbn [lookup]. rewrite Hne. now apply Hc1.
Qed.

(** Whether a greedy repetition matches, when the rest of the match only
    depends on the place *)
Lemma star_greedy_succeeds (cc : cclass) (k : cont R) (f : string -> bool) :
  (forall p s c, succeeds (k p s c) = f s) ->
  forall s p c, succeeds (star_greedy R cc k p s c) = reach cc f s.
Proof.
  intros Hk. induction s as [|d s IH]; intros p c; cbn [star_greedy reach]; [apply Hk|].
  destruct (cc_match cc d); [|apply Hk].
  specialize (IH (Some d) c).
  destruct (star_greedy R cc k (Some d) s c); cbn [orelse].
  - now rewrite <- IH.
  - rewrite <- IH. apply Hk.
Qed.

(** A lazy repetition takes nothing when taking more cannot help: when
    the rest of the match, if it fails at a place, fails one character of
    the class later. *)
Lemma star_lazy_takes_nothing (cc : cclass) (k : cont R) (caps : captures) :
  (forall p c s, cc_match cc c = true ->
                 k p (String c s) caps = None -> k (Some c) s caps = None) ->
  forall s p, star_lazy R cc k p s caps = k p s caps.
Proof.
  intros Hk. induction s as [|c s IH]; intros p; cbn [star_lazy].
  - now destruct (k p EmptyString caps).
  - destruct (k p (String c s) caps) eqn:H; cbn [orelse]; [reflexivity|].
    destruct (cc_match cc c) eqn:Hc; [|reflexivity].
    rewrite IH. now apply (Hk p).
Qed.
End Engine.


Lemma run_seq (R : Type) (r1 r2 : regex) prev s caps (k : cont R) :
  run R (Seq r1 r2) prev s caps k
  = run R r1 prev s caps (fun p1 s1 c1 => run R r2 p1 s1 c1 k).
Proof. reflexivity. Qed.

Lemma quote_is_no_newline (c : ascii) :
  cc_match quotes c = true -> cc_match CDot c = true.
Proof. SiteFacts.by_cases_on_char c. Qed.

Lemma reach_step (f : string -> bool) (c : ascii) (s : string) :
  cc_match CDot c = true ->
  reach CDot f (String c s) = false -> reach CDot f s = false.
Proof.
  intros Hc. cbn [reach]. rewrite Hc. intros H. now apply orb_false_iff in H.
Qed.

Section Tail.
Variable s0 : string.

Lemma group3_succeeds (p : option ascii) (s : string) (c : captures) :
  succeeds (run mobj (Group 3 (words ["into"; "in"])) p s c
                (fun _ s' caps => Some (mkMatch (consumed s0 s') caps)))
  = ends_in s.
Proof.
  cbn [run].
  match goal with
  | |- succeeds (run mobj _ p s c ?k) = _ =>
      change (succeeds (orelse mobj (run mobj (lit "into") p s c k)
                               (fun _ => run mobj (lit "in") p s c k)) = ends_in s)
  end.
  rewrite !run_lit. unfold ends_in.
  destruct (ci_prefix "into" s); [reflexivity|].
  cbn [orelse orb]. now destruct (ci_prefix "in" s).
Qed.

Lemma text_tail_succeeds (p : option ascii) (s : string) (c : captures) :
  succeeds (run mobj text_tail p s c
                (fun _ s' caps => Some (mkMatch (consumed s0 s') caps)))
  = reach CDot ends_in s.
Proof.
  pose proof (fun p s c =>
                star_greedy_succeeds mobj CDot _ ends_in group3_succeeds s p c) as Hg.
  change (run mobj text_tail p s c
              (fun _ s' caps => Some (mkMatch (consumed s0 s') caps)))
    with (run mobj (Opt quotes) p s c
              (fun p1 s1 c1 =>
                 star_greedy mobj CDot
                   (fun p2 s2 c2 =>
                      run mobj (Group 3 (words ["into"; "in"])) p2 s2 c2
                          (fun _ s' caps => Some (mkMatch (consumed s0 s') caps)))
                   p1 s1 c1)).
  cbn [run]. destruct s as [|d s]; [apply Hg|].
  destruct (cc_match quotes d) eqn:Hq; [|apply Hg].
  pose proof (Hg (Some d) s c) as H1. pose proof (Hg p (String d s) c) as H2.
  destruct (star_greedy mobj CDot _ (Some d) s c); cbn [orelse].
  - cbn [reach]. rewrite (quote_is_no_newline d Hq). now rewrite <- H1.
  - exact H2.
Qed.
End Tail.

Lemma consumed_nothing (s : string) : consumed s s = EmptyString.
Proof. unfold consumed. rewrite Nat.sub_diag. now destruct s. Qed.

(** Wherever the pattern of the text extraction matches, its second group
    is empty. *)
Lemma match_here_text (prev : option ascii) (s : string) (m : mobj) :
  match_here text_extract prev s = Some m -> group m 2 = EmptyString.
Proof.
  unfold match_here.
  change text_extract
    with (Seq (Group 1 (words ["type"; "enter"; "fill"]))
              (Seq DotStar
                   (Seq (Opt quotes)
                        (Seq (Group 2 (StarLazy CDot)) text_tail)))).
  intros H.
  rewrite run_seq in H. apply (run_inv mobj 2) in H. destruct H as (p1 & s1 & c1 & H & _).
  rewrite run_seq in H. apply (run_inv mobj 2) in H. destruct H as (p2 & s2 & c2 & H & _).
  rewrite run_seq in H. apply (run_inv mobj 2) in H. destruct H as (p3 & s3 & c3 & H & _).
  rewrite run_seq in H. cbn [run] in H.
  rewrite star_lazy_takes_nothing in H.
  - apply (run_inv mobj 2) in H. destruct H as (p4 & s4 & c4 & H & Hc).
    injection H as <-. unfold group. cbn [groups].
    rewrite (Hc eq_refl). cbn [lookup Nat.eqb]. apply consumed_nothing.
  - intros p c t Hc Hnone.
    pose proof (text_tail_succeeds s p (String c t) ((2, consumed s3 (String c t)) :: c3))
      as H1.
    pose proof (text_tail_succeeds s (Some c) t ((2, consumed s3 t) :: c3)) as H2.
    rewrite Hnone in H1. cbn [succeeds] in H1. symmetry in H1.
    apply (reach_step _ _ _ Hc) in H1. rewrite H1 in H2.
    now destruct (run mobj text_tail (Some c) t _ _).
Qed.

Lemma search_from_text (s : string) :
  forall prev m, search_from text_extract prev s = Some m -> group m 2 = EmptyString.
Proof.
  induction s as [|c s IH]; intros prev m; cbn [search_from];
    destruct (match_here text_extract prev _) eqn:Hm.
  - intros [= <-]. exact (match_here_text _ _ _ Hm).
  - discriminate.
  - intros [= <-]. exact (match_here_text _ _ _ Hm).
  - apply IH.
Qed.

(** X3: the text extraction never extracts anything.  Whatever the
    request says, the text that the rule for typing requests puts into its
    type_text call is the default, test data: the lazy second group of the
    extraction pattern stands before parts that can all match nothing or
    anything, so it is always empty. *)
Theorem text_to_input_is_the_default (content : string) :
  text_to_input content = "test data".
Proof.
  unfold text_to_input, search.
  destruct (search_from text_extract None content) as [m|] eqn:Hs; [|reflexivity].
  now rewrite (search_from_text _ _ _ Hs).
Qed.

End ExtractFacts.

(** ** The decision step and its backend *)

Module ProviderContainment.
Import Terms Backends MonadFacts DecisionEngine.

Lemma fallback_independent (patterns : Patterns) (messages : list Message)
      (page_context : string) :
  history_independent (_make_fallback_decision patterns messages page_context).
Proof.
  pose proof DecisionFacts.pattern_rules_independent as Hrules.
  unfold _make_fallback_decision.
  repeat first [ apply Hrules | DecisionFacts.independent_step ].
Qed.

(** X4: a failure of the AI backend never fails a decision.  On a
    conversation that passes the validation, whose first user message
    carries a text and whose last message is not longer than [int] takes
    digits (so that the amount of a scroll is converted), [make_decision]
    returns a decision whatever the backend does; and when there is no
    backend, or its call raises, the decision is the one of the rule-based
    fallback on the same conversation and page. *)
Theorem backend_failure_is_contained (env : Env) (patterns : Patterns)
        (messages : list Message) (page_context : string) (w : World) :
  _validate_messages messages = Ok tt ->
  (exists o, original_user_message messages = Ok o) ->
  convertible (last_text messages) = true ->
  (exists d, fst (make_decision patterns env messages page_context w) = Ok d)
  /\ (backend_down env messages page_context ->
      fst (make_decision patterns env messages page_context w)
      = fst (_make_fallback_decision patterns messages page_context w)).
Proof.
  intros Hv [o Ho] Hlen.
  destruct (WebsiteClaims.validated_last messages Hv) as (m & last & Hm & Hc).
  rewrite (ProviderFacts.last_text_of messages m last Hm Hc) in Hlen.
  apply Nat.leb_le in Hlen.
  pose proof (ProviderFacts.fallback_returns_good checks_on patterns messages
                page_context m last o Hm Hc Hlen Ho) as Hfb.
  pose proof (fallback_independent patterns messages page_context) as Hind.
  unfold make_decision, AnthropicClient.make_decision, AnthropicClient.is_available.
  rewrite Hv. ToolFacts.unfold_monad.
  destruct (ai_available env) eqn:Hai; cbn [negb].
  - match goal with
    | |- context [ai_invoke env ?w0 messages page_context] =>
        destruct (ai_invoke env w0 messages page_context) as [r|e] eqn:Hcall
    end.
    + split; [cbn [fst]; eauto|].
      intros [Hno|Hdown]; [congruence|].
      match type of Hcall with
      | ai_invoke env ?w0 _ _ = _ => destruct (Hdown w0) as [e He]
      end.
      congruence.
    + match goal with
      | |- context [_make_fallback_decision patterns messages page_context ?w0] =>
          destruct (Hfb w0) as (d & dl & Hrun & _); split;
          [exists d; now rewrite Hrun | intros _; apply Hind]
      end.
  - match goal with
    | |- context [_make_fallback_decision patterns messages page_context ?w0] =>
        destruct (Hfb w0) as (d & dl & Hrun & _); split;
        [exists d; now rewrite Hrun | intros _; apply Hind]
    end.
Qed.

Lemma backend_failure_is_contained_witness :
  (exists d,
      fst (make_decision decision_engine failing_backend_env
                         [user_message "scroll down 300 px"] EmptyString []) = Ok d)
  /\ fst (make_decision decision_engine failing_backend_env
                        [user_message "scroll down 300 px"] EmptyString [])
     = fst (_make_fallback_decision decision_engine
                                    [user_message "scroll down 300 px"] EmptyString []).
Proof.
  split.
  - apply (proj1 (backend_failure_is_contained failing_backend_env decision_engine
                    [user_message "scroll down 300 px"] EmptyString []
                    eq_refl (ex_intro _ _ eq_refl) eq_refl)).
  - apply (proj2 (backend_failure_is_contained failing_backend_env decision_engine
                    [user_message "scroll down 300 px"] EmptyString []
                    eq_refl (ex_intro _ _ eq_refl) eq_refl)).
    right. intros w. eexists. reflexivity.
Defined.

End ProviderContainment.

(** ** The REST interface *)

Module ServerFacts.
Import Server Service BrowserAgent.

Lemma store_get_set (s : Store) (k : string) (v : Task) :
  store_get (store_set s k v) k = Some v.
Proof.
  induction s as [|[k' t] s IH]; cbn [store_set store_get].
  - now rewrite String.eqb_refl.
  - destruct (k' =? k) eqn:E; cbn [store_get]; [now rewrite String.eqb_refl|].
    now rewrite E.
Qed.

Lemma store_get_set_other (s : Store) (k k' : string) (v : Task) :
  k <> k' -> store_get (store_set s k v) k' = store_get s k'.
Proof.
  intros Hne. induction s as [|[k0 t] s IH]; cbn [store_set store_get].
  - destruct (k =? k') eqn:E; [apply String.eqb_eq in E; contradiction|reflexivity].
  - destruct (k0 =? k) eqn:E; cbn [store_get].
    + apply String.eqb_eq in E. subst k0.
      destruct (k =? k') eqn:E'; [apply String.eqb_eq in E'; contradiction|reflexivity].
    + destruct (k0 =? k'); [reflexivity|exact IH].
Qed.

Lemma store_values_set_twice (s : Store) (k : string) (v v' : Task) :
  store_get s k = None ->
  store_values (store_set (store_set s k v) k v') = (store_values s ++ [v'])%list.
Proof.
  unfold store_values. induction s as [|[k' t] s IH]; cbn [store_set store_get map app snd].
  - now rewrite String.eqb_refl.
  - destruct (k' =? k) eqn:E; [discriminate|]. intros H.
    cbn [store_set]. rewrite E. cbn [map snd]. now rewrite (IH H).
Qed.

Lemma validate_run_error (initial_task : string) (max_iterations : Z) (e : Exn) :
  validate_run initial_task max_iterations = Raise e -> exn_type e = "ValidationError".
Proof.
  unfold validate_run.
  destruct (negb (PyStr.truthy initial_task)
            || negb (PyStr.truthy (PyStr.strip initial_task))); [now intros [= <-]|].
  destruct ((max_iterations <? 1) || (max_iterations >? 20))%Z;
    [now intros [= <-]|discriminate].
Qed.

(** Slices and pages *)
Lemma firstn_firstn_skipn {A} (a b : nat) (l : list A) :
  (firstn a l ++ firstn b (skipn a l))%list = firstn (a + b) l.
Proof.
  revert l. induction a as [|a IH]; intros l; [reflexivity|].
  destruct l as [|x l]; cbn [firstn skipn Nat.add app].
  - now rewrite firstn_nil.
  - now rewrite IH.
Qed.

Lemma skipn_add {A} (a b : nat) (l : list A) : skipn (a + b) l = skipn b (skipn a l).
Proof.
  revert l. induction a as [|a IH]; intros l; [reflexivity|].
  destruct l as [|x l]; cbn [skipn Nat.add]; [now rewrite skipn_nil|apply IH].
Qed.

Lemma py_slice_page {A} (l : list A) (offset limit : Z) :
  (0 <= offset)%Z -> (0 <= limit)%Z ->
  py_slice l offset (offset + limit) = page_of l offset limit.
Proof.
  intros Ho Hl. unfold py_slice, page_of, clamp.
  replace (offset <? 0)%Z with false by (symmetry; apply Z.ltb_ge; lia).
  replace (offset + limit <? 0)%Z with false by (symmetry; apply Z.ltb_ge; lia).
  destruct (Z_lt_le_dec offset (Z.of_nat (List.length l))) as [Hin|Hout].
  - rewrite (Z.min_l offset) by lia.
    destruct (Z_le_gt_dec (offset + limit) (Z.of_nat (List.length l))) as [Hfit|Hcut].
    + rewrite Z.min_l by lia. f_equal. lia.
    + rewrite Z.min_r by lia.
      rewrite !firstn_all2; [reflexivity| |]; rewrite length_skipn; lia.
  - rewrite !Z.min_r by lia. rewrite Z.sub_diag. cbn [Z.to_nat firstn].
    rewrite (skipn_all2 l) by lia. now rewrite firstn_nil.
Qed.

Lemma page_of_app {A} (l : list A) (offset l1 l2 : Z) :
  (0 <= offset)%Z -> (0 <= l1)%Z -> (0 <= l2)%Z ->
  (page_of l offset l1 ++ page_of l (offset + l1) l2)%list = page_of l offset (l1 + l2).
Proof.
  intros Ho H1 H2. unfold page_of.
  rewrite (Z2Nat.inj_add offset l1), (Z2Nat.inj_add l1 l2) by lia.
  rewrite skipn_add. apply firstn_firstn_skipn.
Qed.

(** X7: the pages of [list_tasks].  For an offset and a limit that are
    not negative the page holds the selected tasks from position [offset]
    on, [limit] of them at most; consecutive pages put together are the one
    larger page, so that paging through the list loses and repeats nothing;
    and the total reported is the number of selected tasks, whatever the
    page. *)
Theorem list_tasks_pages (status_filter : option string) (s : Store)
        (offset l1 l2 : Z) :
  (0 <= offset)%Z -> (0 <= l1)%Z -> (0 <= l2)%Z ->
  tl_tasks (list_tasks status_filter l1 offset s)
  = page_of (selected status_filter s) offset l1
  /\ (tl_tasks (list_tasks status_filter l1 offset s)
      ++ tl_tasks (list_tasks status_filter l2 (offset + l1) s))%list
     = tl_tasks (list_tasks status_filter (l1 + l2) offset s)
  /\ (List.length (tl_tasks (list_tasks status_filter l1 offset s)) <= Z.to_nat l1)%nat
  /\ tl_total (list_tasks status_filter l1 offset s)
     = List.length (selected status_filter s)
  /\ tl_total (list_tasks status_filter l2 (offset + l1) s)
     = tl_total (list_tasks status_filter l1 offset s).
Proof.
  intros Ho H1 H2. unfold list_tasks. cbn [tl_tasks tl_total].
  fold (selected status_filter s).
  rewrite !py_slice_page by lia.
  repeat split.
  - now apply page_of_app.
  - unfold page_of. apply firstn_le_length.
Qed.

Lemma list_tasks_pages_witness :
  tl_tasks (list_tasks (Some "running") 1 0 sample_store)
  = page_of (selected (Some "running") sample_store) 0 1
  /\ (tl_tasks (list_tasks (Some "running") 1 0 sample_store)
      ++ tl_tasks (list_tasks (Some "running") 5 (0 + 1) sample_store))%list
     = tl_tasks (list_tasks (Some "running") (1 + 5) 0 sample_store)
  /\ (List.length (tl_tasks (list_tasks (Some "running") 1 0 sample_store))
      <= Z.to_nat 1)%nat
  /\ tl_total (list_tasks (Some "running") 1 0 sample_store)
     = List.length (selected (Some "running") sample_store)
  /\ tl_total (list_tasks (Some "running") 5 (0 + 1) sample_store)
     = tl_total (list_tasks (Some "running") 1 0 sample_store).
Proof. apply (list_tasks_pages (Some "running") sample_store 0 1 5); lia. Defined.

(** X8: a negative limit is not refused, it is read as a position from
    the end.  From offset 0, the limit [-k] for a positive [k] yields all
    selected tasks but the last [k]. *)
Theorem negative_limit_counts_from_the_end (status_filter : option string) (s : Store)
        (k : Z) :
  (0 < k)%Z ->
  tl_tasks (list_tasks status_filter (- k) 0 s)
  = firstn (List.length (selected status_filter s) - Z.to_nat k)
           (selected status_filter s).
Proof.
  intros Hk. unfold list_tasks. cbn [tl_tasks]. fold (selected status_filter s).
  unfold py_slice, clamp. cbn [Z.add Z.ltb Z.compare].
  replace (- k <? 0)%Z with true by (symmetry; apply Z.ltb_lt; lia).
  rewrite Z.min_l by lia. cbn [Z.to_nat skipn]. f_equal. lia.
Qed.

Lemma negative_limit_counts_from_the_end_witness :
  tl_tasks (list_tasks None (- 1) 0 sample_store)
  = firstn (List.length (selected None sample_store) - Z.to_nat 1)
           (selected None sample_store).
Proof. apply (negative_limit_counts_from_the_end None sample_store 1). lia. Defined.

Section Handlers.
Variable env : Env.
Variable cfg : AgentConfig.
Variable new_id : World -> string.
Variable now : World -> nat -> Time.

(** The job always writes its outcome into the record when there is one:
    completed when the workflow returned, failed when it refused the
    arguments. *)
Lemma execute_outcome (job : Job) (s : Store) (w : World) (t : Task) :
  store_get s (job_task_id job) = Some t ->
  exists t' w',
    execute_task_background env cfg now job s w
    = (Ok tt, store_set s (job_task_id job) t', w')
    /\ error t' = match validate_run (job_task_description job) (job_max_iterations job) with
                  | Ok _ => error t
                  | Raise e => Some ("BrowserFreak error: " ++ Py.exn_str e)
                  end
    /\ status t' = match validate_run (job_task_description job) (job_max_iterations job) with
                   | Ok _ => "completed"
                   | Raise _ => "failed"
                   end
    /\ (result t' = None -> result t = None
                            /\ exists e, validate_run (job_task_description job)
                                                      (job_max_iterations job) = Raise e).
Proof.
  intros Hget. unfold execute_task_background, run_agent_workflow.
  destruct (validate_run (job_task_description job) (job_max_iterations job))
    as [[]|e] eqn:Hv.
  - destruct (RunFacts.run_structure env (core_settings cfg) ainvoke
                (job_task_description job) (job_max_iterations job)
                (job_use_real_browser job)
                (w ++ [EvLog INFO ("Starting background execution for task "
                                     ++ job_task_id job)])%list Hv)
      as (ctx & flag & w1 & res & w2 & w3 & _ & _ & _ & Hrun).
    rewrite Hrun, Hget. eexists _, _.
    split; [reflexivity|]. split; [reflexivity|]. split; [reflexivity|].
    intros H. discriminate H.
  - rewrite (WorkflowClaims.run_rejected env (core_settings cfg) ainvoke _ _ _ _ e Hv).
    unfold is_browserfreak_error. rewrite (validate_run_error _ _ _ Hv).
    change (Tools.mem "ValidationError" browserfreak_errors) with true. cbv iota.
    unfold record_failure. rewrite Hget. eexists _, _.
    split; [reflexivity|]. split; [reflexivity|]. split; [reflexivity|].
    intros H. split; [exact H|eauto].
Qed.


(** X5: what becomes of an accepted task.  For every request with a task
    that is not blank and a budget that passed the validator of the request,
    [create_task] stores a running record and queues a job; and when the job
    has run, on whatever the store and the history have become, as long as
    the record is still there, the record is completed if the request named
    its budget, whatever the workflow did with the task.  It is failed only
    for a request without a budget when the configured one is outside
    1..20. *)
Theorem accepted_task_outcome (task_request : TaskRequest) (s : Store) (w : World) :
  PyStr.strip (task task_request) <> EmptyString ->
  validate_max_iterations (max_iterations task_request)
  = Ok (max_iterations task_request) ->
  exists job s1 w1,
    create_task cfg new_id now task_request s w
    = (Served (mkTaskResponse (new_id w) "running" "Task created and execution started"),
       Some job, s1, w1)
    /\ (exists st, get_task_status (new_id w) s1 = Served st /\ ts_status st = "running")
    /\ forall s2 t w2,
         store_get s2 (new_id w) = Some t ->
         exists s3 w3 st,
           execute_task_background env cfg now job s2 w2 = (Ok tt, s3, w3)
           /\ get_task_status (new_id w) s3 = Served st
           /\ ts_status st = match max_iterations task_request with
                             | Some _ => "completed"
                             | None => final_status (cfg_max_iterations cfg)
                             end.
Proof.
  intros Hnb Hval. unfold create_task.
  rewrite (PyStrFacts.truthy_true _ Hnb). cbn [negb].
  rewrite !store_get_set. eexists _, _, _. split; [reflexivity|]. split.
  - unfold get_task_status. rewrite store_get_set. eexists. split; reflexivity.
  - intros s2 t w2 Hget.
    match goal with
    | |- context [execute_task_background env cfg now ?job s2 w2] =>
        destruct (execute_outcome job s2 w2 t Hget) as (t' & w3 & Hrun & _ & Hst & _)
    end.
    rewrite Hrun. eexists _, _, _. split; [reflexivity|].
    unfold get_task_status. cbn [job_task_id]. rewrite store_get_set.
    split; [reflexivity|]. cbn [status_of_task ts_status]. rewrite Hst.
    cbn [job_task_description job_max_iterations].
    rewrite (WorkflowClaims.validate_run_range _ _ Hnb).
    unfold validate_max_iterations in Hval. unfold final_status.
    destruct (max_iterations task_request) as [n|].
    + destruct ((n <? 1) || (n >? 20))%Z; [discriminate|reflexivity].
    + now destruct ((cfg_max_iterations cfg <? 1) || (cfg_max_iterations cfg >? 20))%Z.
Qed.

(** X6: a cancellation does not stop the job, and the job does not see
    it.  Cancelling a task that is not completed marks its record cancelled;
    when the job of the task then ends, the record is completed, and still
    carries the error text of the cancellation. *)
Theorem cancellation_is_overwritten (job : Job) (s : Store) (w w' : World) (t : Task) :
  store_get s (job_task_id job) = Some t ->
  (status t =? "completed") = false ->
  validate_run (job_task_description job) (job_max_iterations job) = Ok tt ->
  exists s1 w1 s2 w2 st1 st2,
    cancel_task now (job_task_id job) s w = (Served "Task cancelled successfully", s1, w1)
    /\ get_task_status (job_task_id job) s1 = Served st1
    /\ ts_status st1 = "cancelled"
    /\ execute_task_background env cfg now job s1 w' = (Ok tt, s2, w2)
    /\ get_task_status (job_task_id job) s2 = Served st2
    /\ ts_status st2 = "completed"
    /\ ts_error st2 = Some "Task cancelled by user".
Proof.
  intros Hget Hst Hv. unfold cancel_task. rewrite Hget, Hst.
  match goal with
  | |- context [store_set s (job_task_id job) ?t1] =>
      destruct (execute_outcome job (store_set s (job_task_id job) t1) w' t1
                  (store_get_set _ _ _)) as (t' & w2 & Hrun & Herr & Hstat & _)
  end.
  rewrite Hv in Herr, Hstat.
  eexists _, _, _, _, _, _. split; [reflexivity|].
  unfold get_task_status. rewrite store_get_set.
  split; [reflexivity|]. split; [reflexivity|].
  rewrite Hrun. split; [reflexivity|]. rewrite store_get_set.
  split; [reflexivity|]. cbn [status_of_task ts_status ts_error].
  rewrite Hstat, Herr. split; reflexivity.
Qed.
End Handlers.


Lemma accepted_task_outcome_witness :
  exists job s1 w1,
    create_task default_agent_config sample_id sample_clock
                (mkTaskRequest "Click the submit button" None (Some 3%Z) None) [] []
    = (Served (mkTaskResponse "task-0" "running" "Task created and execution started"),
       Some job, s1, w1)
    /\ (exists st, get_task_status "task-0" s1 = Served st /\ ts_status st = "running")
    /\ forall s2 t w2,
         store_get s2 "task-0" = Some t ->
         exists s3 w3 st,
           execute_task_background quiet_env default_agent_config sample_clock
                                   job s2 w2 = (Ok tt, s3, w3)
           /\ get_task_status "task-0" s3 = Served st
           /\ ts_status st = "completed".
Proof.
  apply (accepted_task_outcome quiet_env default_agent_config sample_id sample_clock
           (mkTaskRequest "Click the submit button" None (Some 3%Z) None) [] []).
  - discriminate.
  - reflexivity.
Defined.

Lemma cancellation_is_overwritten_witness :
  exists s1 w1 s2 w2 st1 st2,
    cancel_task sample_clock "task-0"
                [("task-0", mkTask "task-0" "running" 0 None "Click the submit button"
                                   [] None None)] []
    = (Served "Task cancelled successfully", s1, w1)
    /\ get_task_status "task-0" s1 = Served st1
    /\ ts_status st1 = "cancelled"
    /\ execute_task_background quiet_env default_agent_config sample_clock
         (mkJob "task-0" "Click the submit button" false 3 true) s1 [] = (Ok tt, s2, w2)
    /\ get_task_status "task-0" s2 = Served st2
    /\ ts_status st2 = "completed"
    /\ ts_error st2 = Some "Task cancelled by user".
Proof.
  apply (cancellation_is_overwritten quiet_env default_agent_config sample_clock
           (mkJob "task-0" "Click the submit button" false 3 true)
           [("task-0", mkTask "task-0" "running" 0 None "Click the submit button"
                              [] None None)] [] []
           (mkTask "task-0" "running" 0 None "Click the submit button" [] None None)).
  - reflexivity.
  - reflexivity.
  - reflexivity.
Defined.

End ServerFacts.

(** ** The conversation of a run *)

Module ConversationFacts.
Import Terms Conversation EffectFacts NodeFacts BrowserAgent.

Lemma grows_refl (l : list Message) : grows l l.
Proof. exists []. now rewrite app_nil_r. Qed.

Lemma grows_trans (a b c : list Message) : grows a b -> grows b c -> grows a c.
Proof.
  intros (d1 & -> & H1) (d2 & -> & H2). exists (d1 ++ d2)%list.
  now rewrite app_assoc, forallb_app, H1, H2.
Qed.

Lemma grows_one (l : list Message) (m : Message) :
  is_reply m = true -> grows l (l ++ [m])%list.
Proof. intros H. exists [m]. simpl. now rewrite H. Qed.

Section Nodes.
Variable env : Env.
Variable settings : Settings.

Lemma tool_wrapper_grows (st : AgentState) :
  behaves (fun st' => grows (messages st) (messages st')) (tool_wrapper env st).
Proof.
  unfold tool_wrapper, tool_node.
  eapply (behaves_bind anything); [apply behaves_log | intros _ _].
  eapply (behaves_bind anything); [now apply behaves_lift | intros m _].
  destruct (tool_calls m) as [l|]; [|apply behaves_ret, grows_refl].
  eapply (behaves_bind anything); [now apply behaves_lift | intros tc _].
  eapply (behaves_bind anything); [apply behaves_log | intros _ _].
  eapply (behaves_bind anything);
    [apply returns_behaves, execute_tool_quiet | intros result _].
  eapply (behaves_bind (fun st' => st' = st)); [now apply behaves_ret | intros st' ->].
  eapply (behaves_bind anything).
  - destruct (Tools.result_truthy result); apply behaves_log.
  - intros _ _. apply behaves_ret. now apply grows_one.
Qed.

(** Every node leaves the conversation as it was or with a reply
    appended. *)
Lemma workflow_nodes_grow (name : string) (node : AgentState -> M AgentState) :
  find_node name (nodes (workflow_graph env settings)) = Some node ->
  forall st, behaves (fun st' => grows (messages st) (messages st')) (node st).
Proof.
  apply (BrowserUse.workflow_nodes env settings
           (fun node => forall st,
                behaves (fun st' => grows (messages st) (messages st')) (node st)));
    intros st.
  - apply returns_behaves.
    eapply returns_weaken; [|apply security_check_node_returns].
    intros st' (_ & -> & _). apply grows_refl.
  - eapply behaves_weaken; [|apply agent_node_behaves].
    intros st' [[tc ->]|(c & -> & _)]; now apply grows_one.
  - apply tool_wrapper_grows.
  - apply returns_behaves.
    eapply returns_weaken; [|apply human_approval_node_returns].
    intros st' ->. apply grows_refl.
Qed.

(** A run of the graph: the conversation the caller sees afterwards, and
    the one of the final state, are the one it started with, grown. *)
Lemma run_from_grows (limit : Z) (fuel : nat) :
  forall (name : string) (st : AgentState) (w : World),
    let out := fst (run_from (workflow_graph env settings) limit fuel name st w) in
    grows (messages st) (seen_messages out)
    /\ forall fs, final out = Ok fs -> grows (messages st) (messages fs).
Proof.
  induction fuel as [|fuel IH]; intros name st w; cbn [run_from].
  - destruct (name =? END);
      [|destruct (Tools.mem name (interrupt_before (workflow_graph env settings)))];
      cbn [fst seen_messages final]; (split; [apply grows_refl|]);
      try (intros fs [= <-]; apply grows_refl); discriminate.
  - destruct (name =? END);
      [cbn [fst seen_messages final]; split;
       [apply grows_refl|intros fs [= <-]; apply grows_refl]|].
    destruct (Tools.mem name (interrupt_before (workflow_graph env settings)));
      [cbn [fst seen_messages final]; split;
       [apply grows_refl|intros fs [= <-]; apply grows_refl]|].
    destruct (find_node name (nodes (workflow_graph env settings))) as [node|] eqn:Hfind;
      [|cbn [fst seen_messages final]; split; [apply grows_refl|discriminate]].
    unfold bind, emit.
    destruct (workflow_nodes_grow name node Hfind st (w ++ [EvNode name])%list)
      as (d & _ & _ & Hgrow).
    destruct (node st (w ++ [EvNode name])%list) as [[st'|e] w1]; cbn [fst] in Hgrow.
    + specialize (Hgrow st' eq_refl).
      destruct (edge (workflow_graph env settings) name st') as [next|e].
      * destruct (IH next st' w1) as [H1 H2]. split.
        -- exact (grows_trans _ _ _ Hgrow H1).
        -- intros fs Hfs. exact (grows_trans _ _ _ Hgrow (H2 fs Hfs)).
      * cbn [fst seen_messages final]. split; [exact Hgrow|discriminate].
    + cbn [fst seen_messages final]. split; [apply grows_refl|discriminate].
Qed.

Lemma workflow_loop_grows (max_iterations : Z) (fuel : nat) :
  forall (attempts : nat) (state : AgentState) (w : World),
    match fst (workflow_loop env settings ainvoke fuel max_iterations attempts state w)
    with
    | (Ok fs, _) => grows (messages state) (messages fs)
    | (Raise _, state') => grows (messages state) (messages state')
    end.
Proof.
  induction fuel as [|fuel IH]; intros attempts state w; cbn [workflow_loop];
    [apply grows_refl|].
  destruct (attempts <? max_workflow_attempts)%nat; [|apply grows_refl].
  unfold workflow_attempt, create_workflow. ToolFacts.unfold_monad.
  match goal with
  | |- context [ainvoke _ state max_iterations ?w0] =>
      pose proof (run_from_grows max_iterations (Z.to_nat max_iterations)
                    (entry_point (workflow_graph env settings)) state w0) as [H1 H2];
      fold (ainvoke (workflow_graph env settings) state max_iterations w0) in H1, H2;
      destruct (ainvoke (workflow_graph env settings) state max_iterations w0)
        as [out w1]
  end.
  cbn [fst] in H1, H2.
  destruct (final out) as [fs|e].
  - cbn [fst]. now apply H2.
  - destruct (max_workflow_attempts <=? attempts + 1)%nat; [exact H1|].
    match goal with
    | |- context [workflow_loop env settings ainvoke fuel max_iterations ?a ?s ?w0] =>
        specialize (IH a s w0);
        destruct (workflow_loop env settings ainvoke fuel max_iterations a s w0)
          as [[[fs|e'] st'] w2]
    end; cbn [fst] in *; exact (grows_trans _ _ _ H1 IH).
Qed.
End Nodes.

(** X10: the conversation a run returns.  Whenever [run_agent_workflow]
    returns a result, the messages of the result are the task of the user,
    stripped, followed only by messages of the agent and of the tools: the
    first message is never lost or altered, and nothing but replies is
    appended, also when the workflow failed and the result carries the
    error. *)
Theorem conversation_starts_with_the_task (env : Env) (settings : Settings)
        (initial_task : string) (max_iterations : Z) (use_real_browser : bool)
        (w : World) (res : RunResult) :
  fst (run_agent_workflow env settings initial_task max_iterations use_real_browser w)
  = Ok res ->
  exists replies,
    r_messages res = user_message (PyStr.strip initial_task) :: replies
    /\ forallb is_reply replies = true.
Proof.
  unfold run_agent_workflow, run_agent_workflow_on.
  unfold bind at 1. rewrite MonadFacts.log_run. unfold bind at 1, lift.
  destruct (validate_run initial_task max_iterations) as [[]|e]; [|discriminate].
  unfold bind.
  destruct (acquire env use_real_browser _) as [[[ctx flag]|e] w1]; [|discriminate].
  cbn [fst snd]. unfold try_finally, workflow_body.
  pose proof (workflow_loop_grows env settings max_iterations max_workflow_attempts 0
                (initial_state initial_task) w1) as Hgrow.
  destruct (workflow_loop env settings ainvoke max_workflow_attempts max_iterations 0
                          (initial_state initial_task) w1) as [[[fs|e] st'] w2];
    cbn [fst] in Hgrow;
    destruct (cleanup env ctx _) as [[[]|e'] w3]; cbn [fst]; try discriminate;
    intros [= <-]; destruct Hgrow as (d & Hd & Hr); exists d;
    cbn [r_messages result_of_state]; rewrite Hd; auto.
Qed.

Lemma conversation_starts_with_the_task_witness :
  exists replies,
    r_messages
      (mkResult
         [user_message "click the submit button";
          assistant_tool_calls
            [mkToolCall "click_element" [("selector", VStr "button")]];
          tool_message "1" "Tool click_element executed with result: True"]
         "<html><body><button>Submit</button></body></html>" EmptyString true None)
    = user_message (PyStr.strip "  click the submit button ") :: replies
    /\ forallb is_reply replies = true.
Proof.
  apply (conversation_starts_with_the_task quiet_env checks_off
           "  click the submit button " 5 false []).
  vm_compute. reflexivity.
Defined.

End ConversationFacts.

(** ** The rule-based provider and the tool executor *)

Module ProviderTools.
Import Terms Conversation EffectFacts DecisionEngine.

Section Calls.
Variable env : Env.

Lemma mock_click (selector : string) :
  runs_in_mock env (mkToolCall "click_element" [("selector", VStr selector)]).
Proof. split; [reflexivity|]. intros w. eexists. split; reflexivity. Qed.

Lemma mock_type (selector text : string) :
  runs_in_mock env (mkToolCall "type_text"
                               [("selector", VStr selector); ("text", VStr text)]).
Proof. split; [reflexivity|]. intros w. eexists. split; reflexivity. Qed.

Lemma mock_scroll (direction : string) (amount : Z) :
  runs_in_mock env (mkToolCall "scroll_page"
                               [("direction", VStr direction); ("amount", VInt amount)]).
Proof. split; [reflexivity|]. intros w. eexists. split; reflexivity. Qed.

Lemma mock_page_state : runs_in_mock env (mkToolCall "get_page_state" []).
Proof. split; [reflexivity|]. intros w. eexists. split; reflexivity. Qed.

Lemma mock_navigate (website_name : string) :
  runs_in_mock env (mkToolCall "navigate_to_website"
                               [("website_name", VStr website_name)]).
Proof. split; [reflexivity|]. intros w. eexists. split; reflexivity. Qed.

Ltac runnable_step :=
  match goal with
  | |- behaves _ (bind (log _ _) _) =>
      eapply (behaves_bind anything); [apply behaves_log | intros _ _]
  | |- behaves _ (bind (lift _) _) =>
      eapply (behaves_bind anything); [now apply behaves_lift | intros ? _]
  | |- behaves _ (ret (Content _)) => now apply behaves_ret
  | |- behaves _ (ret (navigate_to_website_call _)) =>
      apply behaves_ret; eexists; split; [reflexivity | apply mock_navigate]
  | |- behaves _ (ret (tool_call_decision "click_element" _)) =>
      apply behaves_ret; eexists; split; [reflexivity | apply mock_click]
  | |- behaves _ (ret (tool_call_decision "type_text" _)) =>
      apply behaves_ret; eexists; split; [reflexivity | apply mock_type]
  | |- behaves _ (ret (tool_call_decision "scroll_page" _)) =>
      apply behaves_ret; eexists; split; [reflexivity | apply mock_scroll]
  | |- behaves _ (ret (tool_call_decision "get_page_state" _)) =>
      apply behaves_ret; eexists; split; [reflexivity | apply mock_page_state]
  | |- behaves _ (if ?b then _ else _) => destruct b
  | |- behaves _ (match ?x with _ => _ end) => destruct x
  end.

Lemma fallback_runnable (patterns : Patterns) (messages : list Message)
      (page_context : string) :
  behaves (runnable env) (_make_fallback_decision patterns messages page_context).
Proof.
  unfold _make_fallback_decision, pattern_rules, after_rules.
  repeat runnable_step.
Qed.

(** X11: the rule-based provider only proposes calls the executor can
    run.  Whatever the conversation and the page, a decision of the fallback
    that is not a text is a single tool call, of a tool [execute_tool] knows
    and with arguments the tool accepts: executed without a browser, as the
    workflow executes it, it succeeds. *)
Theorem fallback_calls_run (patterns : Patterns) (messages : list Message)
        (page_context : string) (w : World) (l : list ToolCall) :
  fst (_make_fallback_decision patterns messages page_context w) = Ok (ToolCalls l) ->
  exists tc, l = [tc] /\ runs_in_mock env tc.
Proof.
  intros H. destruct (fallback_runnable patterns messages page_context w)
    as (d & _ & _ & Hp).
  exact (Hp _ H).
Qed.
End Calls.

Lemma fallback_calls_run_witness :
  exists tc,
    [mkToolCall "scroll_page" [("direction", VStr "up"); ("amount", VInt 300)]] = [tc]
    /\ runs_in_mock quiet_env tc.
Proof.
  apply (fallback_calls_run quiet_env decision_engine
           [user_message "Scroll up by 300 pixels"] EmptyString []).
  reflexivity.
Defined.

End ProviderTools.

(** ** Calls whose arguments do not fit *)

Module ArgumentFacts.
Import Conversation Effects Tools.

(** X12: a call with arguments that do not fit never reaches the
    browser.  When [tool_args] holds a key the wrapper of the tool has no
    parameter for, or lacks one it requires, [execute_tool] returns False,
    with or without a browser context, and all it does is to log. *)
Theorem misfit_never_reaches_the_browser (env : Env) (tool_name : string)
        (tool_args : Dict) (context : option BrowserContext) (w : World) :
  misfit tool_name tool_args ->
  exists d,
    execute_tool env tool_name tool_args context w = (Ok (RBool false), (w ++ d)%list)
    /\ forallb is_log d = true.
Proof.
  intros (fname & required & optional & e & Hsig & Hbind).
  unfold signature in Hsig. unfold execute_tool.
  destruct (tool_name =? "click_element");
    [|destruct (tool_name =? "type_text");
      [|destruct (tool_name =? "get_page_state");
        [discriminate|destruct (tool_name =? "scroll_page");
          [|destruct (tool_name =? "navigate_to_website"); [|discriminate]]]]].
  all: injection Hsig as <- <- <-; ToolFacts.unfold_monad; rewrite Hbind;
    eexists [_; _]; rewrite <- app_assoc; split; reflexivity.
Qed.

Lemma misfit_never_reaches_the_browser_witness :
  exists d,
    execute_tool quiet_env "click_element"
                 [("selector", VStr "button"); ("force", VBool true)] (Some 0%nat) []
    = (Ok (RBool false), ([] ++ d)%list)
    /\ forallb is_log d = true.
Proof.
  apply (misfit_never_reaches_the_browser quiet_env "click_element"
           [("selector", VStr "button"); ("force", VBool true)] (Some 0%nat) []).
  exists "click_element_wrapper", ["selector"], [], 
    (TypeError "click_element_wrapper() got an unexpected keyword argument 'force'").
  split; reflexivity.
Defined.

End ArgumentFacts.

(** ** Runs without an AI backend *)

Module RuleBasedRuns.
Import Terms BrowserAgent.

Section Run.
Variable env : Env.
Variable settings : Settings.

Lemma rule_based_walk (initial_task : string) (limit : Z) (w : World) :
  ai_available env = false ->
  PyStr.strip initial_task <> EmptyString ->
  convertible initial_task = true ->
  (4 <= limit)%Z ->
  walk_done (ainvoke (workflow_graph env settings) (initial_state initial_task) limit w).
Proof.
  intros Hai Hnb Hlen Hlim.
  apply (proj2 (GraphFacts.walk_from_entry env settings limit (Z.to_nat limit)
                  (initial_state initial_task) w)); [lia|].
  intros st1 Hm.
  destruct (WorkflowClaims.initial_state_validated initial_task st1 Hnb Hm) as [Hv Ho].
  apply ProviderFacts.agent_node_rule_based; auto.
  rewrite Hm. now apply WorkflowClaims.convertible_strip.
Qed.

Lemma valid_budget (initial_task : string) (max_iterations : Z) :
  PyStr.strip initial_task <> EmptyString ->
  (1 <= max_iterations <= 20)%Z ->
  validate_run initial_task max_iterations = Ok tt.
Proof.
  intros Hnb Hm. rewrite (WorkflowClaims.validate_run_range _ _ Hnb).
  replace ((max_iterations <? 1) || (max_iterations >? 20))%Z with false;
    [reflexivity|].
  symmetry. apply orb_false_iff. split; [apply Z.ltb_ge; lia|].
  rewrite Z.gtb_ltb. apply Z.ltb_ge. lia.
Qed.

(** Without an AI backend the workflow loop is done on its first pass. *)
Lemma rule_based_body (initial_task : string) (max_iterations : Z)
      (use_real_browser : bool) (browser_context : option BrowserContext)
      (w w' : World) (res : RunResult) :
  ai_available env = false ->
  PyStr.strip initial_task <> EmptyString ->
  convertible initial_task = true ->
  (4 <= max_iterations)%Z ->
  workflow_body env settings ainvoke initial_task max_iterations use_real_browser
                browser_context (initial_state initial_task) w = (Ok res, w') ->
  r_task_complete res = true /\ r_error res = None.
Proof.
  intros Hai Hnb Hlen Hm Hbody.
  unfold workflow_body, max_workflow_attempts in Hbody.
  cbn [workflow_loop] in Hbody.
  change (0 <? 2)%nat with true in Hbody. cbv iota in Hbody.
  unfold workflow_attempt, create_workflow in Hbody.
  ToolFacts.unfold_monad.
  match type of Hbody with
  | context [ainvoke _ _ max_iterations ?w0] =>
      destruct (rule_based_walk initial_task max_iterations w0 Hai Hnb Hlen Hm)
        as (fs & Hfin & Hdone);
      destruct (ainvoke (workflow_graph env settings) (initial_state initial_task)
                        max_iterations w0) as [out w4]
  end.
  cbn [fst] in Hfin. rewrite Hfin in Hbody. injection Hbody as <- _.
  split; [exact Hdone|reflexivity].
Qed.

(** X13: without an AI backend the completion flag says nothing about the
    task.  The executor of the graph spends a step on each of the three
    nodes and one on finding the run at its end.  For every task that is not
    blank and not longer than [int] takes digits, and every budget from 4 to
    20, whatever the task asks for and whatever the browser does, the run
    returns on its first pass over the graph with [task_complete] set and
    without error details: also a task that no rule recognises, for which
    nothing was done, comes back as complete. *)
Theorem rule_based_run_completes (initial_task : string) (max_iterations : Z)
        (use_real_browser : bool) (w : World) :
  ai_available env = false ->
  PyStr.strip initial_task <> EmptyString ->
  convertible initial_task = true ->
  (4 <= max_iterations <= 20)%Z ->
  exists res w',
    run_agent_workflow env settings initial_task max_iterations use_real_browser w
    = (Ok res, w')
    /\ r_task_complete res = true
    /\ r_error res = None.
Proof.
  intros Hai Hnb Hlen Hm.
  destruct (RunFacts.run_structure env settings ainvoke initial_task max_iterations
              use_real_browser w
              (valid_budget initial_task max_iterations Hnb ltac:(lia)))
    as (ctx & flag & w1 & res & w2 & w3 & _ & Hbody & _ & Hrun).
  exists res, w3. split; [exact Hrun|].
  apply (rule_based_body initial_task max_iterations flag ctx w1 w2 res Hai Hnb Hlen);
    [lia|exact Hbody].
Qed.
End Run.

Lemma rule_based_run_completes_witness :
  exists res w',
    run_agent_workflow quiet_env checks_on "do something vague" 4 true []
    = (Ok res, w')
    /\ r_task_complete res = true
    /\ r_error res = None.
Proof.
  apply (rule_based_run_completes quiet_env checks_on "do something vague" 4 true []).
  - reflexivity.
  - discriminate.
  - reflexivity.
  - lia.
Defined.

(** A task that calls a tool needs the fourth step: with a budget of three
    the three nodes run, the executor is out of steps before it finds the
    run at its end, on both passes, and the run comes back incomplete. *)
Example three_steps_do_not_end_a_tool_call :
  let run := run_agent_workflow quiet_env checks_on
               "Navigate to amazon and find a chair" 3 false [] in
  completed (fst run) = false
  /\ error_type (fst run) = Some (VStr "GraphRecursionError")
  /\ node_trace (snd run)
     = ["security_check"; "agent"; "tool"; "security_check"; "agent"; "tool"].
Proof. vm_compute. repeat split. Qed.

(** The one task the rule-based provider fails on: an amount of more digits
    than [int] converts.  The agent node raises [ValueError] on both passes
    and the run comes back incomplete. *)
Example long_amount_fails_the_run :
  let run := run_agent_workflow quiet_env checks_on long_scroll 5 false [] in
  convertible long_scroll = false
  /\ completed (fst run) = false
  /\ error_type (fst run) = Some (VStr "ValueError")
  /\ node_trace (snd run) = ["security_check"; "agent"; "security_check"; "agent"].
Proof. vm_compute. repeat split. Qed.

End RuleBasedRuns.

(** ** The operations on a page *)

Module PageFacts.
Import BrowserManager PageTerms.

Lemma attempts_made_app (a b : Trail) :
  attempts_made (a ++ b)%list = (attempts_made a + attempts_made b)%nat.
Proof. unfold attempts_made. now rewrite filter_app, length_app. Qed.

Lemma paused_app (a b : Trail) : paused (a ++ b)%list = (paused a + paused b)%nat.
Proof.
  induction a as [|ev a IH]; [reflexivity|].
  destruct ev; cbn [app paused]; rewrite IH; lia.
Qed.

Lemma click_failure_typed (selector : string) (max_retries : Z) (e : Exn) :
  is_browser_error (click_failure selector max_retries e) = true.
Proof.
  unfold click_failure.
  destruct (PyStr.contains "Timeout" _); [reflexivity|].
  now destruct (PyStr.contains "not found" _).
Qed.

Section OnPage.
Variable page : Page.

(** An attempt clicks or raises, and is one attempt. *)
Lemma click_attempt_cases (selector : string) (max_retries : Z) (attempt : nat)
      (t : Trail) :
  exists d,
    (click_attempt page selector max_retries attempt t = (Ok true, (t ++ d)%list)
     \/ exists e,
          click_attempt page selector max_retries attempt t
          = (Raise e, (t ++ d)%list))
    /\ attempts_made d = 1%nat /\ paused d = 0%nat.
Proof.
  unfold click_attempt, pbind, plog, pemit, pcall, pret.
  destruct (wait_for_selector page _ selector) as [[]|e].
  - destruct (wait_for_function page _ (stable_script selector)) as [[]|e].
    + destruct (click page _ selector) as [[]|e].
      * eexists [_; _; _; _; _]. rewrite <- !app_assoc.
        split; [left; reflexivity|]. split; reflexivity.
      * eexists [_; _; _; _]. rewrite <- !app_assoc.
        split; [right; eexists; reflexivity|]. split; reflexivity.
    + eexists [_; _; _]. rewrite <- !app_assoc.
      split; [right; eexists; reflexivity|]. split; reflexivity.
  - eexists [_; _]. rewrite <- !app_assoc.
    split; [right; eexists; reflexivity|]. split; reflexivity.
Qed.

(** A pass of the loop *)
Lemma click_loop_cons (selector : string) (max_retries : Z) (attempt : nat)
      (rest : list nat) (t : Trail) :
  click_loop page selector max_retries (attempt :: rest) t
  = match click_attempt page selector max_retries attempt t with
    | (Ok b, t') => (Ok b, t')
    | (Raise e, t') =>
        let t' := (t' ++ [PgLog WARNING
                            ("Click attempt " ++ PyStr.of_nat (attempt + 1)
                               ++ " failed for '" ++ selector ++ "': "
                               ++ Py.exn_str e)])%list in
        if (Z.of_nat attempt =? max_retries - 1)%Z then
          (Raise (click_failure selector max_retries e),
           (t' ++ [PgLog ERROR ("Failed to click element '" ++ selector ++ "' after "
                                  ++ PyStr.of_Z max_retries ++ " attempts: "
                                  ++ Py.exn_str e)])%list)
        else
          click_loop page selector max_retries rest
                     (t' ++ [PgSleep (500 * 2 ^ attempt)])%list
    end.
Proof.
  cbn [click_loop]. unfold pbind, ptry, plog, psleep, pemit, pret, praise.
  destruct (click_attempt page selector max_retries attempt t) as [[b|e] t'];
    [reflexivity|].
  now destruct (Z.of_nat attempt =? max_retries - 1)%Z.
Qed.

(** The loop over the attempts [a], ..., [a + k - 1] that end at
    [max_retries]: it clicks within [k] attempts, or raises after all [k]
    having paused between them, twice as long each time. *)
Lemma click_loop_spec (selector : string) (max_retries : Z) (k : nat) :
  forall (a : nat) (t : Trail),
    (1 <= k)%nat ->
    Z.of_nat (a + k) = max_retries ->
    exists d,
      snd (click_loop page selector max_retries (seq a k) t) = (t ++ d)%list
      /\ ((fst (click_loop page selector max_retries (seq a k) t) = Ok true
           /\ (attempts_made d <= k)%nat)
          \/ (exists e,
                 fst (click_loop page selector max_retries (seq a k) t) = Raise e
                 /\ is_browser_error e = true
                 /\ attempts_made d = k
                 /\ (paused d + 500 * 2 ^ a = 500 * 2 ^ (a + k - 1))%nat)).
Proof.
  induction k as [|k IH]; intros a t Hk Hn; [lia|].
  cbn [seq]. rewrite click_loop_cons.
  destruct (click_attempt_cases selector max_retries a t)
    as (d1 & [Hok|[e Hfail]] & Hd1 & Hp1).
  - rewrite Hok. cbn [fst snd]. exists d1. split; [reflexivity|].
    left. split; [reflexivity|lia].
  - rewrite Hfail. cbv zeta.
    destruct (Z.of_nat a =? max_retries - 1)%Z eqn:Hlast.
    + apply Z.eqb_eq in Hlast. assert (k = 0%nat) by lia. subst k.
      cbn [fst snd].
      eexists (d1 ++ [_; _])%list. rewrite <- !app_assoc.
      split; [reflexivity|]. right. eexists. split; [reflexivity|].
      split; [apply click_failure_typed|].
      rewrite attempts_made_app, paused_app, Hd1, Hp1.
      split; [reflexivity|]. replace (a + 1 - 1)%nat with a by lia. reflexivity.
    + apply Z.eqb_neq in Hlast. assert (Hk' : (1 <= k)%nat) by lia.
      match goal with
      | |- context [click_loop page selector max_retries (seq (S a) k) ?t0] =>
          destruct (IH (S a) t0 Hk' ltac:(lia)) as (d2 & Hs2 & Hcases)
      end.
      eexists (d1 ++ _ :: _ :: d2)%list.
      split; [rewrite Hs2, <- !app_assoc; reflexivity|].
      destruct Hcases as [[Hok Hle]|(e' & Hr & Ht & Hcount & Hpause)].
      * left. split; [exact Hok|].
        rewrite attempts_made_app, Hd1. unfold attempts_made in *.
        cbn [filter is_attempt]. lia.
      * right. exists e'. split; [exact Hr|]. split; [exact Ht|].
        rewrite attempts_made_app, paused_app, Hd1, Hp1.
        unfold attempts_made in *. cbn [filter is_attempt paused].
        split; [lia|].
        replace (S a + k - 1)%nat with (a + S k - 1)%nat in Hpause by lia.
        cbn [Nat.pow] in Hpause. lia.
Qed.

(** The text of a failure decides the error, the time limit first. *)
Lemma type_failure_typed (selector : string) (e : Exn) :
  is_browser_error (type_failure selector e) = true.
Proof.
  unfold type_failure.
  destruct (PyStr.contains "Timeout" _); [reflexivity|].
  now destruct (PyStr.contains "not found" _).
Qed.

(** X14: what [click_element] and [type_text] come to.  With a positive
    [max_retries], [click_element] never returns False: it returns True,
    after [max_retries] attempts at most, or it raises one of the three
    errors of the module, after exactly [max_retries] attempts and pauses of
    500 ms, 1000 ms, ... between them.  It returns False only when
    [max_retries] is not positive, and then without touching the page.
    [type_text] makes one attempt and never returns False either: it returns
    True or raises one of the three errors. *)
Theorem click_element_outcomes (selector text : string) (max_retries : Z) (t : Trail) :
  (exists d,
      snd (click_element page selector max_retries t) = (t ++ d)%list
      /\ match fst (click_element page selector max_retries t) with
         | Ok true => (0 < max_retries)%Z
                      /\ (attempts_made d <= Z.to_nat max_retries)%nat
         | Ok false => (max_retries <= 0)%Z /\ d = []
         | Raise e => (0 < max_retries)%Z
                      /\ is_browser_error e = true
                      /\ attempts_made d = Z.to_nat max_retries
                      /\ paused d = (500 * (2 ^ (Z.to_nat max_retries - 1) - 1))%nat
         end)
  /\ exists d,
       snd (type_text page selector text t) = (t ++ d)%list
       /\ attempts_made d = 1%nat
       /\ match fst (type_text page selector text t) with
          | Ok b => b = true
          | Raise e => is_browser_error e = true
          end.
Proof.
  split.
  - unfold click_element.
    destruct (Z_le_gt_dec max_retries 0) as [Hle|Hgt].
    + replace (Z.to_nat max_retries) with 0%nat by lia.
      exists []. cbn. rewrite app_nil_r. auto.
    + destruct (click_loop_spec selector max_retries (Z.to_nat max_retries) 0 t
                  ltac:(lia) ltac:(lia)) as (d & Hs & Hcases).
      exists d. split; [exact Hs|].
      destruct Hcases as [[-> Hle]|(e & -> & Ht & Hcount & Hpause)].
      * split; [lia|exact Hle].
      * split; [lia|]. split; [exact Ht|]. split; [exact Hcount|].
        cbn [Nat.pow Nat.add] in Hpause. rewrite Nat.mul_sub_distr_l. lia.
  - unfold type_text, ptry, pbind, plog, pemit, pcall, praise, pret.
    destruct (wait_for_selector page _ selector) as [[]|e].
    + destruct (fill page _ selector text) as [[]|e].
      * eexists [_; _; _; _]. rewrite <- !app_assoc. repeat split.
      * eexists [_; _; _; _]. rewrite <- !app_assoc.
        split; [reflexivity|]. split; [reflexivity|]. apply type_failure_typed.
    + eexists [_; _; _]. rewrite <- !app_assoc.
      split; [reflexivity|]. split; [reflexivity|]. apply type_failure_typed.
Qed.

Lemma scroll_failure_typed (element_selector : option string) (e : Exn) :
  is_browser_error (scroll_failure element_selector e) = true.
Proof. unfold scroll_failure. now destruct (PyStr.contains "not found" _). Qed.

Lemma scroll_js_by_property (d1 d2 : string) (amount : Z)
      (element_selector : option string) (smooth : bool) :
  _get_scroll_property d1 = _get_scroll_property d2 ->
  scroll_js d1 amount element_selector smooth
  = scroll_js d2 amount element_selector smooth.
Proof. intros H. unfold scroll_js, scroll_options. now rewrite H. Qed.

Lemma scroll_js_cases (direction : string) (amount : Z)
      (element_selector : option string) (smooth : bool) :
  In (scroll_js direction amount element_selector smooth)
     [scroll_js "down" amount element_selector smooth;
      scroll_js "right" amount element_selector smooth].
Proof.
  assert (H : _get_scroll_property direction = _get_scroll_property "down"
              \/ _get_scroll_property direction = _get_scroll_property "right").
  { unfold _get_scroll_property at 1 3.
    destruct (Tools.mem (PyStr.lower direction) ["up"; "down"]); [now left|].
    destruct (Tools.mem (PyStr.lower direction) ["left"; "right"]);
      [now right|now left]. }
  destruct H as [H|H]; [left|right; left]; symmetry; now apply scroll_js_by_property.
Qed.

Ltac trail_step :=
  match goal with
  | |- Forall _ (_ :: _) => constructor
  | |- Forall _ [] => constructor
  | |- In (scroll_js _ _ _ _) _ => apply scroll_js_cases
  | |- True => exact I
  end.

(** X15: no direction scrolls back.  The script [scroll_page] evaluates
    names the axis of the direction and the amount as it was given, never
    its negative: for every direction it is the script of the direction down
    or of the direction right, so that up scrolls as down does and left as
    right.  A direction that is none of the four never reaches the page:
    the call only logs, and raises an error of the module in place of the
    ValueError. *)
Theorem scrolling_never_goes_back (direction : string) (amount : Z)
        (element_selector : option string) (smooth : bool) (t : Trail) :
  scroll_js "up" amount element_selector smooth
  = scroll_js "down" amount element_selector smooth
  /\ scroll_js "left" amount element_selector smooth
     = scroll_js "right" amount element_selector smooth
  /\ exists d,
       snd (scroll_page page direction amount element_selector smooth t) = (t ++ d)%list
       /\ evaluates_only [scroll_js "down" amount element_selector smooth;
                          scroll_js "right" amount element_selector smooth] d
       /\ (Tools.mem (PyStr.lower direction) valid_directions = false ->
           forallb is_page_log d = true
           /\ exists e,
                fst (scroll_page page direction amount element_selector smooth t)
                = Raise e
                /\ is_browser_error e = true).
Proof.
  split; [now apply scroll_js_by_property|]. split; [now apply scroll_js_by_property|].
  unfold scroll_page, ptry, pbind, plog, pemit, pcall, praise, pret, evaluates_only.
  destruct (Tools.mem (PyStr.lower direction) valid_directions); cbn [negb].
  - destruct (selector_given element_selector).
    + destruct (wait_for_selector page _ _) as [[]|e].
      * destruct (evaluate page _ _) as [[]|e].
        -- eexists [_; _; _; _]. rewrite <- !app_assoc.
           split; [reflexivity|]. split; [repeat trail_step|discriminate].
        -- eexists [_; _; _; _]. rewrite <- !app_assoc.
           split; [reflexivity|]. split; [repeat trail_step|discriminate].
        -- eexists [_; _; _; _]. rewrite <- !app_assoc.
           split; [reflexivity|]. split; [repeat trail_step|discriminate].
      * eexists [_; _; _]. rewrite <- !app_assoc.
        split; [reflexivity|]. split; [repeat trail_step|discriminate].
    + destruct (evaluate page _ _) as [[]|e].
      * eexists [_; _; _]. rewrite <- !app_assoc.
        split; [reflexivity|]. split; [repeat trail_step|discriminate].
      * eexists [_; _; _]. rewrite <- !app_assoc.
        split; [reflexivity|]. split; [repeat trail_step|discriminate].
      * eexists [_; _; _]. rewrite <- !app_assoc.
        split; [reflexivity|]. split; [repeat trail_step|discriminate].
  - eexists [_; _]. rewrite <- !app_assoc.
    split; [reflexivity|]. split; [repeat trail_step|].
    intros _. split; [reflexivity|]. eexists. split; [reflexivity|].
    apply scroll_failure_typed.
Qed.
End OnPage.

Lemma scrolling_never_goes_back_witness :
  exists e,
    fst (scroll_page dead_page "diagonal" 100 None false []) = Raise e
    /\ is_browser_error e = true.
Proof.
  destruct (scrolling_never_goes_back dead_page "diagonal" 100 None false [])
    as (_ & _ & d & _ & _ & H).
  apply H. reflexivity.
Defined.

(** *** The health check *)

Section Health.
Variable env : Env.
Variable Clock : Type.
Variable loop_time : World -> Clock.
Variable rounded_span : Clock -> Clock -> Clock.

(** X16: the health check never reports degraded, and a failed
    navigation does not count.  The status is healthy exactly when the
    browser could be created and closed, that is when the cleanup check
    passed, whatever the navigation check says; it is unhealthy otherwise,
    with the error; and the command [health] exits with 0 exactly on
    healthy. *)
Theorem health_ignores_navigation (w : World) :
  let hs := fst (health_check env Clock loop_time rounded_span w) in
  (h_status hs = "healthy" \/ h_status hs = "unhealthy")
  /\ (h_status hs = "healthy" <-> In ("browser_cleanup", "pass") (h_checks hs))
  /\ (h_status hs = "unhealthy" <-> h_error hs <> None)
  /\ (forall w0,
         fst (Cli.health env Clock loop_time rounded_span w0) = 0%nat
         <-> h_status (fst (health_check env Clock loop_time rounded_span
                              (w0 ++ [EvLog INFO "Running health check..."])%list))
             = "healthy").
Proof.
  cbv zeta. split; [|split; [|split]].
  - unfold health_check, health_probe, call.
    destruct (create_browser_context_env env _) as [ctx|e]; [|now right].
    destruct (navigate_to_url_env env _ ctx _) as [[]|e];
      destruct (close_browser_context_env env _ ctx) as [[]|e'];
      cbn; auto.
  - unfold health_check, health_probe, call.
    destruct (create_browser_context_env env _) as [ctx|e];
      [|cbn; split; [discriminate|tauto]].
    destruct (navigate_to_url_env env _ ctx _) as [[]|e];
      destruct (close_browser_context_env env _ ctx) as [[]|e'];
      cbn; split; try tauto; try discriminate;
      intros H; repeat (destruct H as [H|H]; [discriminate H|]); destruct H.
  - unfold health_check, health_probe, call.
    destruct (create_browser_context_env env _) as [ctx|e];
      [|cbn; split; [discriminate|reflexivity]].
    destruct (navigate_to_url_env env _ ctx _) as [[]|e];
      destruct (close_browser_context_env env _ ctx) as [[]|e'];
      cbn; split; try discriminate; try reflexivity; try congruence.
  - intros w0. unfold Cli.health.
    destruct (health_check env Clock loop_time rounded_span _) as [hs w1].
    cbn [fst]. destruct (h_status hs =? "healthy") eqn:E; cbn [fst].
    + apply String.eqb_eq in E. tauto.
    + apply String.eqb_neq in E. split; [discriminate|contradiction].
Qed.
End Health.

(** With a browser whose every navigation fails the system is healthy. *)
Example failed_navigation_is_healthy :
  let hs := fst (health_check Terms.probe_failing_env nat sample_loop_time sample_span []) in
  h_status hs = "healthy"
  /\ h_checks hs = [ ("browser_creation", "pass");
                     ("navigation", "fail: Navigation failed: net::ERR_ABORTED");
                     ("browser_cleanup", "pass") ]
  /\ fst (Cli.health Terms.probe_failing_env nat sample_loop_time sample_span []) = 0%nat.
Proof. cbv zeta. repeat split. Qed.

Lemma health_ignores_navigation_witness :
  h_status (fst (health_check Terms.probe_failing_env nat sample_loop_time sample_span []))
  = "healthy".
Proof.
  apply (proj1 (proj2 (health_ignores_navigation Terms.probe_failing_env nat
                         sample_loop_time sample_span []))).
  right. right. left. reflexivity.
Defined.

End PageFacts.

(** ** The command line *)

Module CliFacts.
Import Terms PageTerms BrowserAgent.

Section Run.
Variable env : Env.

(** X17: the exit code of the command [run].  The command exits with 1
    for a blank task and for a budget outside 1..20, where the budget is the
    option --max-iterations or, without the option or with the value 0, the
    configured one; without an AI backend it exits with 0 for every task
    that is not blank and not longer than [int] takes digits, and every
    budget from 4 to 20, whatever the task asks for; and the value 0 of the
    option is not refused: it runs as the command does without the
    option. *)
Theorem cli_run_exit_code (task : string) (real_browser : bool)
        (max_iterations : option Z) (cfg : Server.AgentConfig) (w : World) :
  (PyStr.strip task = EmptyString
   \/ (cli_budget max_iterations cfg < 1)%Z \/ (20 < cli_budget max_iterations cfg)%Z ->
   fst (fst (Cli.run env task real_browser max_iterations cfg w)) = 1%nat)
  /\ (ai_available env = false ->
      PyStr.strip task <> EmptyString ->
      convertible task = true ->
      (4 <= cli_budget max_iterations cfg <= 20)%Z ->
      fst (fst (Cli.run env task real_browser max_iterations cfg w)) = 0%nat)
  /\ Cli.run env task real_browser (Some 0%Z) cfg w
     = Cli.run env task real_browser None cfg w.
Proof.
  split; [|split; [|reflexivity]].
  - intros H.
    assert (Hv : exists e, validate_run task (cli_budget max_iterations cfg) = Raise e).
    { destruct (string_dec (PyStr.strip task) EmptyString) as [Hb|Hnb].
      - eexists. now apply WorkflowClaims.validate_run_blank.
      - destruct H as [H|H]; [contradiction|].
        rewrite (WorkflowClaims.validate_run_range _ _ Hnb).
        replace ((cli_budget max_iterations cfg <? 1)
                 || (cli_budget max_iterations cfg >? 20))%Z with true; [eauto|].
        symmetry. apply orb_true_iff. destruct H as [H|H].
        + left. now apply Z.ltb_lt.
        + right. apply Z.gtb_lt. lia. }
    destruct Hv as [e Hv]. unfold Cli.run, cli_budget in *.
    destruct max_iterations as [n|]; [destruct (n =? 0)%Z|];
      destruct real_browser; cbn [Server.cfg_max_iterations Server.cfg_use_real_browser];
      unfold run_agent_workflow;
      rewrite (WorkflowClaims.run_rejected env _ ainvoke _ _ _ _ e Hv); reflexivity.
  - intros Hai Hnb Hlen Hb. unfold Cli.run, cli_budget in *.
    destruct max_iterations as [n|]; [destruct (n =? 0)%Z|];
      destruct real_browser; cbn [Server.cfg_max_iterations Server.cfg_use_real_browser];
      match goal with
      | |- context [run_agent_workflow env ?s task ?m ?b ?w0] =>
          destruct (RunFacts.run_structure env s ainvoke task m b w0
                      (RuleBasedRuns.valid_budget task m Hnb ltac:(lia)))
            as (ctx & flag & w1 & res & w2 & w3 & _ & Hbody & _ & Hrun);
          unfold run_agent_workflow; rewrite Hrun;
          destruct (RuleBasedRuns.rule_based_body env s task m flag ctx w1 w2 res
                      Hai Hnb Hlen ltac:(lia) Hbody) as [-> _]
      end; reflexivity.
Qed.
End Run.

Lemma cli_run_exit_code_witness :
  fst (fst (Cli.run quiet_env "   " false None Service.default_agent_config [])) = 1%nat
  /\ fst (fst (Cli.run quiet_env "do something vague" false (Some 0%Z)
                       Service.default_agent_config [])) = 0%nat.
Proof.
  split.
  - apply (proj1 (cli_run_exit_code quiet_env "   " false None
                    Service.default_agent_config [])).
    left. reflexivity.
  - apply (proj1 (proj2 (cli_run_exit_code quiet_env "do something vague" false
                           (Some 0%Z) Service.default_agent_config []))).
    + reflexivity.
    + discriminate.
    + reflexivity.
    + vm_compute. split; discriminate.
Defined.

(** With a budget of three the command exits with 1 on a task that calls a
    tool: the executor is out of steps before it finds the run at its
    end. *)
Example three_steps_exit_with_one :
  fst (fst (Cli.run quiet_env "Navigate to amazon and find a chair" false (Some 3%Z)
                    Service.default_agent_config [])) = 1%nat.
Proof. vm_compute. reflexivity. Qed.

End CliFacts.

(** ** The advertised tools and the executor *)

Module SchemaFacts.
Import ToolSchemas Conversation Tools.

Lemma first_unexpected_none (fname : string) (accepted : list string) (kwargs : Dict) :
  (forall k v, In (k, v) kwargs -> In k accepted) ->
  ~ In "context" accepted ->
  first_unexpected fname accepted kwargs = None.
Proof.
  intros Hall Hctx. induction kwargs as [|[k v] kwargs IH]; [reflexivity|].
  cbn [first_unexpected].
  assert (Hk : In k accepted) by (apply (Hall k v); now left).
  destruct (k =? "context") eqn:E.
  - apply String.eqb_eq in E. subst k. contradiction.
  - rewrite (proj2 (SiteFacts.mem_In k accepted) Hk).
    apply IH. intros k' v' Hin. apply (Hall k' v'). now right.
Qed.

Lemma nothing_missing (required : list string) (kwargs : Dict) :
  (forall r, In r required -> Py.has_key kwargs r = true) ->
  filter (fun k => negb (Py.has_key kwargs k)) required = [].
Proof.
  intros H. induction required as [|r required IH]; [reflexivity|].
  cbn [filter]. rewrite (H r) by now left. cbn [negb].
  apply IH. intros r' Hr. apply H. now right.
Qed.

Lemma binds (fname : string) (required optional : list string) (kwargs : Dict) :
  (forall k v, In (k, v) kwargs -> In k (required ++ optional)%list) ->
  ~ In "context" (required ++ optional)%list ->
  (forall r, In r required -> Py.has_key kwargs r = true) ->
  bind_kwargs fname required optional kwargs = Ok tt.
Proof.
  intros Hkeys Hctx Hreq. unfold bind_kwargs.
  rewrite (first_unexpected_none _ _ _ Hkeys Hctx).
  now rewrite (nothing_missing _ _ Hreq).
Qed.

(** X18: the advertised tools are the ones the executor runs, and a call
    that follows the schema fits.  The schemas of [get_browser_tools] name
    exactly the tools [execute_tool] dispatches on, in the same order; and
    for each of them, arguments whose keys are properties of the schema and
    include the required ones are accepted by the wrapper of the tool: such
    a call never fails on its argument list. *)
Theorem schema_calls_fit (schema : ToolSchema) (tool_args : Dict) :
  map schema_name get_browser_tools = known_tools
  /\ (In schema get_browser_tools ->
      conforms schema tool_args ->
      ~ misfit (schema_name schema) tool_args).
Proof.
  split; [reflexivity|].
  intros Hin [Hkeys Hreq] (fname & required & optional & e & Hsig & Hbind).
  cbn [get_browser_tools In] in Hin.
  destruct Hin as [<-|[<-|[<-|[<-|[<-|[]]]]]];
    cbn [schema_name schema_properties schema_required map prop_name] in *;
    vm_compute in Hsig; try discriminate Hsig;
    injection Hsig as <- <- <-;
    rewrite binds in Hbind; try discriminate Hbind.
  all: try (intros k v Hk; exact (Hkeys k v Hk)).
  all: try (intros r Hr; apply Hreq; exact Hr).
  all: try (cbn; intuition discriminate).
Qed.

Lemma schema_calls_fit_witness :
  ~ misfit "scroll_page" [("direction", VStr "up"); ("smooth", VBool true)].
Proof.
  apply (proj2 (schema_calls_fit
                  (mkToolSchema "scroll_page"
                     "Scroll the page or a specific element in the specified direction. Use this when you need to access content that's not currently visible on the page."
                     [ mkProperty "direction" "string"
                         "Direction to scroll: 'up', 'down', 'left', or 'right'"
                         (Some ["up"; "down"; "left"; "right"]) None;
                       mkProperty "amount" "number"
                         "Number of pixels to scroll (positive number)"
                         None (Some (VInt 500));
                       mkProperty "element_selector" "string"
                         "Optional CSS selector for a specific element to scroll. If not provided, scrolls the main page."
                         None None;
                       mkProperty "smooth" "boolean"
                         "Whether to use smooth scrolling animation"
                         None (Some (VBool false)) ]
                     ["direction"])
                  [("direction", VStr "up"); ("smooth", VBool true)])).
  - right. right. right. left. reflexivity.
  - split.
    + intros k v [[= <- <-]|[[= <- <-]|[]]]; cbn; tauto.
    + intros r [<-|[]]. reflexivity.
Defined.

End SchemaFacts.

(** ** Where the rule-based provider navigates *)

Module NavigationFacts.
Import Terms Effects Conversation EffectFacts DecisionEngine Tools.

Lemma site_from_sound (s : string) :
  forall prev x, site_from prev s = Some x -> is_site x = true.
Proof.
  induction s as [|c s IH]; intros prev x; cbn [site_from].
  - destruct (site_at prev EmptyString) as [y|] eqn:Hat; [|discriminate].
    intros [= <-]. now destruct (SiteFacts.site_at_sound _ _ _ Hat) as (_ & _ & H & _).
  - destruct (site_at prev (String c s)) as [y|] eqn:Hat.
    + intros [= <-]. now destruct (SiteFacts.site_at_sound _ _ _ Hat) as (_ & _ & H & _).
    + apply IH.
Qed.

(** What the website pattern finds is a known name, as it is written. *)
Lemma mention_is_site (s : string) (m : Re.mobj) :
  Re.search (p_website_mention decision_engine) s = Some m ->
  is_site (Re.group m 0) = true.
Proof.
  change (Re.search (p_website_mention decision_engine) s)
    with (Re.search_from website_mention None s).
  rewrite SiteFacts.search_from_site.
  destruct (site_from None s) as [x|] eqn:Hs; [|discriminate].
  intros [= <-]. exact (site_from_sound _ _ _ Hs).
Qed.

(** The names hold no blank. *)
Lemma site_has_no_blank (x : string) :
  is_site x = true -> remove_blanks (PyStr.lower x) = PyStr.lower x.
Proof.
  unfold is_site. intros H. apply SiteFacts.mem_In in H.
  cbn [website_names In] in H.
  repeat (destruct H as [<-|H]; [reflexivity|]). destruct H.
Qed.

Ltac site_step :=
  match goal with
  | |- behaves _ (bind (log _ _) _) =>
      eapply (behaves_bind anything); [apply behaves_log | intros _ _]
  | |- behaves _ (bind (lift _) _) =>
      eapply (behaves_bind anything); [now apply behaves_lift | intros ? _]
  | |- behaves _ (ret (Content _)) => apply behaves_ret; intros ? [=]
  | H : Re.search _ _ = Some ?m |- behaves _ (ret (navigate_to_website_call _)) =>
      apply behaves_ret; intros ? [= <-]; exact (mention_is_site _ _ H)
  | |- behaves _ (ret (tool_call_decision _ _)) => apply behaves_ret; intros ? [=]
  | |- behaves _ (match Re.search ?p ?s with _ => _ end) =>
      let H := fresh "Hsearch" in destruct (Re.search p s) eqn:H
  | |- behaves _ (if ?b then _ else _) => destruct b
  | |- behaves _ (match ?x with _ => _ end) => destruct x
  end.

Lemma fallback_to_known_site (messages : list Message) (page_context : string) :
  behaves to_known_site (_make_fallback_decision decision_engine messages page_context).
Proof.
  unfold _make_fallback_decision, pattern_rules, after_rules.
  repeat site_step.
Qed.

(** X19: where the rule-based provider navigates.  Whenever the fallback
    decides on a navigation in a conversation of ASCII texts, the website it
    names is one of the fifteen known names, in some case; and for such a
    name the navigation tool, on a browser, asks for exactly one page, the
    address made of the name in lower case between https://www. and .com,
    and otherwise only logs. *)
Theorem rule_based_navigation_targets (env : Env) (messages : list Message)
        (page_context : string) (w w' : World) (website_name : string)
        (ctx : BrowserContext) :
  plain messages = true ->
  fst (_make_fallback_decision decision_engine messages page_context w)
  = Ok (navigate_to_website_call website_name) ->
  In (PyStr.lower website_name) website_names
  /\ exists r logs,
       snd (navigate_to_website_wrapper env (Some ctx) (VStr website_name) w')
       = (w' ++ EvNavigate ctx ("https://www." ++ PyStr.lower website_name ++ ".com") r
             :: logs)%list
       /\ forallb is_log logs = true.
Proof.
  intros _ Hd.
  destruct (fallback_to_known_site messages page_context w) as (d & _ & _ & Hp).
  pose proof (Hp _ Hd website_name eq_refl) as Hsite.
  split; [now apply SiteFacts.mem_In|].
  unfold navigate_to_website_wrapper. ToolFacts.unfold_monad.
  cbn [Security.lower_of]. rewrite (site_has_no_blank _ Hsite).
  destruct (navigate_to_url_env env w' ctx _) as [[]|e].
  - eexists _, []. split; reflexivity.
  - eexists _, [_]. rewrite <- app_assoc. split; reflexivity.
Qed.

Lemma rule_based_navigation_targets_witness :
  In (PyStr.lower "Amazon") website_names
  /\ exists r logs,
       snd (navigate_to_website_wrapper quiet_env (Some 0%nat) (VStr "Amazon") [])
       = ([] ++ EvNavigate 0%nat ("https://www." ++ PyStr.lower "Amazon" ++ ".com") r
             :: logs)%list
       /\ forallb is_log logs = true.
Proof.
  apply (rule_based_navigation_targets quiet_env [user_message "Go to Amazon now"]
           EmptyString [] [] "Amazon" 0%nat).
  - reflexivity.
  - reflexivity.
Defined.

End NavigationFacts.

(** ** The conversation as the backend gets it *)

Module LangchainFacts.
Import Langchain.

Lemma convert_known (msg : Message) :
  known_role msg = true ->
  exists m, convert_message msg = [m] /\ lc_role m = role msg.
Proof.
  unfold known_role, convert_message. intros H.
  destruct (role msg =? "user") eqn:E1.
  - apply String.eqb_eq in E1. eexists. split; [reflexivity|now rewrite E1].
  - destruct (role msg =? "assistant") eqn:E2.
    + apply String.eqb_eq in E2.
      destruct (tool_calls msg); eexists; (split; [reflexivity|now rewrite E2]).
    + destruct (role msg =? "tool") eqn:E3; [|discriminate].
      apply String.eqb_eq in E3. eexists. split; [reflexivity|now rewrite E3].
Qed.

Lemma convert_unknown (msg : Message) :
  known_role msg = false -> convert_message msg = [].
Proof.
  unfold known_role, convert_message. intros H.
  destruct (role msg =? "user"); [discriminate|].
  destruct (role msg =? "assistant"); [discriminate|].
  now destruct (role msg =? "tool").
Qed.

(** X20: what the conversion to LangChain keeps.  It keeps the messages
    of the user, the assistant and the tools, one for one and in their
    order, and silently drops every message of another role: the roles of
    the converted conversation are the known roles of the conversation, in
    order; nothing is lost when all roles are known; and a conversation
    converts as it does without its messages of other roles. *)
Theorem conversion_keeps_known_roles (messages : list Message) :
  map lc_role (_convert_messages_to_langchain messages)
  = map role (filter known_role messages)
  /\ _convert_messages_to_langchain messages
     = _convert_messages_to_langchain (filter known_role messages)
  /\ (forallb known_role messages = true ->
      List.length (_convert_messages_to_langchain messages) = List.length messages).
Proof.
  unfold _convert_messages_to_langchain.
  induction messages as [|msg messages (IH1 & IH2 & IH3)]; [now repeat split|].
  cbn [flat_map filter forallb].
  destruct (known_role msg) eqn:Hk.
  - destruct (convert_known msg Hk) as (m & Hm & Hr). rewrite Hm.
    cbn [app map flat_map length]. rewrite Hm. cbn [app].
    rewrite IH1, <- IH2, Hr. repeat split.
    cbn [andb]. intros H. now rewrite (IH3 H).
  - rewrite (convert_unknown msg Hk). cbn [app andb].
    repeat split; [exact IH1|exact IH2|discriminate].
Qed.

Lemma conversion_keeps_known_roles_witness :
  List.length (_convert_messages_to_langchain
                 [user_message "click the submit button";
                  assistant_tool_calls
                    [mkToolCall "click_element" [("selector", VStr "button")]];
                  tool_message "1" "Tool click_element executed with result: True"])
  = List.length [user_message "click the submit button";
                 assistant_tool_calls
                   [mkToolCall "click_element" [("selector", VStr "button")]];
                 tool_message "1" "Tool click_element executed with result: True"].
Proof.
  apply (proj2 (proj2 (conversion_keeps_known_roles
                         [user_message "click the submit button";
                          assistant_tool_calls
                            [mkToolCall "click_element" [("selector", VStr "button")]];
                          tool_message "1"
                            "Tool click_element executed with result: True"]))).
  reflexivity.
Defined.

End LangchainFacts.
